(** * Lab_Track: the entity and transaction core of [mainV10.py]

    A shallow embedding of the in-process backend of [DatabaseManager]
    (the [use_mock] branch of every method) and of the admission checks of
    [LabApp] that guard it, followed by the properties of the
    specification that concern them.

    Conventions of the embedding.
    - Python [int] is [Z]; [len(l) + 1] is [Z.of_nat (length l) + 1].
    - Python [str] is [string], one character per code point; the
      module [PyStr] gives [upper], [lower], [strip], [replace(' ', '')],
      [ljust], [startswith], slicing, [int(...)] and the format [:03d]
      as Python defines them on ASCII text ([PyStr.is_ascii]).  On other
      text Python's case mapping, white space and digits follow the
      Unicode tables, which are not part of the program; every property
      below that depends on them is stated for ASCII text.
    - The record dictionaries of the store become records, the status
      strings "Available" / "Issued" / "Damaged" and "Active" / "Closed"
      become enumerations.
    - [datetime] values are integer counts of microseconds since
      1970-01-01T00:00:00, between [datetime_min] (year 1) and
      [datetime_max] (year 9999); arithmetic that leaves this range
      raises [OverflowError].  An operation that reads the clock once
      takes the instant as an argument; [get_overdue_items], which reads
      it again for every entry, takes the successive readings.
      A timestamp stored with [isoformat()] and read back with
      [fromisoformat] is the same count.
    - A call that can raise returns [Raised + result]; a call that can
      raise after it has written to the store returns the store it
      leaves behind together with [Raised + result].
    - The store is passed explicitly: an operation takes the
      [DatabaseManager] and returns the new one with its result. *)

From Stdlib Require Import ZArith List Bool Lia String Ascii.
Import ListNotations.
Open Scope string_scope.
Open Scope list_scope.
Open Scope Z_scope.

(* ================================================================= *)
(** ** Python string operations on ASCII text *)

Module PyStr.

Definition code (c : ascii) : Z := Z.of_N (N_of_ascii c).

Definition is_lower (c : ascii) : bool := (97 <=? code c) && (code c <=? 122).

Definition is_digit (c : ascii) : bool := (48 <=? code c) && (code c <=? 57).

(** [s.isascii()] *)
Fixpoint is_ascii (s : string) : bool :=
  match s with
  | EmptyString => true
  | String c r => (code c <? 128) && is_ascii r
  end.

(** The ASCII characters [str.strip()] treats as white space: tab to
    carriage return, the four separators 28 to 31, and the space. *)
Definition is_space (c : ascii) : bool :=
  ((9 <=? code c) && (code c <=? 13))
  || ((28 <=? code c) && (code c <=? 32)).

(** The characters [int()] skips around an ASCII literal: tab to
    carriage return and the space, not the separators 28 to 31. *)
Definition is_int_space (c : ascii) : bool :=
  ((9 <=? code c) && (code c <=? 13)) || (code c =? 32).

Definition upper_char (c : ascii) : ascii :=
  if is_lower c then ascii_of_N (Z.to_N (code c - 32)) else c.

(** [s.upper()] *)
Fixpoint upper (s : string) : string :=
  match s with
  | EmptyString => EmptyString
  | String c r => String (upper_char c) (upper r)
  end.

(** [s[:n]] *)
Fixpoint take (n : nat) (s : string) : string :=
  match n, s with
  | S k, String c r => String c (take k r)
  | _, _ => EmptyString
  end.

(** [s[n:]] *)
Fixpoint drop (n : nat) (s : string) : string :=
  match n, s with
  | S k, String _ r => drop k r
  | _, _ => s
  end.

(** [s.replace(' ', '')] *)
Fixpoint remove_spaces (s : string) : string :=
  match s with
  | EmptyString => EmptyString
  | String c r =>
      if Ascii.eqb c " "%char then remove_spaces r
      else String c (remove_spaces r)
  end.

Fixpoint repeat_char (c : ascii) (n : nat) : string :=
  match n with
  | O => EmptyString
  | S k => String c (repeat_char c k)
  end.

(** [s.ljust(width, fill)] *)
Definition ljust (width : nat) (fill : ascii) (s : string) : string :=
  (s ++ repeat_char fill (width - String.length s))%string.

(** [s.startswith(p)] *)
Definition startswith (s p : string) : bool := String.prefix p s.

Fixpoint lstrip (s : string) : string :=
  match s with
  | EmptyString => EmptyString
  | String c r => if is_space c then lstrip r else s
  end.

Fixpoint rstrip (s : string) : string :=
  match s with
  | EmptyString => EmptyString
  | String c r =>
      match rstrip r with
      | EmptyString => if is_space c then EmptyString else String c EmptyString
      | r' => String c r'
      end
  end.

(** [s.strip()] *)
Definition strip (s : string) : string := rstrip (lstrip s).

Definition digit_val (c : ascii) : Z := code c - 48.

(** The digit part of a decimal literal accepted by [int()]: at least
    one digit, single underscores allowed between digits only.
    [after_digit] tells whether the previous character was a digit. *)
Fixpoint parse_digits (acc : Z) (after_digit : bool) (s : string) : option Z :=
  match s with
  | EmptyString => if after_digit then Some acc else None
  | String c r =>
      if is_digit c then parse_digits (10 * acc + digit_val c) true r
      else if Ascii.eqb c "_"%char then
             if after_digit then parse_digits acc false r else None
      else None
  end.

Fixpoint skip_int_space (s : string) : string :=
  match s with
  | EmptyString => EmptyString
  | String c r => if is_int_space c then skip_int_space r else s
  end.

Fixpoint drop_trailing_int_space (s : string) : string :=
  match s with
  | EmptyString => EmptyString
  | String c r =>
      match drop_trailing_int_space r with
      | EmptyString => if is_int_space c then EmptyString else String c EmptyString
      | r' => String c r'
      end
  end.

(** [sys.get_int_max_str_digits()], the default of CPython since 3.11
    (and of the later releases of 3.7 to 3.10): longer decimal literals
    are refused by [int()], longer numbers by [str()] and by the
    format [d]. *)
Definition max_str_digits : nat := 4300.

Fixpoint count_digits (s : string) : nat :=
  match s with
  | EmptyString => O
  | String c r => if is_digit c then S (count_digits r) else count_digits r
  end.

(** The unsigned part of a literal. *)
Definition parse_literal (s : string) : option Z :=
  if (max_str_digits <? count_digits s)%nat then None
  else parse_digits 0 false s.

(** [int(s)] in base ten; [None] stands for [ValueError]. *)
Definition py_int (s : string) : option Z :=
  match drop_trailing_int_space (skip_int_space s) with
  | String "+" r => parse_literal r
  | String "-" r => option_map Z.opp (parse_literal r)
  | r => parse_literal r
  end.

Definition digit_char (d : Z) : ascii := ascii_of_N (Z.to_N (48 + d)).

(** Decimal digits of a non-negative number, most significant first,
    in front of [rest]; [fuel] bounds the number of digits. *)
Fixpoint digits_onto (fuel : nat) (n : Z) (rest : string) : string :=
  match fuel with
  | O => rest
  | S k =>
      if n <? 10 then String (digit_char n) rest
      else digits_onto k (n / 10) (String (digit_char (n mod 10)) rest)
  end.

(** [str(n)] for [n >= 0]; a number below [2 ^ f] has at most [f] digits. *)
Definition decimal (n : Z) : string :=
  digits_onto (S (Z.to_nat (Z.log2 n))) n EmptyString.

(** [s.zfill(width)] for a string of digits. *)
Definition zfill (width : nat) (s : string) : string :=
  (repeat_char "0" (width - String.length s) ++ s)%string.

(** The format [f"{n:03d}"]: the sign counts in the width. *)
Definition format_03d (n : Z) : string :=
  if n <? 0 then String "-" (zfill 2 (decimal (- n)))
  else zfill 3 (decimal n).

(** Whether [n] has more than [max_str_digits] digits, in which case
    formatting it raises [ValueError]. *)
Definition exceeds_str_digits (n : Z) : bool :=
  (max_str_digits <? String.length (decimal (Z.abs n)))%nat.

End PyStr.

(* ================================================================= *)
(** ** The record collections of the store *)

Inductive ItemStatus := Available | Issued | Damaged.

Inductive TransactionStatus := Active | Closed.

Definition ItemStatus_eqb (a b : ItemStatus) : bool :=
  match a, b with
  | Available, Available | Issued, Issued | Damaged, Damaged => true
  | _, _ => false
  end.

Definition is_active (st : TransactionStatus) : bool :=
  match st with Active => true | Closed => false end.

(** The exceptions the embedded code can raise. *)
Inductive Raised := AttributeError | ValueError | OverflowError.

(** A timestamp: microseconds since 1970-01-01T00:00:00. *)
Definition datetime := Z.

Record Inventory := mkInventory {
  inv_id : Z;
  inv_name : string;
  total_qty : Z;
  course : option string;
  inv_description : option string
}.

Record Item := mkItem {
  item_id : Z;
  serial_number : string;
  status : ItemStatus;
  inventory_id : Z
}.

Record Student := mkStudent {
  student_pk : Z;
  student_name : string;
  student_id : string;
  phone : string;
  email : string
}.

Record Staff := mkStaff {
  staff_pk : Z;
  staff_name : string;
  staff_id : string
}.

(** [issuer_id], [created_at], [issue_date] and [closed_at] are keys a
    transaction dictionary may lack. *)
Record Transaction := mkTransaction {
  tx_id : Z;
  tx_student_id : Z;
  issuer_id : option Z;
  tx_status : TransactionStatus;
  created_at : option datetime;
  issue_date : option datetime;
  closed_at : option datetime
}.

Record TransactionItem := mkTransactionItem {
  ti_id : Z;
  transaction_id : Z;
  ti_item_id : Z
}.

Record DatabaseManager := mkDB {
  mock_inventory : list Inventory;
  mock_items : list Item;
  mock_students : list Student;
  mock_staff : list Staff;
  mock_transactions : list Transaction;
  mock_transaction_items : list TransactionItem
}.

Definition len {A} (l : list A) : Z := Z.of_nat (List.length l).

Definition microseconds_per_day : Z := 86400 * 1000000.

(** [timedelta(days=d)] *)
Definition timedelta_days (d : Z) : Z := d * microseconds_per_day.

(** [datetime.min], 0001-01-01T00:00:00, and [datetime.max],
    9999-12-31T23:59:59.999999. *)
Definition datetime_min : datetime := - 62135596800 * 1000000.
Definition datetime_max : datetime := 253402300800 * 1000000 - 1.

(** [timedelta.max.days] *)
Definition timedelta_max_days : Z := 999999999.

(** [t - timedelta(days=d)]: the constructor refuses more than
    [timedelta_max_days] days, the subtraction a result outside
    [datetime_min .. datetime_max]. *)
Definition minus_days (t : datetime) (d : Z) : Raised + datetime :=
  if Z.abs d <=? timedelta_max_days then
    let r := t - timedelta_days d in
    if (datetime_min <=? r) && (r <=? datetime_max) then inr r
    else inl OverflowError
  else inl OverflowError.

(** [_init_mock_data], run at the instant [now], which is taken to be
    ten days or more after [datetime_min], so that the date of the
    second loan exists. *)
Definition _init_mock_data (now : datetime) : DatabaseManager :=
  {| mock_inventory :=
       [ mkInventory 1 "Arduino" 10 (Some "ECE101") None;
         mkInventory 2 "Raspberry Pi" 5 (Some "CS201") None;
         mkInventory 3 "Sensor" 20 (Some "ECE101") None ];
     mock_items :=
       [ mkItem 1 "ARD001" Available 1;
         mkItem 2 "ARD002" Available 1;
         mkItem 3 "ARD003" Issued 1;
         mkItem 4 "ARD004" Damaged 1;
         mkItem 5 "RPI001" Available 2;
         mkItem 6 "RPI002" Available 2;
         mkItem 7 "SEN001" Available 3 ];
     mock_students :=
       [ mkStudent 1 "John Doe" "STU001" "555-0101" "john.doe@university.edu";
         mkStudent 2 "Jane Smith" "STU002" "555-0102" "jane.smith@university.edu";
         mkStudent 3 "Bob Johnson" "STU003" "555-0103" "bob.johnson@university.edu" ];
     mock_staff :=
       [ mkStaff 1 "Dr. Sarah Chen" "STAFF001";
         mkStaff 2 "Prof. Michael Brown" "STAFF002";
         mkStaff 3 "Lab Assistant" "STAFF003" ];
     mock_transactions :=
       [ mkTransaction 1 1 (Some 1) Active (Some now) (Some now) None;
         mkTransaction 2 2 (Some 2) Active
           (Some (now - timedelta_days 10)) (Some (now - timedelta_days 10)) None ];
     mock_transaction_items :=
       [ mkTransactionItem 1 1 3;
         mkTransactionItem 2 2 5 ] |}.

(* ================================================================= *)
(** ** Store updates shared by the operations *)

Definition with_status (it : Item) (st : ItemStatus) : Item :=
  mkItem (item_id it) (serial_number it) st (inventory_id it).

(** [for item in self.mock_items: if item["id"] == item_id:
       item["status"] = st; break] *)
Fixpoint update_item_status (items : list Item) (id : Z) (st : ItemStatus) : list Item :=
  match items with
  | [] => []
  | it :: rest =>
      if item_id it =? id then with_status it st :: rest
      else it :: update_item_status rest id st
  end.

Definition closed_now (t : Transaction) (now : datetime) : Transaction :=
  mkTransaction (tx_id t) (tx_student_id t) (issuer_id t) Closed
                (created_at t) (issue_date t) (Some now).

(** [for trans in self.mock_transactions: if trans["id"] == transaction_id:
       trans["status"] = "Closed"; trans["closed_at"] = now; break] *)
Fixpoint close_transaction (txs : list Transaction) (id : Z) (now : datetime)
  : list Transaction :=
  match txs with
  | [] => []
  | t :: rest =>
      if tx_id t =? id then closed_now t now :: rest
      else t :: close_transaction rest id now
  end.

(** First record of a list with the given id, as the inner lookup loops
    ending in [break] find it. *)
Definition find_item (items : list Item) (id : Z) : option Item :=
  find (fun it => item_id it =? id) items.

Definition find_transaction (txs : list Transaction) (id : Z) : option Transaction :=
  find (fun t => tx_id t =? id) txs.

Definition set_items (db : DatabaseManager) (items : list Item) : DatabaseManager :=
  mkDB (mock_inventory db) items (mock_students db) (mock_staff db)
       (mock_transactions db) (mock_transaction_items db).

Definition set_transactions (db : DatabaseManager) (txs : list Transaction)
  : DatabaseManager :=
  mkDB (mock_inventory db) (mock_items db) (mock_students db) (mock_staff db)
       txs (mock_transaction_items db).

Definition set_transaction_items (db : DatabaseManager) (tis : list TransactionItem)
  : DatabaseManager :=
  mkDB (mock_inventory db) (mock_items db) (mock_students db) (mock_staff db)
       (mock_transactions db) tis.

Definition set_inventory (db : DatabaseManager) (invs : list Inventory)
  : DatabaseManager :=
  mkDB invs (mock_items db) (mock_students db) (mock_staff db)
       (mock_transactions db) (mock_transaction_items db).

Definition set_students (db : DatabaseManager) (sts : list Student)
  : DatabaseManager :=
  mkDB (mock_inventory db) (mock_items db) sts (mock_staff db)
       (mock_transactions db) (mock_transaction_items db).

(** Python truth value of an [Optional[int]]: [None] and [0] are false. *)
Definition truthy_id (o : option Z) : option Z :=
  match o with
  | Some i => if i =? 0 then None else Some i
  | None => None
  end.

(* ================================================================= *)
(** ** [DatabaseManager]: the transaction workflow *)

(** Body of the loop [for item_id in item_ids] of [create_transaction]. *)
Definition issue_line (transaction_id : Z) (db : DatabaseManager) (id : Z)
  : DatabaseManager :=
  let tis := mock_transaction_items db in
  let db1 :=
    set_transaction_items db
      (tis ++ [mkTransactionItem (len tis + 1) transaction_id id]) in
  set_items db1 (update_item_status (mock_items db1) id Issued).

(** [create_transaction(student_id, item_ids, issuer_id)]; the result is
    the store and the returned [Optional[int]]. *)
Definition create_transaction (db : DatabaseManager) (now : datetime)
    (student_id : Z) (item_ids : list Z) (issuer : option Z)
  : DatabaseManager * option Z :=
  let transaction_id := len (mock_transactions db) + 1 in
  let transaction_data :=
    mkTransaction transaction_id student_id (truthy_id issuer) Active
                  (Some now) (Some now) None in
  let db1 := set_transactions db (mock_transactions db ++ [transaction_data]) in
  (fold_left (issue_line transaction_id) item_ids db1, Some transaction_id).

(** The common body of [return_item] and [report_damaged]. *)
Definition resolve_item (st : ItemStatus) (db : DatabaseManager)
    (id transaction_id : Z) (now : datetime) : DatabaseManager * bool :=
  let db1 := set_items db (update_item_status (mock_items db) id st) in
  let db2 :=
    set_transactions db1 (close_transaction (mock_transactions db1) transaction_id now) in
  (db2, true).

(** [return_item(item_id, transaction_id)] *)
Definition return_item := resolve_item Available.

(** [report_damaged(item_id, transaction_id)] *)
Definition report_damaged := resolve_item Damaged.

(** [delete_student(student_id)] *)
Definition delete_student (db : DatabaseManager) (student_id : Z)
  : DatabaseManager * bool :=
  (set_students db
     (filter (fun s => negb (student_pk s =? student_id)) (mock_students db)),
   true).

(* ================================================================= *)
(** ** [DatabaseManager.get_overdue_items] *)

(** A copy of an item dictionary with the two added keys. *)
Record OverdueItem := mkOverdue {
  od_item : Item;
  od_transaction_id : Z;
  days_overdue : Z
}.

(** [trans.get("issue_date") or trans.get("created_at")] *)
Definition issue_date_or_created (t : Transaction) : option datetime :=
  match issue_date t with
  | Some d => Some d
  | None => created_at t
  end.

(** [(now - issue_date).days]: whole days, rounded down. *)
Definition timedelta_in_days (now d : datetime) : Z := (now - d) / microseconds_per_day.

(** The values of [datetime.now()] during one call, in the order in
    which the call reads them. *)
Definition Clock := nat -> datetime.

(** The loop over the lines of one overdue transaction.  Every entry it
    appends reads the clock again; the first reading of the call having
    made the threshold, the entry appended after [n] others is made
    with reading [n + 1]. *)
Definition overdue_of_transaction (db : DatabaseManager) (clock : Clock)
    (t : Transaction) (d : datetime) (overdue_items : list OverdueItem)
  : list OverdueItem :=
  fold_left
    (fun overdue_items trans_item =>
       if transaction_id trans_item =? tx_id t then
         match find_item (mock_items db) (ti_item_id trans_item) with
         | Some it =>
             overdue_items
             ++ [mkOverdue it (tx_id t)
                   (timedelta_in_days (clock (S (List.length overdue_items))) d)]
         | None => overdue_items
         end
       else overdue_items)
    (mock_transaction_items db) overdue_items.

(** [get_overdue_items]: the threshold date is computed before the loop
    and outside its [try], so an [OverflowError] there ends the call. *)
Definition get_overdue_items (db : DatabaseManager) (clock : Clock)
    (days_threshold : Z) : Raised + list OverdueItem :=
  match minus_days (clock O) days_threshold with
  | inl e => inl e
  | inr threshold_date =>
      inr (fold_left
             (fun overdue_items trans =>
                if is_active (tx_status trans) then
                  match issue_date_or_created trans with
                  | Some d =>
                      if d <? threshold_date
                      then overdue_of_transaction db clock trans d overdue_items
                      else overdue_items
                  | None => overdue_items
                  end
                else overdue_items)
             (mock_transactions db) [])
  end.

(* ================================================================= *)
(** ** [DatabaseManager.bulk_import_inventory] *)

(** A float, as [int()] converts it: a finite one to [whole], its value
    rounded toward zero. *)
Inductive FloatValue := Finite (whole : Z) | NaN | Infinite.

(** A cell of the imported table as [pandas] hands it over: a text, a
    whole number, a float (an empty cell is [Float NaN]), or no cell at
    all when the table lacks the column. *)
Inductive Cell :=
| Text (s : string)
| Whole (n : Z)
| Float (x : FloatValue)
| NoColumn.

(** One row of the imported table. *)
Record CsvRow := mkRow {
  component_name : Cell;
  quantity : Cell;
  description : Cell
}.

(** [row.get(key, '').strip()]: only a text has [strip]. *)
Definition stripped (c : Cell) : Raised + string :=
  match c with
  | Text s => inr (PyStr.strip s)
  | NoColumn => inr (PyStr.strip "")
  | Whole _ | Float _ => inl AttributeError
  end.

(** [int(row.get('Quantity', 0))] *)
Definition to_int (c : Cell) : Raised + Z :=
  match c with
  | Text s =>
      match PyStr.py_int s with
      | Some n => inr n
      | None => inl ValueError
      end
  | Whole n => inr n
  | Float (Finite n) => inr n
  | Float NaN => inl ValueError
  | Float Infinite => inl OverflowError
  | NoColumn => inr 0
  end.

(** [inv["name"].upper() == component_name.upper()] *)
Definition name_matches (name : string) (inv : Inventory) : bool :=
  String.eqb (PyStr.upper (inv_name inv)) (PyStr.upper name).

(** [existing_inv["total_qty"] += quantity] on the first matching record. *)
Fixpoint add_quantity (invs : list Inventory) (name : string) (q : Z) : list Inventory :=
  match invs with
  | [] => []
  | inv :: rest =>
      if name_matches name inv then
        mkInventory (inv_id inv) (inv_name inv) (total_qty inv + q)
                    (course inv) (inv_description inv) :: rest
      else inv :: add_quantity rest name q
  end.

(** [prefix = component_name[:3].upper().replace(' ', '')], padded with
    ['X'] when shorter than three characters. *)
Definition serial_prefix (name : string) : string :=
  let prefix := PyStr.remove_spaces (PyStr.upper (PyStr.take 3 name)) in
  if (String.length prefix <? 3)%nat then PyStr.ljust 3 "X" prefix else prefix.

(** Body of the loop that looks for the highest existing serial. *)
Definition scan_serial (inventory : Z) (prefix : string) (max_num : Z) (it : Item) : Z :=
  if inventory_id it =? inventory then
    if PyStr.startswith (serial_number it) prefix then
      match PyStr.py_int (PyStr.drop (String.length prefix) (serial_number it)) with
      | Some num => Z.max max_num num
      | None => max_num
      end
    else max_num
  else max_num.

Definition highest_serial (items : list Item) (inventory : Z) (prefix : string) : Z :=
  fold_left (scan_serial inventory prefix) items 0.

(** [range(n)] *)
Definition range (n : Z) : list Z := map Z.of_nat (seq 0 (Z.to_nat n)).

(** Body of the loop [for i in range(quantity)]: the format raises
    [ValueError] on a number of more than [max_str_digits] digits. *)
Definition append_item (prefix : string) (max_num inventory : Z)
    (items : list Item) (i : Z) : Raised + list Item :=
  if PyStr.exceeds_str_digits (max_num + i + 1) then inl ValueError
  else
    inr (items ++ [mkItem (len items + 1)
                          (prefix ++ PyStr.format_03d (max_num + i + 1))%string
                          Available inventory]).

(** The loop [for i in range(quantity)]: the items it has appended, and
    the exception that stopped it, if any. *)
Fixpoint append_items (prefix : string) (max_num inventory : Z)
    (indices : list Z) (items : list Item) : list Item * option Raised :=
  match indices with
  | [] => (items, None)
  | i :: rest =>
      match append_item prefix max_num inventory items i with
      | inl e => (items, Some e)
      | inr items' => append_items prefix max_num inventory rest items'
      end
  end.

(** The store with the two running counts
    [(inventory_created, items_created)]. *)
Definition ImportState : Type := DatabaseManager * (Z * Z).

(** What the loop leaves: the store, and the exception that ended it or
    the two counts. *)
Definition ImportResult : Type := DatabaseManager * (Raised + (Z * Z)).

(** Body of the loop [for row in csv_data].  The three cells are
    converted before the row is looked at. *)
Definition import_row (st : ImportState) (row : CsvRow) : ImportResult :=
  let '(db, (inventory_created, items_created)) := st in
  match stripped (component_name row) with
  | inl e => (db, inl e)
  | inr name =>
  match to_int (quantity row) with
  | inl e => (db, inl e)
  | inr q =>
  match stripped (description row) with
  | inl e => (db, inl e)
  | inr descr =>
      if String.eqb name "" || (q <=? 0) then (db, inr (inventory_created, items_created))
      else
        let '(db1, inventory, inventory_created1) :=
          match find (name_matches name) (mock_inventory db) with
          | Some existing_inv =>
              (set_inventory db (add_quantity (mock_inventory db) name q),
               inv_id existing_inv, inventory_created)
          | None =>
              let new_id := len (mock_inventory db) + 1 in
              (set_inventory db
                 (mock_inventory db ++ [mkInventory new_id name q None (Some descr)]),
               new_id, inventory_created + 1)
          end in
        let prefix := serial_prefix name in
        let max_num := highest_serial (mock_items db1) inventory prefix in
        match append_items prefix max_num inventory (range q) (mock_items db1) with
        | (items, Some e) => (set_items db1 items, inl e)
        | (items, None) =>
            (set_items db1 items,
             inr (inventory_created1, items_created + len (range q)))
        end
  end end end.

(** The loop [for row in csv_data]: an exception ends it and leaves
    the records of the rows before in the store. *)
Fixpoint import_rows (csv_data : list CsvRow) (st : ImportState) : ImportResult :=
  match csv_data with
  | [] => (fst st, inr (snd st))
  | row :: rest =>
      match import_row st row with
      | (db, inl e) => (db, inl e)
      | (db, inr counts) => import_rows rest (db, counts)
      end
  end.

Definition bulk_import_inventory (db : DatabaseManager) (csv_data : list CsvRow)
  : ImportResult :=
  import_rows csv_data (db, (0, 0)).

(* ================================================================= *)
(** ** [LabApp]: admission to the cart and finalisation *)

Inductive Popup :=
| ErrorPopup (message title : string)
| WarningPopup (it : Item)
| SuccessPopup (transaction : Z)
| NoPopup.

(** The state of the application that the handlers below read.  The
    cart holds item dictionaries of the store; [cart_items] gives them
    as they read when they were put into the cart.  Of a cart entry the
    handlers read the id only, which no operation changes. *)
Record LabApp := mkApp {
  db : DatabaseManager;
  cart_items : list Item;
  current_issuer_id : option Z;
  issuer_dropdown : option string;
  student_dropdown : string
}.

Definition set_cart (app : LabApp) (cart : list Item) : LabApp :=
  mkApp (db app) cart (current_issuer_id app) (issuer_dropdown app) (student_dropdown app).

(** [_add_item_to_cart] *)
Definition _add_item_to_cart (app : LabApp) (it : Item) : LabApp * Popup :=
  if existsb (fun cart_item => item_id cart_item =? item_id it) (cart_items app)
  then (app, ErrorPopup "Item already in cart!" "Duplicate")
  else (set_cart app (cart_items app ++ [it]), NoPopup).

(** [_handle_serial_number]; the branch for a status outside the three
    known ones has no counterpart, [ItemStatus] having no other value. *)
Definition _handle_serial_number (app : LabApp) (it : Item) : LabApp * Popup :=
  match status it with
  | Issued => (app, ErrorPopup "Item already issued!" "Error")
  | Damaged => (app, WarningPopup it)
  | Available => _add_item_to_cart app it
  end.

(** [_confirm_damaged_issue], the "Confirm Issue" button of the warning. *)
Definition _confirm_damaged_issue (app : LabApp) (it : Item) : LabApp * Popup :=
  _add_item_to_cart app it.

(** [f"{name} ({code})"] *)
Definition dropdown_label (name code : string) : string :=
  (name ++ " (" ++ code ++ ")")%string.

(** The issuer [_finalize_issue] settles on. *)
Definition selected_issuer (app : LabApp) : option Z :=
  match truthy_id (current_issuer_id app) with
  | Some i => Some i
  | None =>
      match issuer_dropdown app with
      | Some issuer_value =>
          if String.eqb issuer_value "" then None
          else
            truthy_id
              (option_map staff_pk
                 (find (fun s => String.eqb (dropdown_label (staff_name s) (staff_id s))
                                            issuer_value)
                       (mock_staff (db app))))
      | None => None
      end
  end.

(** [_finalize_issue].  The method binds none of the fields of the
    application anew: it returns the store it leaves and the popup it
    shows.  The entries of the cart are the store's own item
    dictionaries, so what they show after the call is what the returned
    store holds for them. *)
Definition _finalize_issue (app : LabApp) (now : datetime) : DatabaseManager * Popup :=
  match cart_items app with
  | [] => (db app, ErrorPopup "Cart is empty. Add items before finalizing." "Empty Cart")
  | _ =>
      match selected_issuer app with
      | None =>
          (db app,
           ErrorPopup
             "Please select an issuer (staff member) from the top right selector."
             "No Issuer Selected")
      | Some issuer =>
          if String.eqb (student_dropdown app) "" then
            (db app, ErrorPopup "Please select a student." "No Student Selected")
          else
            match find (fun s => String.eqb
                                   (dropdown_label (student_name s) (student_id s))
                                   (student_dropdown app))
                       (mock_students (db app)) with
            | None => (db app, ErrorPopup "Invalid student selection." "Error")
            | Some selected_student =>
                let '(db', result) :=
                  create_transaction (db app) now (student_pk selected_student)
                                     (map item_id (cart_items app)) (Some issuer) in
                match truthy_id result with
                | Some transaction => (db', SuccessPopup transaction)
                | None =>
                    (db',
                     ErrorPopup "Failed to create transaction. Please try again." "Error")
                end
            end
      end
  end.

(* ================================================================= *)
(** ** Notions used to state the properties *)

(** *** Active references and the status invariant *)

(** Some transaction with id [t] is [Active]. *)
Definition transaction_active (txs : list Transaction) (t : Z) : bool :=
  existsb (fun x => (tx_id x =? t) && is_active (tx_status x)) txs.

(** The lines that reference item [i] and belong to an [Active] transaction. *)
Definition active_lines (d : DatabaseManager) (i : Z) : list TransactionItem :=
  filter (fun l => (ti_item_id l =? i)
                   && transaction_active (mock_transactions d) (transaction_id l))
         (mock_transaction_items d).

Definition active_refs (d : DatabaseManager) (i : Z) : nat :=
  List.length (active_lines d i).

(** An item is [Issued] exactly when one line of an [Active] transaction
    references it. *)
Definition status_invariant (d : DatabaseManager) : Prop :=
  forall it, In it (mock_items d) ->
             (status it = Issued <-> active_refs d (item_id it) = 1%nat).

(** The ids [1 .. n], as [len(...) + 1] hands them out. *)
Definition numbered (n : nat) : list Z := map Z.of_nat (seq 1 n).

(** A store whose items and transactions carry the ids [1 .. n] in order,
    whose lines reference existing items and transactions, and in which an
    [Issued] item has one active reference and any other item none. *)
Record consistent (d : DatabaseManager) : Prop := mkConsistent {
  items_numbered :
    map item_id (mock_items d) = numbered (List.length (mock_items d));
  transactions_numbered :
    map tx_id (mock_transactions d) = numbered (List.length (mock_transactions d));
  lines_in_range :
    forall l, In l (mock_transaction_items d) ->
              1 <= ti_item_id l <= len (mock_items d)
              /\ 1 <= transaction_id l <= len (mock_transactions d);
  issued_once :
    forall it, In it (mock_items d) ->
               active_refs d (item_id it)
               = if ItemStatus_eqb (status it) Issued then 1%nat else 0%nat
}.

(** Transaction [t] is [Active], has a line, and all its lines reference
    item [i]. *)
Definition sole_active_loan (d : DatabaseManager) (i t : Z) : Prop :=
  transaction_active (mock_transactions d) t = true
  /\ (exists l, In l (mock_transaction_items d)
                /\ transaction_id l = t /\ ti_item_id l = i)
  /\ (forall l, In l (mock_transaction_items d) ->
                transaction_id l = t -> ti_item_id l = i).

(** The guarded calls: distinct existing items that are not [Issued] are
    issued together; an item is returned or reported damaged on the active
    transaction that lent it alone; any table is imported. *)
Inductive guarded_step (d : DatabaseManager) : DatabaseManager -> Prop :=
| step_issue (now : datetime) (student : Z) (ids : list Z) (issuer : option Z) :
    NoDup ids ->
    (forall i, In i ids ->
               exists it, find_item (mock_items d) i = Some it /\ status it <> Issued) ->
    guarded_step d (fst (create_transaction d now student ids issuer))
| step_return (i t : Z) (now : datetime) :
    sole_active_loan d i t ->
    guarded_step d (fst (return_item d i t now))
| step_damaged (i t : Z) (now : datetime) :
    sole_active_loan d i t ->
    guarded_step d (fst (report_damaged d i t now))
| step_import (rows : list CsvRow) :
    guarded_step d (fst (bulk_import_inventory d rows)).

Inductive guarded_run (d : DatabaseManager) : DatabaseManager -> Prop :=
| run_done : guarded_run d d
| run_step d1 d2 : guarded_run d d1 -> guarded_step d1 d2 -> guarded_run d d2.

(** The lines [create_transaction] appends after [n] existing ones. *)
Fixpoint numbered_lines (n : Z) (t : Z) (ids : list Z) : list TransactionItem :=
  match ids with
  | [] => []
  | i :: rest => mkTransactionItem (n + 1) t i :: numbered_lines (n + 1) t rest
  end.

(** A store that satisfies [consistent]: the fixture once RPI001 (item 5)
    has been returned on its transaction 2. *)
Definition consistent_fixture (now : datetime) : DatabaseManager :=
  fst (return_item (_init_mock_data now) 5 2 now).

(** *** The overdue report *)

(** The list a call returns; empty when the call raises. *)
Definition returned {A} (r : Raised + list A) : list A :=
  match r with
  | inr l => l
  | inl _ => []
  end.

(** The loans of transaction [t], issued at [dt]: for each of its lines
    that references a stored item, that item with the id of [t] and
    [dt], in the order of the lines. *)
Definition loans_of (d : DatabaseManager) (t : Transaction) (dt : datetime)
  : list (Item * Z * datetime) :=
  flat_map
    (fun l =>
       if transaction_id l =? tx_id t then
         match find_item (mock_items d) (ti_item_id l) with
         | Some it => [(it, tx_id t, dt)]
         | None => []
         end
       else [])
    (mock_transaction_items d).

(** The loans of the [Active] transactions issued strictly before
    [threshold_date], in the order of the transactions. *)
Definition overdue_loans (d : DatabaseManager) (threshold_date : datetime)
  : list (Item * Z * datetime) :=
  flat_map
    (fun t =>
       if is_active (tx_status t) then
         match issue_date_or_created t with
         | Some dt => if dt <? threshold_date then loans_of d t dt else []
         | None => []
         end
       else [])
    (mock_transactions d).

(** The report of a list of loans: the loan at position [k] is entered
    with the days elapsed at reading [first + k] of the clock. *)
Fixpoint annotate (clock : Clock) (first : nat) (loans : list (Item * Z * datetime))
  : list OverdueItem :=
  match loans with
  | [] => []
  | (it, t, dt) :: rest =>
      mkOverdue it t (timedelta_in_days (clock first) dt) :: annotate clock (S first) rest
  end.

(** The threshold is one [minus_days] accepts at the instant [now]. *)
Definition threshold_in_range (now : datetime) (days : Z) : Prop :=
  Z.abs days <= timedelta_max_days
  /\ datetime_min <= now - timedelta_days days <= datetime_max.

(** *** The serial numbers of an import row, in the words of the specification *)

(** The inventory a row with the given (stripped) name is filed under. *)
Definition target_inventory (d : DatabaseManager) (name : string) : Z :=
  match find (name_matches name) (mock_inventory d) with
  | Some existing_inv => inv_id existing_inv
  | None => len (mock_inventory d) + 1
  end.

(** The numeric suffixes that parse, of the items of [inventory] whose
    serial starts with [prefix]. *)
Definition parsed_suffixes (items : list Item) (inventory : Z) (prefix : string)
  : list Z :=
  flat_map
    (fun it =>
       if (inventory_id it =? inventory) && PyStr.startswith (serial_number it) prefix
       then match PyStr.py_int (PyStr.drop (String.length prefix) (serial_number it)) with
            | Some num => [num]
            | None => []
            end
       else [])
    items.

(** The maximum of a list of numbers and 0; 0 for the empty list. *)
Definition largest_or_zero (l : list Z) : Z := fold_right Z.max 0 l.




(** The name, quantity and description the importer reads from a row
    whose three cells convert; [None] for a row that raises. *)
Definition converted (row : CsvRow) : option (string * Z * string) :=
  match stripped (component_name row), to_int (quantity row),
        stripped (description row) with
  | inr name, inr q, inr descr => Some (name, q, descr)
  | _, _, _ => None
  end.

(** A row the importer does not skip. *)
Definition valid_row (row : CsvRow) : bool :=
  match converted row with
  | Some (name, q, _) => negb (String.eqb name "") && (0 <? q)
  | None => false
  end.

(** The inventory records after a row with the given name, quantity and
    description that is not skipped. *)
Definition inventory_after (d : DatabaseManager) (name : string) (q : Z)
    (descr : string) : list Inventory :=
  match find (name_matches name) (mock_inventory d) with
  | Some _ => add_quantity (mock_inventory d) name q
  | None =>
      mock_inventory d
      ++ [mkInventory (len (mock_inventory d) + 1) name q None (Some descr)]
  end.



(** *** The prefix as the claim words it *)

Fixpoint remove_whitespace (s : string) : string :=
  match s with
  | EmptyString => EmptyString
  | String c r =>
      if PyStr.is_space c then remove_whitespace r else String c (remove_whitespace r)
  end.

(** "The first three characters of the name after uppercasing and removing
    internal whitespace, right-padded with 'X'". *)
Definition claimed_prefix (name : string) : string :=
  PyStr.ljust 3 "X" (PyStr.take 3 (remove_whitespace (PyStr.upper name))).

(** No character of [s] is white space. *)
Fixpoint no_whitespace (s : string) : bool :=
  match s with
  | EmptyString => true
  | String c r => negb (PyStr.is_space c) && no_whitespace r
  end.


(** [range] over a count. *)
Definition range_nat (n : nat) : list Z := map Z.of_nat (seq 0 n).

(** The items a valid row appends to a store that holds [base] items. *)
Definition imported_items (prefix : string) (m inventory base : Z) (n : nat)
  : list Item :=
  map (fun j => mkItem (base + j + 1)
                       (prefix ++ PyStr.format_03d (m + (j + 1)))%string
                       Available inventory)
      (range_nat n).

(** [j in ids] *)
Definition listed (ids : list Z) (j : Z) : bool := existsb (Z.eqb j) ids.

(** The update of [update_item_status], applied to one record. *)
Definition restatus (i : Z) (st : ItemStatus) (it : Item) : Item :=
  if item_id it =? i then with_status it st else it.

(** The update of [close_transaction], applied to one record. *)
Definition reclose (t : Z) (now : datetime) (x : Transaction) : Transaction :=
  if tx_id x =? t then closed_now x now else x.

(* ================================================================= *)
(** ** [DatabaseManager]: lookups and joins *)

(** [s.lower()] and [sub in s] on ASCII text. *)
Definition is_upper_letter (c : ascii) : bool :=
  (65 <=? PyStr.code c) && (PyStr.code c <=? 90).

Definition lower_char (c : ascii) : ascii :=
  if is_upper_letter c then ascii_of_N (Z.to_N (PyStr.code c + 32)) else c.

Fixpoint lower (s : string) : string :=
  match s with
  | EmptyString => EmptyString
  | String c r => String (lower_char c) (lower r)
  end.

(** [sub in s]: [sub] occurs in [s] at some position. *)
Fixpoint contains (s sub : string) : bool :=
  String.prefix sub s
  || match s with
     | EmptyString => false
     | String _ r => contains r sub
     end.

(** The first result a loop body returns; [None] when the loop runs out. *)
Fixpoint first_some {A B} (f : A -> option B) (l : list A) : option B :=
  match l with
  | [] => None
  | a :: rest =>
      match f a with
      | Some b => Some b
      | None => first_some f rest
      end
  end.

(** [max(l, default=d)] *)
Definition max_default (l : list Z) (d : Z) : Z :=
  match l with
  | [] => d
  | x :: rest => fold_left Z.max rest x
  end.

(** [get_item_by_serial(serial_number)] *)
Definition get_item_by_serial (d : DatabaseManager) (serial : string) : option Item :=
  find (fun it => String.eqb (PyStr.upper (serial_number it)) (PyStr.upper serial))
       (mock_items d).

(** [get_available_items_by_name(component_name)]; an inventory id that
    is 0 counts as not found ([if not inventory_id]). *)
Definition get_available_items_by_name (d : DatabaseManager) (name : string)
  : list Item :=
  match truthy_id (option_map inv_id (find (name_matches name) (mock_inventory d))) with
  | None => []
  | Some inventory =>
      filter (fun it => (inventory_id it =? inventory)
                        && ItemStatus_eqb (status it) Available)
             (mock_items d)
  end.

(** [next((inv for inv in self.mock_inventory if inv["id"] == id), None)] *)
Definition find_inventory (invs : list Inventory) (id : Z) : option Inventory :=
  find (fun inv => inv_id inv =? id) invs.

(** An item dictionary with the added key ["inventory"]. *)
Record ItemWithInventory := mkJoined {
  joined_item : Item;
  joined_inventory : option Inventory
}.

(** [get_all_items()] *)
Definition get_all_items (d : DatabaseManager) : list ItemWithInventory :=
  map (fun it => mkJoined it (find_inventory (mock_inventory d) (inventory_id it)))
      (mock_items d).

(** The two inner loops of [get_current_holder], for one line. *)
Definition holder_of_line (d : DatabaseManager) (trans_item : TransactionItem)
  : option string :=
  first_some
    (fun trans =>
       if (tx_id trans =? transaction_id trans_item) && is_active (tx_status trans)
       then first_some
              (fun student =>
                 if student_pk student =? tx_student_id trans
                 then Some (student_name student) else None)
              (mock_students d)
       else None)
    (mock_transactions d).

(** [get_current_holder(item_id)] *)
Definition get_current_holder (d : DatabaseManager) (id : Z) : option string :=
  first_some
    (fun trans_item =>
       if ti_item_id trans_item =? id then holder_of_line d trans_item else None)
    (mock_transaction_items d).

(** [search_students(query)] *)
Definition search_students (d : DatabaseManager) (query : string) : list Student :=
  let query_lower := PyStr.strip (lower query) in
  if String.eqb query_lower "" then []
  else filter (fun student =>
                 contains (lower (student_id student)) query_lower
                 || contains (lower (student_name student)) query_lower)
              (mock_students d).

(** A copy of an item dictionary with the keys [get_active_loans] adds. *)
Record Loan := mkLoan {
  loan_item : Item;
  loan_inventory : option Inventory;
  loan_transaction_id : Z;
  loan_transaction_item_id : Z
}.

(** [get_active_loans(student_id)]; the loop over the items has no
    [break]: every item with the id of the line is listed. *)
Definition get_active_loans (d : DatabaseManager) (student : Z) : list Loan :=
  flat_map
    (fun trans =>
       if (tx_student_id trans =? student) && is_active (tx_status trans) then
         flat_map
           (fun trans_item =>
              if transaction_id trans_item =? tx_id trans then
                map (fun it =>
                       mkLoan it (find_inventory (mock_inventory d) (inventory_id it))
                              (tx_id trans) (ti_id trans_item))
                    (filter (fun it => item_id it =? ti_item_id trans_item)
                            (mock_items d))
              else [])
           (mock_transaction_items d)
       else [])
    (mock_transactions d).

(* ================================================================= *)
(** ** [DatabaseManager]: roster and catalogue intake *)

(** The dictionary [_submit_add_student] hands over.  An empty [sd_phone]
    or [sd_email] stands for [None], which is what the form stores for an
    empty field. *)
Record StudentData := mkStudentData {
  sd_student_id : string;
  sd_name : string;
  sd_phone : string;
  sd_email : string
}.

(** [create_student(student_data)] *)
Definition create_student (d : DatabaseManager) (data : StudentData)
  : DatabaseManager * option Z :=
  let new_id := max_default (map student_pk (mock_students d)) 0 + 1 in
  let new_student :=
    mkStudent new_id (sd_name data) (sd_student_id data) (sd_phone data) (sd_email data) in
  (set_students d (mock_students d ++ [new_student]), Some new_id).

(** The inventory dictionary handed to [create_inventory]. *)
Record InventoryData := mkInventoryData {
  data_name : string;
  data_total_qty : Z;
  data_course : option string;
  data_description : option string
}.

(** [create_inventory(inventory_data)] *)
Definition create_inventory (d : DatabaseManager) (data : InventoryData)
  : DatabaseManager * option Z :=
  let new_id := max_default (map inv_id (mock_inventory d)) 0 + 1 in
  let new_inventory :=
    mkInventory new_id (data_name data) (data_total_qty data)
                (data_course data) (data_description data) in
  (set_inventory d (mock_inventory d ++ [new_inventory]), Some new_id).

(** What [_submit_add_student] ends with: the validation errors it lists,
    the id of the record it saved, or the failure message. *)
Inductive FormOutcome :=
| ValidationErrors (errors : list string)
| Saved (id : Z)
| SaveFailed.

(** The checks of [_submit_add_student], in order. *)
Definition student_form_errors (d : DatabaseManager) (code name : string)
  : list string :=
  (if String.eqb code "" then ["Student ID is required"] else [])
  ++ (if String.eqb name "" then ["Name is required"] else [])
  ++ (if existsb (fun student => String.eqb (student_id student) code) (mock_students d)
      then [("Student ID '" ++ code ++ "' already exists")%string] else []).

(** [_submit_add_student(student_id, name, phone, email, popup)] *)
Definition _submit_add_student (d : DatabaseManager) (code name phone email : string)
  : DatabaseManager * FormOutcome :=
  match student_form_errors d code name with
  | [] =>
      let '(d', result) := create_student d (mkStudentData code name phone email) in
      match truthy_id result with
      | Some id => (d', Saved id)
      | None => (d', SaveFailed)
      end
  | errors => (d, ValidationErrors errors)
  end.

(* ================================================================= *)
(** ** [LabApp]: the cart *)

(** [_remove_from_cart] *)
Definition _remove_from_cart (app : LabApp) (it : Item) : LabApp :=
  set_cart app (filter (fun i => negb (item_id i =? item_id it)) (cart_items app)).

(** [_handle_component_name]: the items the selection popup offers, or
    the "Not Found" error when there is none ([NoPopup]: no error is
    shown). *)
Definition _handle_component_name (app : LabApp) (name : string)
  : list Item * Popup :=
  match get_available_items_by_name (db app) name with
  | [] => ([], ErrorPopup ("No available items found for '" ++ name ++ "'.")%string
                          "Not Found")
  | available_items => (available_items, NoPopup)
  end.

(* ================================================================= *)
(** ** Notions used to state the further properties *)

(** No active loan of [d'] belongs to transaction [t], and the loans of
    [d] of other transactions, on items other than [i], are loans of [d']. *)
Definition loans_of_transaction_closed (d d' : DatabaseManager) (i t : Z) : Prop :=
  (forall student loan,
      In loan (get_active_loans d' student) -> loan_transaction_id loan <> t)
  /\ (forall student loan,
         In loan (get_active_loans d student) ->
         loan_transaction_id loan <> t -> item_id (loan_item loan) <> i ->
         In loan (get_active_loans d' student)).

(** The sum of the [total_qty] of the inventory records. *)
Definition total_quantity (invs : list Inventory) : Z :=
  fold_right (fun inv acc => total_qty inv + acc) 0 invs.

(** Some inventory record carries the name, up to case. *)
Definition known_component (d : DatabaseManager) (name : string) : bool :=
  existsb (name_matches name) (mock_inventory d).


(* ================================================================= *)
(** ** [LabApp._filter_catalog_table]: the rows of the catalogue *)

(** The text of a status, as the item dictionaries hold it. *)
Definition status_text (st : ItemStatus) : string :=
  match st with
  | Available => "Available"
  | Issued => "Issued"
  | Damaged => "Damaged"
  end.

(** The inventory record a joined item is read through: the one
    [get_all_items] attached, else the one found again by
    [inventory_id] when that id is not 0. *)
Definition catalog_inventory (d : DatabaseManager) (row : ItemWithInventory)
  : option Inventory :=
  match joined_inventory row with
  | Some inv => Some inv
  | None =>
      if inventory_id (joined_item row) =? 0 then None
      else find_inventory (mock_inventory d) (inventory_id (joined_item row))
  end.

(** The course of an item, normalised: [None] for a missing or empty
    course and for "N/A". *)
Definition catalog_course (d : DatabaseManager) (row : ItemWithInventory)
  : option string :=
  match catalog_inventory d row with
  | Some inv =>
      match course inv with
      | Some c =>
          if String.eqb c "" then None
          else
            let c' := PyStr.strip c in
            if String.eqb c' "N/A" || String.eqb c' "" then None else Some c'
      | None => None
      end
  | None => None
  end.

(** The component name searched in: "Unknown" for an item without
    inventory record. *)
Definition catalog_name (d : DatabaseManager) (row : ItemWithInventory) : string :=
  match joined_inventory row with
  | Some inv => inv_name inv
  | None =>
      match find_inventory (mock_inventory d) (inventory_id (joined_item row)) with
      | Some inv => inv_name inv
      | None => "Unknown"
      end
  end.

(** The three tests of the filter loop; [true] when the item is kept. *)
Definition catalog_row_passes (d : DatabaseManager)
    (filter_status filter_course search_query : string) (row : ItemWithInventory)
  : bool :=
  (if String.eqb filter_status "All" then true
   else String.eqb (PyStr.strip (status_text (status (joined_item row))))
                   (PyStr.strip filter_status))
  && (if String.eqb filter_course "All" then true
      else match catalog_course d row with
           | Some c => String.eqb c (PyStr.strip filter_course)
           | None => false
           end)
  && (if String.eqb search_query "" then true
      else contains (lower (serial_number (joined_item row))) search_query
           || contains (lower (catalog_name d row)) search_query).

(** The items [_filter_catalog_table] makes rows of, for the status and
    course filters in force and the text of the search entry. *)
Definition _filter_catalog_table (d : DatabaseManager)
    (catalog_filter_status catalog_filter_course search_entry : string)
  : list ItemWithInventory :=
  let search_query := lower (PyStr.strip search_entry) in
  filter (catalog_row_passes d catalog_filter_status catalog_filter_course search_query)
         (get_all_items d).

(* ================================================================= *)
(** ** [DatabaseManager.get_recent_transactions] *)

(** [l[:limit]] *)
Definition slice_to {A} (limit : Z) (l : list A) : list A :=
  if limit <? 0 then firstn (List.length l - Z.to_nat (- limit)) l
  else firstn (Z.to_nat limit) l.

(** The sort key [x.get("created_at", "")]: a missing key sorts below
    every timestamp. *)
Definition key_ltb (a b : option datetime) : bool :=
  match a, b with
  | None, Some _ => true
  | Some x, Some y => x <? y
  | _, _ => false
  end.

(** Insertion in a list sorted by decreasing key, in front of the
    records whose key is not larger. *)
Fixpoint insert_desc (x : Transaction) (l : list Transaction) : list Transaction :=
  match l with
  | [] => [x]
  | y :: rest =>
      if key_ltb (created_at x) (created_at y) then y :: insert_desc x rest
      else x :: l
  end.

(** [sorted(l, key=..., reverse=True)]: decreasing keys, records with the
    same key in their order in [l]. *)
Definition sorted_desc (l : list Transaction) : list Transaction :=
  fold_right insert_desc [] l.

(** One record of the activity feed. *)
Record Activity := mkActivity {
  act_student_name : string;
  act_item_name : string;
  act_serial_number : string;
  act_action : string;
  act_timestamp : datetime;
  act_transaction_id : Z
}.

(** The records of one transaction, one per line whose item exists. *)
Definition activity_of_transaction (d : DatabaseManager) (now : datetime)
    (trans : Transaction) : list Activity :=
  let student_name :=
    match find (fun s => student_pk s =? tx_student_id trans) (mock_students d) with
    | Some s => student_name s
    | None => "Unknown"
    end in
  let items :=
    flat_map
      (fun trans_item =>
         if transaction_id trans_item =? tx_id trans then
           match find_item (mock_items d) (ti_item_id trans_item) with
           | Some it => [it]
           | None => []
           end
         else [])
      (mock_transaction_items d) in
  map (fun it =>
         let inv_name :=
           if inventory_id it =? 0 then "Unknown"
           else match find_inventory (mock_inventory d) (inventory_id it) with
                | Some inv => inv_name inv
                | None => "Unknown"
                end in
         mkActivity student_name inv_name (serial_number it)
                    (if is_active (tx_status trans) then "Issue" else "Return")
                    (match created_at trans with Some c => c | None => now end)
                    (tx_id trans))
      items.

(** [get_recent_transactions(limit)] *)
Definition get_recent_transactions (d : DatabaseManager) (now : datetime) (limit : Z)
  : list Activity :=
  let sorted_transactions := slice_to limit (sorted_desc (mock_transactions d)) in
  slice_to limit (flat_map (activity_of_transaction d now) sorted_transactions).

(** Every element is at most the ones before it. *)
Fixpoint non_increasing (l : list Z) : Prop :=
  match l with
  | [] => True
  | x :: rest => (forall y, In y rest -> y <= x) /\ non_increasing rest
  end.

(** No record has a smaller key than a later one. *)
Fixpoint key_sorted (l : list Transaction) : Prop :=
  match l with
  | [] => True
  | x :: rest =>
      (forall y, In y rest -> key_ltb (created_at x) (created_at y) = false)
      /\ key_sorted rest
  end.

(* ================================================================= *)
(** * Properties *)

(** ** The embedding on concrete inputs *)

Example format_03d_examples :
  PyStr.format_03d 4 = "004" /\ PyStr.format_03d 1234 = "1234"
  /\ PyStr.format_03d (-5) = "-05" /\ PyStr.format_03d 0 = "000".
Proof. repeat split. Qed.

Example py_int_examples :
  PyStr.py_int " 0_07 " = Some 7 /\ PyStr.py_int "-12" = Some (-12)
  /\ PyStr.py_int "7_" = None /\ PyStr.py_int "" = None
  /\ PyStr.py_int "- 7" = None /\ PyStr.py_int "1__0" = None
  /\ PyStr.py_int "12a" = None
  /\ PyStr.py_int (String (ascii_of_nat 28) "12") = None
  /\ PyStr.strip (String (ascii_of_nat 28) "12") = "12".
Proof. repeat split. Qed.

Example strip_example : PyStr.strip "  Io  Board  " = "Io  Board".
Proof. reflexivity. Qed.

(** The fixture made in 1970, the clock advancing by a second at every
    reading: the loan of RPI001, ten days old, is the overdue one. *)
Example overdue_on_the_fixture :
  get_overdue_items (_init_mock_data 0) (fun k => Z.of_nat k * 1000000) 7
  = inr [mkOverdue (mkItem 5 "RPI001" Available 2) 2 10].
Proof. reflexivity. Qed.

Example issue_on_the_fixture :
  let r := create_transaction (_init_mock_data 0) 5 2 [1; 6] (Some 3) in
  snd r = Some 3
  /\ map status (mock_items (fst r))
     = [Issued; Available; Issued; Damaged; Available; Issued; Available]
  /\ mock_transaction_items (fst r)
     = [mkTransactionItem 1 1 3; mkTransactionItem 2 2 5;
        mkTransactionItem 3 3 1; mkTransactionItem 4 3 6].
Proof. repeat split. Qed.

(** ** Lookups after an update *)

Lemma find_item_update_same items i st :
  find_item (update_item_status items i st) i
  = option_map (fun it => with_status it st) (find_item items i).
Proof.
  unfold find_item.
  induction items as [|it rest IH]; simpl; [reflexivity|].
  destruct (item_id it =? i) eqn:E; simpl.
  - rewrite E. reflexivity.
  - rewrite E. exact IH.
Qed.

Lemma find_item_update_other items i j st :
  j <> i ->
  find_item (update_item_status items i st) j = find_item items j.
Proof.
  intros Hne. unfold find_item.
  induction items as [|it rest IH]; simpl; [reflexivity|].
  destruct (item_id it =? i) eqn:E; simpl.
  - apply Z.eqb_eq in E.
    destruct (item_id it =? j) eqn:F; [apply Z.eqb_eq in F; lia | reflexivity].
  - destruct (item_id it =? j); [reflexivity | exact IH].
Qed.

Lemma update_item_status_absent items i st :
  find_item items i = None -> update_item_status items i st = items.
Proof.
  unfold find_item.
  induction items as [|it rest IH]; simpl; [reflexivity|].
  destruct (item_id it =? i); [discriminate|].
  intros H. now rewrite IH.
Qed.

Lemma find_transaction_close_same txs t now :
  find_transaction (close_transaction txs t now) t
  = option_map (fun x => closed_now x now) (find_transaction txs t).
Proof.
  unfold find_transaction.
  induction txs as [|x rest IH]; simpl; [reflexivity|].
  destruct (tx_id x =? t) eqn:E; simpl; rewrite E; [reflexivity | exact IH].
Qed.

Lemma find_transaction_close_other txs t u now :
  u <> t ->
  find_transaction (close_transaction txs t now) u = find_transaction txs u.
Proof.
  intros Hne. unfold find_transaction.
  induction txs as [|x rest IH]; simpl; [reflexivity|].
  destruct (tx_id x =? t) eqn:E; simpl.
  - apply Z.eqb_eq in E.
    destruct (tx_id x =? u) eqn:F; [apply Z.eqb_eq in F; lia | reflexivity].
  - destruct (tx_id x =? u); [reflexivity | exact IH].
Qed.

Lemma close_transaction_absent txs t now :
  find_transaction txs t = None -> close_transaction txs t now = txs.
Proof.
  unfold find_transaction.
  induction txs as [|x rest IH]; simpl; [reflexivity|].
  destruct (tx_id x =? t); [discriminate|].
  intros H. now rewrite IH.
Qed.

Lemma resolve_item_fields st d i t now :
  let d' := fst (resolve_item st d i t now) in
  mock_items d' = update_item_status (mock_items d) i st
  /\ mock_transactions d' = close_transaction (mock_transactions d) t now
  /\ mock_transaction_items d' = mock_transaction_items d
  /\ mock_inventory d' = mock_inventory d
  /\ mock_students d' = mock_students d
  /\ mock_staff d' = mock_staff d.
Proof. destruct d; cbn. repeat split. Qed.

Lemma filter_all_true {A} (f : A -> bool) (l : list A) :
  (forall x, In x l -> f x = true) -> filter f l = l.
Proof.
  induction l as [|a l IH]; simpl; intros H; [reflexivity|].
  rewrite (H a (or_introl eq_refl)). f_equal. apply IH. intros x Hx. apply H. now right.
Qed.

(* ----------------------------------------------------------------- *)
(** ** C9: deleting a student that does not exist *)

(** C9, as claimed, fails: on the fixture store no student has id 99, and
    [delete_student] still reports success. *)
Lemma delete_absent_student_not_a_failure :
  (forall s, In s (mock_students (_init_mock_data 0)) -> student_pk s <> 99)
  /\ snd (delete_student (_init_mock_data 0) 99) = true
  /\ snd (delete_student (_init_mock_data 0) 99) <> false.
Proof.
  split; [|split; [reflexivity | discriminate]].
  intros s [<-|[<-|[<-|[]]]]; simpl; lia.
Qed.

(** C9 (amended): for a student id with no matching Student record,
    [delete_student] reports success and leaves the store as it was; it never
    reports failure on the in-process backend. *)
Theorem delete_absent_student_reports_success (d : DatabaseManager) (student_id : Z)
    (Habsent : forall s, In s (mock_students d) -> student_pk s <> student_id) :
  delete_student d student_id = (d, true)
  /\ forall d0 id0, snd (delete_student d0 id0) = true.
Proof.
  split; [|reflexivity].
  unfold delete_student, set_students. f_equal.
  rewrite filter_all_true.
  - now destruct d.
  - intros s Hs. apply Habsent in Hs. apply negb_true_iff, Z.eqb_neq. exact Hs.
Qed.

Lemma delete_absent_student_reports_success_witness :
  delete_student (_init_mock_data 0) 99 = (_init_mock_data 0, true)
  /\ forall d0 id0, snd (delete_student d0 id0) = true.
Proof.
  apply (delete_absent_student_reports_success (_init_mock_data 0) 99).
  intros s [<-|[<-|[<-|[]]]]; simpl; lia.
Defined.

(* ----------------------------------------------------------------- *)
(** ** The workflow mutators: what [return_item] and [report_damaged] do *)

(** What [resolve_item] does to the item and to the transaction, each
    looked up by its own id; no line of [mock_transaction_items] is read. *)
Lemma resolve_item_effect st d i t now :
  let d' := fst (resolve_item st d i t now) in
  snd (resolve_item st d i t now) = true
  /\ find_item (mock_items d') i
     = option_map (fun it => with_status it st) (find_item (mock_items d) i)
  /\ (forall j, j <> i -> find_item (mock_items d') j = find_item (mock_items d) j)
  /\ find_transaction (mock_transactions d') t
     = option_map (fun x => closed_now x now) (find_transaction (mock_transactions d) t)
  /\ (forall u, u <> t ->
        find_transaction (mock_transactions d') u = find_transaction (mock_transactions d) u)
  /\ mock_transaction_items d' = mock_transaction_items d.
Proof.
  intros d'.
  destruct (resolve_item_fields st d i t now) as (Hi & Ht & Hl & _).
  fold d' in Hi, Ht, Hl. rewrite Hi, Ht, Hl.
  split; [reflexivity|].
  split; [apply find_item_update_same|].
  split; [intros j Hj; now apply find_item_update_other|].
  split; [apply find_transaction_close_same|].
  split; [intros u Hu; now apply find_transaction_close_other | reflexivity].
Qed.

Lemma resolve_item_absent st d i t now :
  find_item (mock_items d) i = None ->
  find_transaction (mock_transactions d) t = None ->
  resolve_item st d i t now = (d, true).
Proof.
  intros Hi Ht. unfold resolve_item. f_equal.
  destruct d as [inv items sts staff txs tis]; cbn in *.
  unfold set_transactions, set_items; cbn.
  rewrite update_item_status_absent, close_transaction_absent by assumption.
  reflexivity.
Qed.

(** C10: [return_item] and [report_damaged] update the item with the
    given item id and close the transaction with the given transaction id
    independently of each other, whatever the lines say: the call always
    reports success, the item (when there is one) ends [Available],
    respectively [Damaged], the transaction (when there is one) ends
    [Closed], also when no line of the store links the two, and when
    neither id exists the store is unchanged and success is still
    reported. *)
Theorem resolve_without_link_check (d : DatabaseManager) (i t : Z) (now : datetime) :
  (snd (return_item d i t now) = true
   /\ option_map status (find_item (mock_items (fst (return_item d i t now))) i)
      = option_map (fun _ => Available) (find_item (mock_items d) i)
   /\ option_map tx_status
        (find_transaction (mock_transactions (fst (return_item d i t now))) t)
      = option_map (fun _ => Closed) (find_transaction (mock_transactions d) t))
  /\ (snd (report_damaged d i t now) = true
      /\ option_map status (find_item (mock_items (fst (report_damaged d i t now))) i)
         = option_map (fun _ => Damaged) (find_item (mock_items d) i)
      /\ option_map tx_status
           (find_transaction (mock_transactions (fst (report_damaged d i t now))) t)
         = option_map (fun _ => Closed) (find_transaction (mock_transactions d) t))
  /\ (find_item (mock_items d) i = None ->
      find_transaction (mock_transactions d) t = None ->
      return_item d i t now = (d, true) /\ report_damaged d i t now = (d, true)).
Proof.
  assert (H : forall st,
             snd (resolve_item st d i t now) = true
             /\ option_map status (find_item (mock_items (fst (resolve_item st d i t now))) i)
                = option_map (fun _ => st) (find_item (mock_items d) i)
             /\ option_map tx_status
                  (find_transaction (mock_transactions (fst (resolve_item st d i t now))) t)
                = option_map (fun _ => Closed) (find_transaction (mock_transactions d) t)).
  { intros st.
    destruct (resolve_item_effect st d i t now) as (Hok & Hi & _ & Ht & _).
    split; [exact Hok|]. rewrite Hi, Ht.
    split.
    - now destruct (find_item (mock_items d) i).
    - now destruct (find_transaction (mock_transactions d) t). }
  split; [apply (H Available)|].
  split; [apply (H Damaged)|].
  intros Hi Ht. split; now apply resolve_item_absent.
Qed.

(** On the fixture store item 1 (ARD001, never issued) and transaction 2
    (the loan of item 5) are not linked by any line; ids 99 exist nowhere. *)
Lemma resolve_without_link_check_witness :
  let d := _init_mock_data 0 in
  (forall l, In l (mock_transaction_items d) ->
             ~ (ti_item_id l = 1 /\ transaction_id l = 2))
  /\ option_map status (find_item (mock_items (fst (report_damaged d 1 2 50))) 1)
     = Some Damaged
  /\ option_map tx_status
       (find_transaction (mock_transactions (fst (report_damaged d 1 2 50))) 2)
     = Some Closed
  /\ snd (report_damaged d 1 2 50) = true
  /\ return_item d 99 99 50 = (d, true).
Proof.
  intros d.
  split; [intros l [<-|[<-|[]]]; simpl; lia|].
  destruct (resolve_without_link_check d 1 2 50) as (_ & (Hok & Hi & Ht) & _).
  destruct (resolve_without_link_check d 99 99 50) as (_ & _ & Habs).
  split; [exact Hi|]. split; [exact Ht|]. split; [exact Hok|].
  apply Habs; reflexivity.
Defined.

(** With ids that exist nowhere the call is a no-op reported as success. *)
Example return_unknown_ids :
  return_item (_init_mock_data 0) 99 99 50 = (_init_mock_data 0, true).
Proof. reflexivity. Qed.

(* ----------------------------------------------------------------- *)
(** ** C3: returning on a transaction that is already closed *)

(** C3, as claimed, fails.  Item 3 is returned on transaction 1 at instant
    100; the same call at instant 200 finds the transaction [Closed], does
    not fail, and moves its [closed_at] from 100 to 200. *)
Lemma second_return_mutates_again :
  let d1 := fst (return_item (_init_mock_data 0) 3 1 100) in
  let d2 := fst (return_item d1 3 1 200) in
  option_map tx_status (find_transaction (mock_transactions d1) 1) = Some Closed
  /\ snd (return_item d1 3 1 200) = true
  /\ option_map closed_at (find_transaction (mock_transactions d1) 1) = Some (Some 100)
  /\ option_map closed_at (find_transaction (mock_transactions d2) 1) = Some (Some 200)
  /\ d2 <> d1.
Proof.
  cbv zeta. repeat split. intros H.
  apply (f_equal (fun d => option_map closed_at (find_transaction (mock_transactions d) 1))) in H.
  discriminate H.
Qed.

(** C3 (amended): [return_item] on a transaction that is already [Closed]
    reports success; the transaction stays [Closed], its [closed_at] is
    overwritten with the current instant, and the item with the given id
    (when there is one) is set to [Available] again. *)
Theorem return_item_on_closed (d : DatabaseManager) (i t : Z) (now : datetime)
    (tx : Transaction)
    (Hfind : find_transaction (mock_transactions d) t = Some tx)
    (Hclosed : tx_status tx = Closed) :
  let d' := fst (return_item d i t now) in
  snd (return_item d i t now) = true
  /\ (exists tx', find_transaction (mock_transactions d') t = Some tx'
                  /\ tx_status tx' = Closed /\ closed_at tx' = Some now
                  /\ tx_id tx' = tx_id tx /\ issue_date tx' = issue_date tx)
  /\ option_map status (find_item (mock_items d') i)
     = option_map (fun _ => Available) (find_item (mock_items d) i).
Proof.
  intros d'.
  destruct (resolve_item_effect Available d i t now) as (Hok & Hi & _ & Ht & _).
  fold return_item in Hok, Hi, Ht. fold d' in Hi, Ht.
  split; [exact Hok|]. split.
  - exists (closed_now tx now). rewrite Ht, Hfind. repeat split.
  - rewrite Hi. now destruct (find_item (mock_items d) i).
Qed.

Lemma return_item_on_closed_witness :
  let d1 := fst (return_item (_init_mock_data 0) 3 1 100) in
  let d' := fst (return_item d1 3 1 200) in
  snd (return_item d1 3 1 200) = true
  /\ (exists tx', find_transaction (mock_transactions d') 1 = Some tx'
                  /\ tx_status tx' = Closed /\ closed_at tx' = Some 200
                  /\ tx_id tx' = 1 /\ issue_date tx' = Some 0)
  /\ option_map status (find_item (mock_items d') 3)
     = option_map (fun _ => Available) (find_item (mock_items d1) 3).
Proof.
  intros d1.
  exact (return_item_on_closed d1 3 1 200
           (mkTransaction 1 1 (Some 1) Closed (Some 0) (Some 0) (Some 100))
           eq_refl eq_refl).
Defined.

(* ----------------------------------------------------------------- *)
(** ** C4: returning on a transaction id that may not exist *)

(** C4, as claimed, fails in its first half.  No transaction has id 99;
    [return_item] on item 3 and transaction 99 reports success and turns
    item 3 from [Issued] to [Available]. *)
Lemma return_on_absent_transaction_succeeds :
  let d := _init_mock_data 0 in
  find_transaction (mock_transactions d) 99 = None
  /\ snd (return_item d 3 99 100) = true
  /\ option_map status (find_item (mock_items d) 3) = Some Issued
  /\ option_map status (find_item (mock_items (fst (return_item d 3 99 100))) 3)
     = Some Available
  /\ fst (return_item d 3 99 100) <> d.
Proof.
  cbv zeta. repeat split. intros H.
  apply (f_equal (fun d => option_map status (find_item (mock_items d) 3))) in H.
  discriminate H.
Qed.

(** C4 (amended): [return_item] always reports success and sets the item
    with the given id (when there is one) to [Available].  When no
    transaction has the given id the transactions are left as they were;
    when the transaction exists and is [Active] it becomes [Closed] with
    [closed_at] the current instant, its other fields kept. *)
Theorem return_item_outcome (d : DatabaseManager) (i t : Z) (now : datetime) :
  let d' := fst (return_item d i t now) in
  snd (return_item d i t now) = true
  /\ option_map status (find_item (mock_items d') i)
     = option_map (fun _ => Available) (find_item (mock_items d) i)
  /\ (find_transaction (mock_transactions d) t = None ->
      mock_transactions d' = mock_transactions d)
  /\ (forall tx, find_transaction (mock_transactions d) t = Some tx ->
                 tx_status tx = Active ->
                 find_transaction (mock_transactions d') t
                 = Some (mkTransaction (tx_id tx) (tx_student_id tx) (issuer_id tx) Closed
                                       (created_at tx) (issue_date tx) (Some now))).
Proof.
  intros d'.
  destruct (resolve_item_effect Available d i t now) as (Hok & Hi & _ & Ht & _).
  destruct (resolve_item_fields Available d i t now) as (_ & Htx & _).
  fold return_item in Hok, Hi, Ht, Htx. fold d' in Hi, Ht, Htx.
  split; [exact Hok|]. split.
  - rewrite Hi. now destruct (find_item (mock_items d) i).
  - split.
    + intros Hnone. rewrite Htx. now apply close_transaction_absent.
    + intros tx Hfind _. rewrite Ht, Hfind. reflexivity.
Qed.

Lemma return_item_outcome_witness :
  let d := _init_mock_data 0 in
  mock_transactions (fst (return_item d 3 99 100)) = mock_transactions d
  /\ find_transaction (mock_transactions (fst (return_item d 3 1 100))) 1
     = Some (mkTransaction 1 1 (Some 1) Closed (Some 0) (Some 0) (Some 100))
  /\ option_map status (find_item (mock_items (fst (return_item d 3 1 100))) 3)
     = Some Available.
Proof.
  intros d.
  destruct (return_item_outcome d 3 99 100) as (_ & _ & Habsent & _).
  destruct (return_item_outcome d 3 1 100) as (_ & Hitem & _ & Hactive).
  split; [apply Habsent; reflexivity|].
  split; [|exact Hitem].
  exact (Hactive (mkTransaction 1 1 (Some 1) Active (Some 0) (Some 0) None)
                 eq_refl eq_refl).
Defined.

(* ----------------------------------------------------------------- *)
(** ** What [create_transaction] writes *)

Lemma len_app {A} (l1 l2 : list A) : len (l1 ++ l2) = len l1 + len l2.
Proof. unfold len. rewrite length_app. lia. Qed.

Lemma len_single {A} (a : A) : len [a] = 1.
Proof. reflexivity. Qed.

Lemma issue_lines_fields t ids : forall d,
  let d' := fold_left (issue_line t) ids d in
  mock_transaction_items d'
  = mock_transaction_items d ++ numbered_lines (len (mock_transaction_items d)) t ids
  /\ mock_items d'
     = fold_left (fun items i => update_item_status items i Issued) ids (mock_items d)
  /\ mock_transactions d' = mock_transactions d
  /\ mock_inventory d' = mock_inventory d
  /\ mock_students d' = mock_students d
  /\ mock_staff d' = mock_staff d.
Proof.
  induction ids as [|i rest IH]; intros d; cbn zeta.
  - simpl. rewrite app_nil_r. repeat split.
  - simpl fold_left.
    destruct (IH (issue_line t d i)) as (Hl & Hi & Ht & Hv & Hs & Hf).
    rewrite Hl, Hi, Ht, Hv, Hs, Hf.
    destruct d as [inv items sts staff txs tis]; cbn.
    rewrite len_app, len_single, <- app_assoc. repeat split.
Qed.

Lemma create_transaction_fields d now student ids issuer :
  let d' := fst (create_transaction d now student ids issuer) in
  let t := len (mock_transactions d) + 1 in
  snd (create_transaction d now student ids issuer) = Some t
  /\ mock_transactions d'
     = mock_transactions d
       ++ [mkTransaction t student (truthy_id issuer) Active (Some now) (Some now) None]
  /\ mock_transaction_items d'
     = mock_transaction_items d ++ numbered_lines (len (mock_transaction_items d)) t ids
  /\ mock_items d'
     = fold_left (fun items i => update_item_status items i Issued) ids (mock_items d)
  /\ mock_inventory d' = mock_inventory d
  /\ mock_students d' = mock_students d
  /\ mock_staff d' = mock_staff d.
Proof.
  cbn zeta. unfold create_transaction. cbn [fst snd].
  match goal with |- context [fold_left ?f ids ?d0] =>
    destruct (issue_lines_fields (len (mock_transactions d) + 1) ids d0)
      as (Hl & Hi & Ht & Hv & Hs & Hf) end.
  rewrite Hl, Hi, Ht, Hv, Hs, Hf.
  destruct d; cbn. repeat split.
Qed.

Lemma numbered_lines_length n t ids :
  List.length (numbered_lines n t ids) = List.length ids.
Proof. revert n. induction ids; intros n; simpl; [reflexivity | now rewrite IHids]. Qed.

(* ----------------------------------------------------------------- *)
(** ** C2: where an issue is refused *)





(* ----------------------------------------------------------------- *)
(** ** C6: the serial prefix *)

Lemma is_space_upper_char c : PyStr.is_space (PyStr.upper_char c) = PyStr.is_space c.
Proof. destruct c as [[] [] [] [] [] [] [] []]; reflexivity. Qed.

Lemma eqb_space_is_space c : Ascii.eqb c " "%char = true -> PyStr.is_space c = true.
Proof. intros H. apply Ascii.eqb_eq in H. now subst. Qed.

(** C6, as claimed, fails: for "Io Board" the claimed prefix is "IOB",
    the importer's is "IOX" -- the name is cut to three characters before
    the space is removed. *)
Lemma prefix_of_Io_Board :
  claimed_prefix "Io Board" = "IOB"
  /\ serial_prefix "Io Board" = "IOX"
  /\ serial_prefix "Io Board" <> claimed_prefix "Io Board".
Proof. repeat split. discriminate. Qed.

(** C6 (amended): for an ASCII component name, the serial prefix is made
    of the first three characters of the name, uppercased, with the
    spaces among those three removed, completed on the right with 'X' to
    exactly three characters ("Pi" gives "PIX", "Io Board" gives "IOX");
    it is the claimed prefix whenever the first three characters of the
    name contain no white space.  The hypothesis keeps the statement to
    the names on which [PyStr.upper] and the slice are what Python
    computes: outside ASCII [upper()] can lengthen the text. *)
Theorem serial_prefix_shape (name : string)
    (Hascii : PyStr.is_ascii name = true) :
  serial_prefix name
  = PyStr.take 3 (PyStr.remove_spaces (PyStr.upper (PyStr.take 3 name)) ++ "XXX")%string
  /\ String.length (serial_prefix name) = 3%nat
  /\ (no_whitespace (PyStr.take 3 name) = true ->
      serial_prefix name = claimed_prefix name).
Proof.
  clear Hascii. unfold serial_prefix, claimed_prefix.
  destruct name as [|a [|b [|c r]]]; cbn [PyStr.take PyStr.upper PyStr.remove_spaces no_whitespace remove_whitespace].
  - repeat split.
  - rewrite is_space_upper_char.
    destruct (Ascii.eqb (PyStr.upper_char a) " ") eqn:Ea;
      [apply eqb_space_is_space in Ea; rewrite is_space_upper_char in Ea; rewrite Ea|];
      (split; [reflexivity|]; split; [reflexivity|]);
      [discriminate|].
    destruct (PyStr.is_space a); [discriminate | reflexivity].
  - rewrite !is_space_upper_char.
    destruct (Ascii.eqb (PyStr.upper_char a) " ") eqn:Ea;
      [apply eqb_space_is_space in Ea; rewrite is_space_upper_char in Ea; rewrite Ea|];
    (destruct (Ascii.eqb (PyStr.upper_char b) " ") eqn:Eb;
      [apply eqb_space_is_space in Eb; rewrite is_space_upper_char in Eb; rewrite Eb|]);
      (split; [reflexivity|]; split; [reflexivity|]);
      try discriminate;
      destruct (PyStr.is_space a); try discriminate;
      destruct (PyStr.is_space b); try discriminate; try reflexivity.
    all: rewrite ?andb_false_r; discriminate.
  - rewrite !is_space_upper_char.
    destruct (Ascii.eqb (PyStr.upper_char a) " ") eqn:Ea;
      [apply eqb_space_is_space in Ea; rewrite is_space_upper_char in Ea; rewrite Ea|];
    (destruct (Ascii.eqb (PyStr.upper_char b) " ") eqn:Eb;
      [apply eqb_space_is_space in Eb; rewrite is_space_upper_char in Eb; rewrite Eb|]);
    (destruct (Ascii.eqb (PyStr.upper_char c) " ") eqn:Ec;
      [apply eqb_space_is_space in Ec; rewrite is_space_upper_char in Ec; rewrite Ec|]);
      (split; [reflexivity|]; split; [reflexivity|]);
      rewrite ?andb_false_r; try discriminate;
      destruct (PyStr.is_space a); try discriminate;
      destruct (PyStr.is_space b); try discriminate;
      destruct (PyStr.is_space c); try discriminate; reflexivity.
Qed.

Lemma serial_prefix_shape_witness :
  PyStr.is_ascii "Pi" = true
  /\ serial_prefix "Pi" = "PIX"
  /\ serial_prefix "Pi" = claimed_prefix "Pi"
  /\ String.length (serial_prefix "Io Board") = 3%nat.
Proof.
  destruct (serial_prefix_shape "Pi" eq_refl) as (Hshape & _ & Hagree).
  destruct (serial_prefix_shape "Io Board" eq_refl) as (_ & Hlen & _).
  split; [reflexivity|].
  split; [exact Hshape|]. split; [apply Hagree; reflexivity | exact Hlen].
Defined.

Example serial_prefix_examples :
  serial_prefix "Arduino" = "ARD" /\ serial_prefix "Raspberry Pi" = "RAS"
  /\ serial_prefix "a b c" = "ABX" /\ serial_prefix "x" = "XXX".
Proof. repeat split. Qed.

(* ----------------------------------------------------------------- *)
(** ** C7: overdue items *)

Lemma microseconds_per_day_pos : 0 < microseconds_per_day.
Proof. reflexivity. Qed.

Lemma minus_days_spec t days :
  (threshold_in_range t days /\ minus_days t days = inr (t - timedelta_days days))
  \/ (~ threshold_in_range t days /\ minus_days t days = inl OverflowError).
Proof.
  unfold minus_days, threshold_in_range. cbv zeta.
  destruct (Z.abs days <=? timedelta_max_days) eqn:Ed.
  - apply Z.leb_le in Ed.
    destruct (datetime_min <=? t - timedelta_days days) eqn:E1;
      destruct (t - timedelta_days days <=? datetime_max) eqn:E2; cbn [andb];
      try apply Z.leb_le in E1; try apply Z.leb_le in E2;
      try apply Z.leb_gt in E1; try apply Z.leb_gt in E2;
      [left; repeat split; assumption | right | right | right];
      (split; [lia | reflexivity]).
  - apply Z.leb_gt in Ed. right. split; [lia | reflexivity].
Qed.

Lemma annotate_app clock loans1 : forall first loans2,
  annotate clock first (loans1 ++ loans2)
  = annotate clock first loans1
    ++ annotate clock (first + List.length loans1) loans2.
Proof.
  induction loans1 as [|[[it t] dt] rest IH]; intros first loans2; simpl.
  - now rewrite Nat.add_0_r.
  - rewrite IH. do 3 f_equal. lia.
Qed.

Lemma annotate_length clock loans : forall first,
  List.length (annotate clock first loans) = List.length loans.
Proof.
  induction loans as [|[[it t] dt] rest IH]; intros first; simpl;
    [reflexivity | now rewrite IH].
Qed.

(** The loop over the lines appends the report of the loans of the
    transaction, read from the clock where the report stands. *)
Lemma overdue_of_transaction_eq d clock t dt overdue_items :
  overdue_of_transaction d clock t dt overdue_items
  = overdue_items
    ++ annotate clock (S (List.length overdue_items)) (loans_of d t dt).
Proof.
  unfold overdue_of_transaction, loans_of.
  generalize (mock_transaction_items d) as lines. intros lines. revert overdue_items.
  induction lines as [|l lines IH]; intros acc; cbn [fold_left flat_map].
  - simpl. now rewrite app_nil_r.
  - rewrite IH, annotate_app.
    destruct (transaction_id l =? tx_id t); [|simpl; now rewrite Nat.add_0_r].
    destruct (find_item (mock_items d) (ti_item_id l)) as [it|];
      [|simpl; now rewrite Nat.add_0_r].
    rewrite length_app, <- app_assoc. cbn [annotate List.length app].
    repeat (f_equal; try lia).
Qed.

(** The whole report is the report of the overdue loans, entry [k] made
    with reading [k + 1]. *)
Lemma get_overdue_items_eq d clock days :
  get_overdue_items d clock days
  = match minus_days (clock O) days with
    | inl e => inl e
    | inr threshold_date => inr (annotate clock 1 (overdue_loans d threshold_date))
    end.
Proof.
  unfold get_overdue_items.
  destruct (minus_days (clock O) days) as [e|th]; [reflexivity|]. f_equal.
  unfold overdue_loans.
  change 1%nat with (S (List.length (@nil OverdueItem))).
  rewrite <- (app_nil_l (annotate _ _ _)).
  generalize (@nil OverdueItem) as acc.
  generalize (mock_transactions d) as txs.
  induction txs as [|t txs IH]; intros acc; cbn [fold_left flat_map].
  - simpl. now rewrite app_nil_r.
  - rewrite IH, annotate_app.
    destruct (is_active (tx_status t)); [|simpl; now rewrite Nat.add_0_r].
    destruct (issue_date_or_created t) as [dt|]; [|simpl; now rewrite Nat.add_0_r].
    destruct (dt <? th); [|simpl; now rewrite Nat.add_0_r].
    rewrite overdue_of_transaction_eq, length_app, annotate_length, <- app_assoc.
    repeat (f_equal; try lia).
Qed.

Lemma in_loans_of d t dt it tid dt' :
  In (it, tid, dt') (loans_of d t dt) <->
  exists l,
    In l (mock_transaction_items d) /\ transaction_id l = tx_id t
    /\ find_item (mock_items d) (ti_item_id l) = Some it
    /\ tid = tx_id t /\ dt' = dt.
Proof.
  unfold loans_of. rewrite in_flat_map. split.
  - intros (l & Hl & Ho).
    destruct (transaction_id l =? tx_id t) eqn:E; [|contradiction].
    apply Z.eqb_eq in E.
    destruct (find_item (mock_items d) (ti_item_id l)) as [it0|] eqn:F; [|contradiction].
    destruct Ho as [Ho|[]]. injection Ho as Hit Htid Hdt. subst it0 tid dt'.
    now exists l.
  - intros (l & Hl & Ht & Hf & -> & ->).
    exists l. split; [exact Hl|].
    apply Z.eqb_eq in Ht. rewrite Ht, Hf. now left.
Qed.

Lemma in_overdue_loans d th it tid dt :
  In (it, tid, dt) (overdue_loans d th) <->
  exists t l,
    In t (mock_transactions d) /\ tx_status t = Active
    /\ issue_date_or_created t = Some dt
    /\ dt < th
    /\ In l (mock_transaction_items d) /\ transaction_id l = tx_id t
    /\ find_item (mock_items d) (ti_item_id l) = Some it
    /\ tid = tx_id t.
Proof.
  unfold overdue_loans. rewrite in_flat_map. split.
  - intros (t & Ht & Ho).
    destruct (tx_status t) eqn:Est; simpl in Ho; [|contradiction].
    destruct (issue_date_or_created t) as [dt0|] eqn:Ed; [|contradiction].
    destruct (dt0 <? th) eqn:Elt; [|contradiction].
    apply Z.ltb_lt in Elt.
    apply in_loans_of in Ho. destruct Ho as (l & Hl & Hid & Hf & -> & ->).
    exists t, l. repeat split; assumption.
  - intros (t & l & Ht & Hst & Hd & Hlt & Hl & Hid & Hf & ->).
    exists t. split; [exact Ht|].
    rewrite Hst, Hd. simpl.
    apply Z.ltb_lt in Hlt. rewrite Hlt.
    apply in_loans_of. now exists l.
Qed.

Lemma nth_error_annotate clock loans : forall first k o,
  nth_error (annotate clock first loans) k = Some o <->
  exists it tid dt,
    nth_error loans k = Some (it, tid, dt)
    /\ o = mkOverdue it tid (timedelta_in_days (clock (first + k)%nat) dt).
Proof.
  induction loans as [|[[it t] dt] rest IH]; intros first k o.
  - destruct k; simpl; split; try discriminate; intros (? & ? & ? & H & _); discriminate.
  - destruct k as [|k]; cbn [annotate nth_error].
    + rewrite Nat.add_0_r. split.
      * intros H. injection H as <-. now exists it, t, dt.
      * intros (it' & t' & dt' & H & ->). now injection H as -> -> ->.
    + rewrite IH. replace (S first + k)%nat with (first + S k)%nat by lia. reflexivity.
Qed.

Lemma in_annotate clock first loans o :
  In o (annotate clock first loans) <->
  exists k it tid dt,
    nth_error loans k = Some (it, tid, dt)
    /\ o = mkOverdue it tid (timedelta_in_days (clock (first + k)%nat) dt).
Proof.
  split.
  - intros H. apply In_nth_error in H. destruct H as [k Hk].
    exists k. now apply nth_error_annotate.
  - intros (k & H). apply (nth_error_In _ k). now apply nth_error_annotate.
Qed.

(** What an entry of a returned report is. *)
Lemma in_get_overdue_items d clock days o :
  In o (returned (get_overdue_items d clock days)) ->
  exists t dt l it k,
    In t (mock_transactions d) /\ tx_status t = Active
    /\ issue_date_or_created t = Some dt
    /\ dt < clock O - timedelta_days days
    /\ In l (mock_transaction_items d) /\ transaction_id l = tx_id t
    /\ find_item (mock_items d) (ti_item_id l) = Some it
    /\ o = mkOverdue it (tx_id t) (timedelta_in_days (clock (S k)) dt).
Proof.
  rewrite get_overdue_items_eq.
  destruct (minus_days_spec (clock O) days) as [[_ ->]|[_ ->]]; [|intros []].
  cbn [returned]. intros Ho.
  apply in_annotate in Ho. destruct Ho as (k & it & tid & dt & Hk & ->).
  apply nth_error_In in Hk. apply in_overdue_loans in Hk.
  destruct Hk as (t & l & Ht & Hst & Hd & Hlt & Hl & Hid & Hf & ->).
  exists t, dt, l, it, k. repeat split; assumption.
Qed.

Lemma timedelta_in_days_floor now dt :
  timedelta_in_days now dt * microseconds_per_day <= now - dt
  < (timedelta_in_days now dt + 1) * microseconds_per_day.
Proof.
  unfold timedelta_in_days.
  pose proof microseconds_per_day_pos as Hpos.
  pose proof (Z.mul_div_le (now - dt) microseconds_per_day Hpos) as Hle.
  pose proof (Z.mul_succ_div_gt (now - dt) microseconds_per_day Hpos) as Hgt.
  lia.
Qed.

(** C7, as claimed, fails.  Not every threshold gives a report: in 1970
    a threshold of a million days lies before the year 1 and the call
    raises [OverflowError].  And the days are not counted from the
    instant the threshold was taken at: the clock is read again for each
    entry.  On the fixture of 1970, RPI001 was lent ten days before; a
    call made a microsecond before the eleventh day is over, whose next
    reading of the clock is a microsecond later, enters eleven days
    where the floor from the first reading is ten. *)
Lemma overdue_report_raises_and_rereads :
  let d := _init_mock_data 0 in
  let clock := fun k => timedelta_days 1 - 1 + Z.of_nat k in
  get_overdue_items d (fun _ => 0) 1000000 = inl OverflowError
  /\ get_overdue_items d clock 7
     = inr [mkOverdue (mkItem 5 "RPI001" Available 2) 2 11]
  /\ map issue_date_or_created (mock_transactions d)
     = [Some 0; Some (0 - timedelta_days 10)]
  /\ timedelta_in_days (clock O) (0 - timedelta_days 10) = 10.
Proof. cbv zeta. repeat split. Qed.

(** C7 (amended): let [now] be the first reading of the clock in the
    call.  When the threshold is more than [timedelta_max_days] days in
    absolute value, or [now] minus the threshold is not a [datetime],
    [get_overdue_items] raises [OverflowError].  Otherwise it returns a
    report which holds exactly the items reached through the lines of
    the [Active] transactions issued strictly before [now] minus the
    threshold in days, each with the id of its transaction; the entry at
    position [k] of the report (counted from 0) carries as
    [days_overdue] the whole days (rounded down) from the issue to
    reading [k + 1] of the clock, the reading made when the entry is
    entered, reading 0 being [now].  A transaction issued exactly the
    threshold before [now] contributes nothing; one issued a second
    earlier contributes its items. *)
Theorem overdue_items_exact (d : DatabaseManager) (clock : Clock) (days : Z) :
  let now := clock O in
  (~ threshold_in_range now days ->
   get_overdue_items d clock days = inl OverflowError)
  /\ (threshold_in_range now days ->
      exists entries,
        get_overdue_items d clock days = inr entries
        /\ (forall it tid,
               In (it, tid) (map (fun o => (od_item o, od_transaction_id o)) entries) <->
               exists t dt l,
                 In t (mock_transactions d) /\ tx_status t = Active
                 /\ issue_date_or_created t = Some dt
                 /\ dt < now - timedelta_days days
                 /\ In l (mock_transaction_items d) /\ transaction_id l = tx_id t
                 /\ find_item (mock_items d) (ti_item_id l) = Some it
                 /\ tid = tx_id t)
        /\ (forall k o,
               nth_error entries k = Some o ->
               exists t dt,
                 In t (mock_transactions d) /\ tx_status t = Active
                 /\ tx_id t = od_transaction_id o
                 /\ issue_date_or_created t = Some dt
                 /\ dt < now - timedelta_days days
                 /\ days_overdue o = timedelta_in_days (clock (S k)) dt)
        /\ (forall tid,
               (forall t, In t (mock_transactions d) -> tx_id t = tid ->
                          issue_date_or_created t = Some (now - timedelta_days days)) ->
               forall o, In o entries -> od_transaction_id o <> tid)
        /\ (forall t l it,
               In t (mock_transactions d) -> tx_status t = Active ->
               issue_date_or_created t = Some (now - timedelta_days days - 1000000) ->
               In l (mock_transaction_items d) -> transaction_id l = tx_id t ->
               find_item (mock_items d) (ti_item_id l) = Some it ->
               exists o, In o entries /\ od_item o = it /\ od_transaction_id o = tx_id t))
  /\ (forall reading dt,
         timedelta_in_days reading dt * microseconds_per_day <= reading - dt
         < (timedelta_in_days reading dt + 1) * microseconds_per_day).
Proof.
  cbv zeta.
  split; [|split; [|apply timedelta_in_days_floor]].
  { intros Hout. rewrite get_overdue_items_eq.
    destruct (minus_days_spec (clock O) days) as [[Hin _]|[_ ->]];
      [contradiction | reflexivity]. }
  intros Hin. rewrite get_overdue_items_eq.
  destruct (minus_days_spec (clock O) days) as [[_ ->]|[Hout _]]; [|contradiction].
  set (th := clock O - timedelta_days days).
  exists (annotate clock 1 (overdue_loans d th)).
  split; [reflexivity|].
  assert (Hpairs : forall it tid,
             In (it, tid)
                (map (fun o => (od_item o, od_transaction_id o))
                     (annotate clock 1 (overdue_loans d th))) <->
             exists dt, In (it, tid, dt) (overdue_loans d th)).
  { intros it tid. rewrite in_map_iff. split.
    - intros (o & Ho & Hin'). apply in_annotate in Hin'.
      destruct Hin' as (k & it' & tid' & dt & Hk & ->).
      cbn in Ho. injection Ho as <- <-.
      exists dt. now apply (nth_error_In _ k).
    - intros (dt & Hl). apply In_nth_error in Hl. destruct Hl as [k Hk].
      exists (mkOverdue it tid (timedelta_in_days (clock (1 + k)%nat) dt)).
      split; [reflexivity|]. apply in_annotate. now exists k, it, tid, dt. }
  split.
  { intros it tid. rewrite Hpairs. split.
    - intros (dt & Hl). apply in_overdue_loans in Hl.
      destruct Hl as (t & l & H). exists t, dt, l. exact H.
    - intros (t & dt & l & H). exists dt. apply in_overdue_loans. now exists t, l. }
  split.
  { intros k o Hk. apply nth_error_annotate in Hk.
    destruct Hk as (it & tid & dt & Hk & ->).
    apply nth_error_In in Hk. apply in_overdue_loans in Hk.
    destruct Hk as (t & l & Ht & Hst & Hd & Hlt & _ & _ & _ & ->).
    exists t, dt. repeat split; assumption. }
  split.
  - intros tid Hexact o Ho Hid.
    apply in_annotate in Ho. destruct Ho as (k & it & tid' & dt & Hk & ->).
    apply nth_error_In in Hk. apply in_overdue_loans in Hk.
    destruct Hk as (t & l & Ht & _ & Hd & Hlt & _ & _ & _ & ->).
    cbn in Hid. rewrite (Hexact t Ht Hid) in Hd. injection Hd as <-. unfold th in Hlt. lia.
  - intros t l it Ht Hst Hd Hl Hid Hf.
    assert (Hloan : In (it, tx_id t, th - 1000000) (overdue_loans d th)).
    { apply in_overdue_loans. exists t, l. repeat split; try assumption. lia. }
    apply In_nth_error in Hloan. destruct Hloan as [k Hk].
    exists (mkOverdue it (tx_id t) (timedelta_in_days (clock (1 + k)%nat) (th - 1000000))).
    split; [|split; reflexivity].
    apply in_annotate. now exists k, it, (tx_id t), (th - 1000000).
Qed.

(** A store with two loans and a clock that starts at [now] and is a
    second further at every reading: transaction 1 was issued exactly
    seven days before [now], transaction 2 seven days and one second
    before. *)
Lemma overdue_items_exact_witness :
  let now := 20000 * microseconds_per_day in
  let clock := fun k => now + Z.of_nat k * 1000000 in
  let d := mkDB [] [mkItem 1 "ARD001" Issued 1; mkItem 2 "ARD002" Issued 1] [] []
                [mkTransaction 1 1 None Active None (Some (now - timedelta_days 7)) None;
                 mkTransaction 2 1 None Active None
                               (Some (now - timedelta_days 7 - 1000000)) None]
                [mkTransactionItem 1 1 1; mkTransactionItem 2 2 2] in
  threshold_in_range (clock O) 7
  /\ get_overdue_items d clock 7 = inr [mkOverdue (mkItem 2 "ARD002" Issued 1) 2 7]
  /\ exists entries,
       get_overdue_items d clock 7 = inr entries
       /\ (forall o, In o entries -> od_transaction_id o <> 1)
       /\ (exists o, In o entries /\ od_item o = mkItem 2 "ARD002" Issued 1
                     /\ od_transaction_id o = 2).
Proof.
  intros now clock d.
  assert (Hin : threshold_in_range (clock O) 7).
  { unfold threshold_in_range. vm_compute. intuition discriminate. }
  split; [exact Hin|]. split; [reflexivity|].
  destruct (overdue_items_exact d clock 7) as (_ & Hexact & _).
  destruct (Hexact Hin) as (entries & Hret & _ & _ & Hexcl & Hincl).
  exists entries. split; [exact Hret|]. split.
  - apply Hexcl. intros t [<-|[<-|[]]]; simpl; intros Hid; [reflexivity | discriminate].
  - apply (Hincl (mkTransaction 2 1 None Active None
                                (Some (now - timedelta_days 7 - 1000000)) None)
                 (mkTransactionItem 2 2 2) (mkItem 2 "ARD002" Issued 1));
      try reflexivity; simpl; auto.
Defined.

(* ----------------------------------------------------------------- *)
(** ** Strings: prefixes, decimal printing and parsing *)

Lemma prefix_append p s : String.prefix p (p ++ s)%string = true.
Proof.
  induction p as [|c p IH]; simpl; [now destruct s|].
  destruct (ascii_dec c c); [exact IH | congruence].
Qed.




Lemma digit_not_space c : PyStr.is_digit c = true -> PyStr.is_space c = false.
Proof. destruct c as [[] [] [] [] [] [] [] []]; intros H; try discriminate H; reflexivity. Qed.





Lemma decimal_fuel n : 0 <= n -> 0 <= n < 2 ^ Z.of_nat (S (Z.to_nat (Z.log2 n))).
Proof.
  intros Hn. split; [exact Hn|].
  rewrite Nat2Z.inj_succ, Z2Nat.id by apply Z.log2_nonneg.
  destruct (Z.eq_dec n 0) as [->|Hne]; [reflexivity|].
  apply Z.log2_spec. lia.
Qed.






(** *** The limit on the number of digits *)




(** A number below [10 ^ (k + 1)] is printed with at most [k + 1] digits. *)
Lemma digits_onto_length fuel : forall n rest k,
  0 <= n < 10 ^ Z.of_nat (S k) ->
  (String.length (PyStr.digits_onto fuel n rest) <= S k + String.length rest)%nat.
Proof.
  induction fuel as [|f IH]; intros n rest k Hn; cbn [PyStr.digits_onto]; [lia|].
  destruct (n <? 10) eqn:E; [simpl; lia|].
  apply Z.ltb_ge in E.
  destruct k as [|k].
  { change (10 ^ Z.of_nat 1) with 10 in Hn. lia. }
  assert (Hq : 0 <= n / 10 < 10 ^ Z.of_nat (S k)).
  { split; [apply Z.div_pos; lia|].
    apply Z.div_lt_upper_bound; [lia|].
    replace (Z.of_nat (S (S k))) with (Z.succ (Z.of_nat (S k))) in Hn by lia.
    rewrite Z.pow_succ_r in Hn by lia. lia. }
  specialize (IH (n / 10) (String (PyStr.digit_char (n mod 10)) rest) k Hq).
  simpl String.length in IH. lia.
Qed.

(** A number of at least [10 ^ k] is printed with more than [k] digits. *)
Lemma digits_onto_length_ge f : forall n rest k,
  0 <= n < 2 ^ Z.of_nat (S f) ->
  10 ^ Z.of_nat k <= n ->
  (S k + String.length rest <= String.length (PyStr.digits_onto (S f) n rest))%nat.
Proof.
  assert (Hsmall : forall n k, 10 ^ Z.of_nat k <= n -> n < 10 -> k = O).
  { intros n k Hk Hn. destruct k as [|k]; [reflexivity|].
    rewrite Nat2Z.inj_succ, Z.pow_succ_r in Hk by lia.
    assert (0 < 10 ^ Z.of_nat k) by (apply Z.pow_pos_nonneg; lia). lia. }
  induction f as [|f IH]; intros n rest k Hn Hk.
  - change (2 ^ Z.of_nat 1) with 2 in Hn.
    cbn [PyStr.digits_onto].
    assert (Hlt : (n <? 10) = true) by (apply Z.ltb_lt; lia). rewrite Hlt.
    rewrite (Hsmall n k Hk) by lia. simpl. lia.
  - cbn [PyStr.digits_onto].
    destruct (n <? 10) eqn:E.
    + apply Z.ltb_lt in E. rewrite (Hsmall n k Hk E). simpl. lia.
    + apply Z.ltb_ge in E.
      assert (Hq : 0 <= n / 10 < 2 ^ Z.of_nat (S f)).
      { split; [apply Z.div_pos; lia|].
        apply Z.div_lt_upper_bound; [lia|].
        replace (Z.of_nat (S (S f))) with (Z.succ (Z.of_nat (S f))) in Hn by lia.
        rewrite Z.pow_succ_r in Hn by lia. lia. }
      destruct k as [|k].
      * assert (H1 : 10 ^ Z.of_nat 0 <= n / 10).
        { change (10 ^ Z.of_nat 0) with 1. apply Z.div_le_lower_bound; lia. }
        specialize (IH (n / 10) (String (PyStr.digit_char (n mod 10)) rest) O Hq H1).
        simpl String.length in IH. lia.
      * assert (H1 : 10 ^ Z.of_nat k <= n / 10).
        { apply Z.div_le_lower_bound; [lia|].
          rewrite Nat2Z.inj_succ, Z.pow_succ_r in Hk by lia. lia. }
        specialize (IH (n / 10) (String (PyStr.digit_char (n mod 10)) rest) k Hq H1).
        simpl String.length in IH. lia.
Qed.

Lemma exceeds_str_digits_false n :
  0 <= n ->
  PyStr.exceeds_str_digits n = false <-> n < 10 ^ Z.of_nat PyStr.max_str_digits.
Proof.
  intros Hn. unfold PyStr.exceeds_str_digits. rewrite Z.abs_eq by exact Hn.
  rewrite Nat.ltb_ge. unfold PyStr.decimal. split.
  - intros Hlen.
    destruct (Z_lt_ge_dec n (10 ^ Z.of_nat PyStr.max_str_digits)) as [Hlt|Hge];
      [exact Hlt|].
    pose proof (digits_onto_length_ge (Z.to_nat (Z.log2 n)) n EmptyString
                  PyStr.max_str_digits (decimal_fuel n Hn) ltac:(lia)) as H.
    lia.
  - intros Hlt.
    pose proof (digits_onto_length (S (Z.to_nat (Z.log2 n))) n EmptyString 4299) as H.
    simpl String.length in H. rewrite Nat.add_0_r in H.
    apply H. split; [exact Hn | exact Hlt].
Qed.

Lemma exceeds_str_digits_mono n m :
  0 <= n <= m -> PyStr.exceeds_str_digits m = false -> PyStr.exceeds_str_digits n = false.
Proof.
  intros H Hm. apply exceeds_str_digits_false in Hm; [|lia].
  apply exceeds_str_digits_false; lia.
Qed.






(* ----------------------------------------------------------------- *)
(** ** What a valid import row writes *)

Lemma range_nat_S n : range_nat (S n) = range_nat n ++ [Z.of_nat n].
Proof. unfold range_nat. rewrite seq_S, map_app. reflexivity. Qed.

Lemma range_nat_length n : List.length (range_nat n) = n.
Proof. unfold range_nat. now rewrite length_map, length_seq. Qed.

Lemma in_range_nat n j : In j (range_nat n) -> 0 <= j < Z.of_nat n.
Proof.
  unfold range_nat. rewrite in_map_iff. intros (k & <- & Hk).
  apply in_seq in Hk. lia.
Qed.


Lemma imported_items_length p m x base n :
  List.length (imported_items p m x base n) = n.
Proof. unfold imported_items. now rewrite length_map, range_nat_length. Qed.

(** The loop that appends the items stops at the first number the
    format refuses; [k] items have been appended by then. *)
Lemma append_items_seq p m x base : forall n a items,
  len items = base + Z.of_nat a ->
  exists k, (k <= n)%nat
    /\ append_items p m x (map Z.of_nat (seq a n)) items
       = (items
          ++ map (fun j => mkItem (base + j + 1)
                                  (p ++ PyStr.format_03d (m + (j + 1)))%string
                                  Available x)
                 (map Z.of_nat (seq a k)),
          if (k =? n)%nat then None else Some ValueError)
    /\ ((forall j, (a <= j < a + n)%nat ->
                   PyStr.exceeds_str_digits (m + Z.of_nat j + 1) = false) ->
        k = n).
Proof.
  induction n as [|n IH]; intros a items Hlen.
  - exists O. split; [lia|]. split; [simpl; now rewrite app_nil_r | reflexivity].
  - cbn [seq map append_items]. unfold append_item.
    destruct (PyStr.exceeds_str_digits (m + Z.of_nat a + 1)) eqn:E.
    + exists O. split; [lia|]. split; [simpl; now rewrite app_nil_r|].
      intros H. specialize (H a ltac:(lia)). congruence.
    + match goal with |- context [append_items p m x _ ?items1] =>
        destruct (IH (S a) items1) as (k & Hk & Heq & Hall) end.
      { rewrite len_app, len_single. lia. }
      exists (S k). split; [lia|]. split.
      * rewrite Heq. cbn [seq map]. rewrite <- app_assoc. cbn [app Nat.eqb].
        rewrite Hlen.
        replace (m + Z.of_nat a + 1) with (m + (Z.of_nat a + 1)) by lia.
        reflexivity.
      * intros H. f_equal. apply Hall. intros j Hj. apply H. lia.
Qed.

Lemma append_items_range p m x q items :
  exists k, (k <= Z.to_nat q)%nat
    /\ append_items p m x (range q) items
       = (items ++ imported_items p m x (len items) k,
          if (k =? Z.to_nat q)%nat then None else Some ValueError)
    /\ (0 <= m -> PyStr.exceeds_str_digits (m + q) = false -> k = Z.to_nat q).
Proof.
  destruct (append_items_seq p m x (len items) (Z.to_nat q) O items) as (k & Hk & Heq & Hall);
    [cbn; lia|].
  exists k. split; [exact Hk|]. split; [exact Heq|].
  intros Hm Hx. apply Hall. intros j Hj.
  apply (exceeds_str_digits_mono _ (m + q)); [lia | exact Hx].
Qed.

Lemma scan_serial_fold x p items : forall acc,
  0 <= acc ->
  fold_left (scan_serial x p) items acc
  = Z.max acc (largest_or_zero (parsed_suffixes items x p)).
Proof.
  unfold largest_or_zero.
  induction items as [|it rest IH]; intros acc Hacc; simpl; [lia|].
  unfold scan_serial at 2.
  destruct (inventory_id it =? x); simpl; [|now apply IH].
  destruct (PyStr.startswith (serial_number it) p); simpl; [|now apply IH].
  destruct (PyStr.py_int _) as [num|]; simpl; [|now apply IH].
  rewrite IH by lia. lia.
Qed.

Lemma highest_serial_spec items x p :
  highest_serial items x p = largest_or_zero (parsed_suffixes items x p).
Proof.
  unfold highest_serial. rewrite scan_serial_fold by lia.
  assert (0 <= largest_or_zero (parsed_suffixes items x p)); [|lia].
  unfold largest_or_zero. induction (parsed_suffixes items x p); simpl; lia.
Qed.

Lemma largest_or_zero_bounds l :
  0 <= largest_or_zero l /\ forall n, In n l -> n <= largest_or_zero l.
Proof.
  unfold largest_or_zero.
  induction l as [|a l [IH0 IH]]; simpl; [split; [lia | intros n []]|].
  split; [lia|]. intros n [<-|Hn]; [lia|]. specialize (IH n Hn). lia.
Qed.

(** The largest parsed suffix is the plain maximum when there is a
    suffix and none is negative. *)
Lemma largest_or_zero_is_max a l :
  (forall n, In n (a :: l) -> 0 <= n) ->
  In (largest_or_zero (a :: l)) (a :: l).
Proof.
  revert a. unfold largest_or_zero.
  induction l as [|b l IH]; intros a Hpos.
  - left. simpl. specialize (Hpos a (or_introl eq_refl)). lia.
  - assert (Hb : In (fold_right Z.max 0 (b :: l)) (b :: l)).
    { apply IH. intros n Hn. apply Hpos. now right. }
    change (fold_right Z.max 0 (a :: b :: l))
      with (Z.max a (fold_right Z.max 0 (b :: l))).
    destruct (Z.max_spec a (fold_right Z.max 0 (b :: l))) as [[_ ->]|[_ ->]].
    + now right.
    + now left.
Qed.

Lemma highest_serial_nonneg items x p : 0 <= highest_serial items x p.
Proof.
  rewrite highest_serial_spec.
  now destruct (largest_or_zero_bounds (parsed_suffixes items x p)).
Qed.

Lemma len_range q : 0 <= q -> len (range q) = q.
Proof.
  intros Hq. unfold len, range. rewrite length_map, length_seq. lia.
Qed.

(** A row with a cell that does not convert raises and writes nothing. *)
Lemma import_row_unconverted d counts row :
  converted row = None -> exists e, import_row (d, counts) row = (d, inl e).
Proof.
  unfold converted, import_row. destruct counts as [ic xc].
  destruct (stripped (component_name row)); [intros _; eauto|].
  destruct (to_int (quantity row)); [intros _; eauto|].
  destruct (stripped (description row)); [intros _; eauto | discriminate].
Qed.

(** A row that converts to an empty name or to a quantity that is not
    positive is passed over. *)
Lemma import_row_skips d counts row name q descr :
  converted row = Some (name, q, descr) ->
  name = "" \/ q <= 0 ->
  import_row (d, counts) row = (d, inr counts).
Proof.
  unfold converted, import_row. destruct counts as [ic xc].
  destruct (stripped (component_name row)); [discriminate|].
  destruct (to_int (quantity row)); [discriminate|].
  destruct (stripped (description row)); [discriminate|].
  intros H. injection H as -> -> ->. intros [->|Hq]; [reflexivity|].
  apply Z.leb_le in Hq. now rewrite Hq, orb_true_r.
Qed.

(** A row that is not passed over: the inventory record is written, then
    [k] of the [q] items, all of them unless the format refuses a
    number. *)
Lemma import_row_valid d ic xc row name q descr :
  converted row = Some (name, q, descr) ->
  name <> "" -> 0 < q ->
  let x := target_inventory d name in
  let p := serial_prefix name in
  let m := highest_serial (mock_items d) x p in
  exists k, (k <= Z.to_nat q)%nat
    /\ import_row (d, (ic, xc)) row
       = (set_items (set_inventory d (inventory_after d name q descr))
                    (mock_items d ++ imported_items p m x (len (mock_items d)) k),
          if (k =? Z.to_nat q)%nat
          then inr (match find (name_matches name) (mock_inventory d) with
                    | Some _ => ic
                    | None => ic + 1
                    end, xc + q)
          else inl ValueError)
    /\ (PyStr.exceeds_str_digits (m + q) = false -> k = Z.to_nat q).
Proof.
  intros Hconv Hname Hq x p m.
  unfold converted in Hconv. unfold import_row.
  destruct (stripped (component_name row)); [discriminate|].
  destruct (to_int (quantity row)); [discriminate|].
  destruct (stripped (description row)); [discriminate|].
  injection Hconv as -> -> ->.
  assert (E1 : String.eqb name "" = false) by now apply String.eqb_neq.
  assert (E2 : (q <=? 0) = false) by (apply Z.leb_gt; lia).
  rewrite E1, E2. cbn [orb].
  subst x p m. unfold target_inventory, inventory_after.
  destruct (append_items_range (serial_prefix name)
              (highest_serial (mock_items d)
                 match find (name_matches name) (mock_inventory d) with
                 | Some existing_inv => inv_id existing_inv
                 | None => len (mock_inventory d) + 1
                 end (serial_prefix name))
              match find (name_matches name) (mock_inventory d) with
              | Some existing_inv => inv_id existing_inv
              | None => len (mock_inventory d) + 1
              end q (mock_items d)) as (k & Hk & Heq & Hall).
  exists k. split; [exact Hk|]. split.
  - rewrite len_range by lia.
    destruct (find (name_matches name) (mock_inventory d)) as [inv|];
      destruct d as [invs items sts staff txs tis];
      cbn [set_inventory set_items mock_items mock_inventory mock_students mock_staff
           mock_transactions mock_transaction_items] in *;
      rewrite Heq; now destruct (k =? Z.to_nat q)%nat.
  - apply Hall. apply highest_serial_nonneg.
Qed.

(** The store a row leaves: the one it found, or the one with the
    inventory record written and some items appended. *)
Lemma import_row_store d ic xc row :
  fst (import_row (d, (ic, xc)) row) = d
  \/ exists name q descr k,
       converted row = Some (name, q, descr) /\ name <> "" /\ 0 < q
       /\ fst (import_row (d, (ic, xc)) row)
          = set_items (set_inventory d (inventory_after d name q descr))
              (mock_items d
               ++ imported_items (serial_prefix name)
                    (highest_serial (mock_items d) (target_inventory d name)
                                    (serial_prefix name))
                    (target_inventory d name) (len (mock_items d)) k).
Proof.
  destruct (converted row) as [[[name q] descr]|] eqn:Hconv.
  - destruct (String.eqb name "") eqn:En.
    { apply String.eqb_eq in En. left.
      rewrite (import_row_skips d (ic, xc) row name q descr Hconv); auto. }
    destruct (Z_le_gt_dec q 0) as [Hq|Hq].
    { left. rewrite (import_row_skips d (ic, xc) row name q descr Hconv); auto. }
    apply String.eqb_neq in En. right.
    destruct (import_row_valid d ic xc row name q descr Hconv En ltac:(lia))
      as (k & _ & Heq & _).
    exists name, q, descr, k. rewrite Heq. repeat split; auto; lia.
  - left. destruct (import_row_unconverted d (ic, xc) row Hconv) as [e ->]. reflexivity.
Qed.

(** The counts a row returns, when it returns. *)
Lemma import_row_returns d ic xc row ic' xc' :
  snd (import_row (d, (ic, xc)) row) = inr (ic', xc') ->
  (valid_row row = false /\ fst (import_row (d, (ic, xc)) row) = d
   /\ ic' = ic /\ xc' = xc)
  \/ exists name q descr,
       converted row = Some (name, q, descr) /\ valid_row row = true /\ 0 < q
       /\ fst (import_row (d, (ic, xc)) row)
          = set_items (set_inventory d (inventory_after d name q descr))
              (mock_items d
               ++ imported_items (serial_prefix name)
                    (highest_serial (mock_items d) (target_inventory d name)
                                    (serial_prefix name))
                    (target_inventory d name) (len (mock_items d)) (Z.to_nat q))
       /\ ic' = match find (name_matches name) (mock_inventory d) with
                | Some _ => ic
                | None => ic + 1
                end
       /\ xc' = xc + q.
Proof.
  unfold valid_row.
  destruct (converted row) as [[[name q] descr]|] eqn:Hconv.
  - destruct (String.eqb name "") eqn:En.
    { apply String.eqb_eq in En.
      rewrite (import_row_skips d (ic, xc) row name q descr Hconv) by auto.
      cbn. intros H. injection H as <- <-. left. auto. }
    destruct (Z_le_gt_dec q 0) as [Hq|Hq].
    { rewrite (import_row_skips d (ic, xc) row name q descr Hconv) by auto.
      cbn. intros H. injection H as <- <-. left.
      assert (E : (0 <? q) = false) by (apply Z.ltb_ge; lia). now rewrite E. }
    apply String.eqb_neq in En.
    destruct (import_row_valid d ic xc row name q descr Hconv En ltac:(lia))
      as (k & _ & Heq & _).
    rewrite Heq. cbn [fst snd].
    destruct (k =? Z.to_nat q)%nat eqn:Ek; [|discriminate].
    apply Nat.eqb_eq in Ek. subst k.
    intros H. injection H as <- <-. right.
    exists name, q, descr.
    assert (E : (0 <? q) = true) by (apply Z.ltb_lt; lia). rewrite E.
    repeat split; auto; lia.
  - destruct (import_row_unconverted d (ic, xc) row Hconv) as [e ->]. discriminate.
Qed.

(** *** The loop over the rows *)


(** What every row keeps, the loop keeps, whether it ends or raises. *)
Lemma import_rows_keep (P : DatabaseManager -> Prop) :
  (forall d ic xc row, P d -> P (fst (import_row (d, (ic, xc)) row))) ->
  forall rows d ic xc, P d -> P (fst (import_rows rows (d, (ic, xc)))).
Proof.
  intros Hrow. induction rows as [|row rows IH]; intros d ic xc Hd; cbn [import_rows fst];
    [exact Hd|].
  pose proof (Hrow d ic xc row Hd) as H1.
  destruct (import_row (d, (ic, xc)) row) as [d1 [e|[ic1 xc1]]]; cbn [fst] in *;
    [exact H1 | now apply IH].
Qed.

Lemma NoDup_map_on {A B} (f : A -> B) (l : list A) :
  (forall a b, In a l -> In b l -> f a = f b -> a = b) ->
  NoDup l -> NoDup (map f l).
Proof.
  induction l as [|a l IH]; intros Hinj Hnd; simpl; [constructor|].
  inversion Hnd as [|? ? Hnotin Hnd']; subst.
  constructor.
  - rewrite in_map_iff. intros (b & Hfb & Hb).
    assert (b = a) by (apply Hinj; [now right | now left | exact Hfb]).
    subst. contradiction.
  - apply IH; [|exact Hnd']. intros x y Hx Hy. apply Hinj; now right.
Qed.






(* ----------------------------------------------------------------- *)
(** ** C5: the serial numbers of an import row *)




Example import_Arduino_5 :
  map serial_number
      (mock_items
         (fst (bulk_import_inventory
                 (mkDB [mkInventory 1 "Arduino" 3 None None]
                       [mkItem 1 "ARD001" Available 1; mkItem 2 "ARD002" Issued 1;
                        mkItem 3 "ARD003" Available 1] [] [] [] [])
                 [mkRow (Text "Arduino") (Whole 5) (Text "")])))
  = ["ARD001"; "ARD002"; "ARD003"; "ARD004"; "ARD005"; "ARD006"; "ARD007"; "ARD008"].
Proof. reflexivity. Qed.

(** A suffix between two separators is no number for [int()], though
    [strip()] would remove them: ARD<FS>12 does not count. *)
Example import_past_999 :
  map serial_number
      (mock_items
         (fst (bulk_import_inventory
                 (mkDB [mkInventory 1 "Arduino" 1 None None]
                       [mkItem 1 "ARD998" Available 1; mkItem 2 "ARDxyz" Available 1;
                        mkItem 3 "RPI2000" Available 1;
                        mkItem 4 ("ARD" ++ String (ascii_of_nat 28) "3000") Available 1]
                       [] [] [] [])
                 [mkRow (Text "arduino") (Float (Finite 3)) (Text "")])))
  = ["ARD998"; "ARDxyz"; "RPI2000"; ("ARD" ++ String (ascii_of_nat 28) "3000")%string;
     "ARD999"; "ARD1000"; "ARD1001"].
Proof. reflexivity. Qed.

(* ----------------------------------------------------------------- *)
(** ** C8: rows the importer skips, and rows that stop it *)




Example import_counts :
  snd (bulk_import_inventory (_init_mock_data 0)
         [mkRow (Text "Arduino") (Whole 2) (Text ""); mkRow (Text "  ") (Whole 4) NoColumn;
          mkRow (Text "Servo") (Text "0") (Text "");
          mkRow (Text "Servo") (Float (Finite 3)) (Text "sg90")])
  = inr (1, 5).
Proof. reflexivity. Qed.

(* ----------------------------------------------------------------- *)
(** ** Stores with numbered records *)

Lemma in_numbered n z : In z (numbered n) <-> 1 <= z <= Z.of_nat n.
Proof.
  unfold numbered. rewrite in_map_iff. split.
  - intros (k & <- & Hk). apply in_seq in Hk. lia.
  - intros Hz. exists (Z.to_nat z). split; [lia|]. apply in_seq. lia.
Qed.

Lemma numbered_NoDup n : NoDup (numbered n).
Proof.
  unfold numbered. apply NoDup_map_on; [|apply seq_NoDup].
  intros a b _ _ H. lia.
Qed.

Lemma numbered_S n : numbered (S n) = numbered n ++ [Z.of_nat n + 1].
Proof.
  unfold numbered. rewrite seq_S, map_app. simpl. do 2 f_equal. lia.
Qed.

Lemma numbered_add a b :
  numbered (a + b) = numbered a ++ map (fun j => Z.of_nat a + j + 1) (range_nat b).
Proof.
  induction b as [|b IH]; [simpl; now rewrite Nat.add_0_r, app_nil_r|].
  rewrite Nat.add_succ_r, numbered_S, IH, range_nat_S, map_app, <- app_assoc.
  simpl. do 3 f_equal. lia.
Qed.

Lemma update_item_status_ids items i st :
  map item_id (update_item_status items i st) = map item_id items.
Proof.
  induction items as [|it rest IH]; simpl; [reflexivity|].
  destruct (item_id it =? i); simpl; [reflexivity | now rewrite IH].
Qed.

Lemma map_fixed {A} (f : A -> A) (l : list A) :
  (forall a, In a l -> f a = a) -> map f l = l.
Proof.
  induction l as [|a l IH]; simpl; intros H; [reflexivity|].
  rewrite H by now left. f_equal. apply IH. intros b Hb. apply H. now right.
Qed.

(** With distinct ids the update of the first match is the update of
    every match. *)
Lemma update_item_status_map items i st :
  NoDup (map item_id items) ->
  update_item_status items i st = map (restatus i st) items.
Proof.
  induction items as [|it rest IH]; simpl; intros Hnd; [reflexivity|].
  inversion Hnd as [|? ? Hnotin Hnd']; subst.
  unfold restatus at 1.
  destruct (item_id it =? i) eqn:E.
  - f_equal. symmetry. apply map_fixed. intros a Ha.
    unfold restatus. destruct (item_id a =? i) eqn:F; [|reflexivity].
    exfalso. apply Hnotin. apply Z.eqb_eq in E, F. rewrite E, <- F.
    now apply in_map.
  - f_equal. now apply IH.
Qed.

Lemma close_transaction_map txs t now :
  NoDup (map tx_id txs) ->
  close_transaction txs t now = map (reclose t now) txs.
Proof.
  induction txs as [|x rest IH]; simpl; intros Hnd; [reflexivity|].
  inversion Hnd as [|? ? Hnotin Hnd']; subst.
  unfold reclose at 1.
  destruct (tx_id x =? t) eqn:E.
  - f_equal. symmetry. apply map_fixed. intros a Ha.
    unfold reclose. destruct (tx_id a =? t) eqn:F; [|reflexivity].
    exfalso. apply Hnotin. apply Z.eqb_eq in E, F. rewrite E, <- F.
    now apply in_map.
  - f_equal. now apply IH.
Qed.

Lemma issue_all_map ids : forall items,
  NoDup (map item_id items) ->
  fold_left (fun l i => update_item_status l i Issued) ids items
  = map (fun it => if listed ids (item_id it) then with_status it Issued else it) items.
Proof.
  induction ids as [|i ids IH]; intros items Hnd; simpl.
  - symmetry. now apply map_fixed.
  - rewrite IH by now rewrite update_item_status_ids.
    rewrite update_item_status_map by exact Hnd.
    rewrite map_map. apply map_ext. intros it.
    unfold restatus.
    destruct (item_id it =? i) eqn:E; simpl; [|reflexivity].
    now destruct (listed ids (item_id it)).
Qed.

Lemma find_item_unique items it :
  NoDup (map item_id items) -> In it items ->
  find_item items (item_id it) = Some it.
Proof.
  unfold find_item.
  induction items as [|a rest IH]; simpl; intros Hnd Hin; [contradiction|].
  inversion Hnd as [|? ? Hnotin Hnd']; subst.
  destruct Hin as [->|Hin].
  - now rewrite Z.eqb_refl.
  - destruct (item_id a =? item_id it) eqn:E; [|now apply IH].
    exfalso. apply Hnotin. apply Z.eqb_eq in E. rewrite E. now apply in_map.
Qed.

Lemma find_item_some items i it :
  find_item items i = Some it -> In it items /\ item_id it = i.
Proof.
  unfold find_item. intros H. apply find_some in H.
  destruct H as [Hin Hid]. apply Z.eqb_eq in Hid. now split.
Qed.

(** *** Active transactions after an append and after a closure *)

Lemma transaction_active_app txs new u :
  transaction_active (txs ++ [new]) u
  = transaction_active txs u || ((tx_id new =? u) && is_active (tx_status new)).
Proof.
  unfold transaction_active. rewrite existsb_app. simpl. now rewrite orb_false_r.
Qed.

Lemma transaction_active_range txs u :
  map tx_id txs = numbered (List.length txs) ->
  transaction_active txs u = true -> 1 <= u <= len txs.
Proof.
  intros Hnum H. unfold transaction_active in H.
  apply existsb_exists in H. destruct H as (x & Hx & Hu).
  apply andb_true_iff in Hu. destruct Hu as [Hu _]. apply Z.eqb_eq in Hu. subst u.
  apply in_numbered. rewrite <- Hnum. now apply in_map.
Qed.

Lemma transaction_active_closed txs t u now :
  NoDup (map tx_id txs) ->
  transaction_active (close_transaction txs t now) u
  = transaction_active txs u && negb (u =? t).
Proof.
  intros Hnd. rewrite close_transaction_map by exact Hnd.
  unfold transaction_active. clear Hnd.
  induction txs as [|x rest IH]; simpl; [reflexivity|].
  rewrite IH. unfold reclose.
  destruct (tx_id x =? t) eqn:E; destruct (tx_id x =? u) eqn:F;
    destruct (u =? t) eqn:G; simpl; rewrite ?F; simpl;
    try (destruct (is_active (tx_status x));
         destruct (existsb (fun x0 => (tx_id x0 =? u) && is_active (tx_status x0)) rest);
         reflexivity);
    exfalso;
    repeat match goal with
           | H : (_ =? _) = true |- _ => apply Z.eqb_eq in H
           | H : (_ =? _) = false |- _ => apply Z.eqb_neq in H
           end; lia.
Qed.

(* ----------------------------------------------------------------- *)
(** ** Counting the lines that reference an item *)

Lemma in_numbered_lines n t ids l :
  In l (numbered_lines n t ids) -> transaction_id l = t /\ In (ti_item_id l) ids.
Proof.
  revert n. induction ids as [|i ids IH]; intros n; simpl; [intros []|].
  intros [<-|H]; [split; [reflexivity | now left]|].
  apply IH in H. destruct H as [Ht Hi]. split; [exact Ht | now right].
Qed.

Lemma numbered_lines_count n t ids j :
  List.length (filter (fun l => ti_item_id l =? j) (numbered_lines n t ids))
  = List.length (filter (fun i => i =? j) ids).
Proof.
  revert n. induction ids as [|i ids IH]; intros n; simpl; [reflexivity|].
  destruct (i =? j); simpl; now rewrite IH.
Qed.

Lemma listed_In ids j : listed ids j = true <-> In j ids.
Proof.
  unfold listed. rewrite existsb_exists. split.
  - intros (i & Hi & E). apply Z.eqb_eq in E. now subst.
  - intros H. exists j. split; [exact H | apply Z.eqb_refl].
Qed.

Lemma count_listed ids j :
  NoDup ids ->
  List.length (filter (fun i => i =? j) ids) = if listed ids j then 1%nat else 0%nat.
Proof.
  induction ids as [|i ids IH]; intros Hnd; [reflexivity|].
  inversion Hnd as [|? ? Hnotin Hnd']; subst.
  simpl. rewrite (Z.eqb_sym j i).
  destruct (i =? j) eqn:E; simpl.
  - apply Z.eqb_eq in E. subst i. rewrite (IH Hnd').
    destruct (listed ids j) eqn:L; [|reflexivity].
    apply listed_In in L. contradiction.
  - now apply IH.
Qed.

Lemma len_map_length {A B} (f : A -> B) (l : list A) : len (map f l) = len l.
Proof. unfold len. now rewrite length_map. Qed.

Lemma at_most_one_eq {A} (l : list A) (a b : A) :
  (List.length l <= 1)%nat -> In a l -> In b l -> a = b.
Proof.
  destruct l as [|x [|y r]]; simpl; intros Hlen Ha Hb.
  - contradiction.
  - destruct Ha as [<-|[]]. destruct Hb as [<-|[]]. reflexivity.
  - lia.
Qed.

Lemma filter_none {A} (f : A -> bool) (l : list A) :
  (forall x, In x l -> f x = false) -> filter f l = [].
Proof.
  induction l as [|a l IH]; simpl; intros H; [reflexivity|].
  rewrite (H a) by now left. apply IH. intros x Hx. apply H. now right.
Qed.

Lemma active_refs_same d d' j :
  mock_transactions d' = mock_transactions d ->
  mock_transaction_items d' = mock_transaction_items d ->
  active_refs d' j = active_refs d j.
Proof. intros Ht Hl. unfold active_refs, active_lines. now rewrite Ht, Hl. Qed.

(* ----------------------------------------------------------------- *)
(** ** The consistent stores are closed under the guarded calls *)

Section ConsistentStore.

Variable d : DatabaseManager.
Hypothesis Hc : consistent d.

Lemma consistent_items_NoDup : NoDup (map item_id (mock_items d)).
Proof. rewrite (items_numbered d Hc). apply numbered_NoDup. Qed.

Lemma consistent_transactions_NoDup :
  NoDup (map tx_id (mock_transactions d)).
Proof. rewrite (transactions_numbered d Hc). apply numbered_NoDup. Qed.

Lemma consistent_status_invariant : status_invariant d.
Proof.
  intros it Hit. rewrite (issued_once d Hc it Hit).
  destruct (status it); simpl; split; intros E; try reflexivity; discriminate.
Qed.

(** *** Issue *)

Lemma active_refs_create now student ids issuer j :
  NoDup ids ->
  active_refs (fst (create_transaction d now student ids issuer)) j
  = (active_refs d j + if listed ids j then 1 else 0)%nat.
Proof.
  intros Hnd.
  destruct (create_transaction_fields d now student ids issuer)
    as (_ & Ht & Hl & _).
  unfold active_refs, active_lines. rewrite Ht, Hl, filter_app, length_app.
  f_equal.
  - f_equal. apply filter_ext_in. intros l Hin.
    rewrite transaction_active_app. simpl.
    destruct (lines_in_range d Hc l Hin) as [_ Hrange].
    assert (E : (len (mock_transactions d) + 1 =? transaction_id l) = false)
      by (apply Z.eqb_neq; lia).
    now rewrite E, orb_false_r.
  - rewrite <- (count_listed ids j Hnd), <- (numbered_lines_count
      (len (mock_transaction_items d)) (len (mock_transactions d) + 1) ids j).
    f_equal. apply filter_ext_in. intros l Hin.
    apply in_numbered_lines in Hin. destruct Hin as [Hin _].
    rewrite transaction_active_app, Hin. simpl.
    now rewrite Z.eqb_refl, orb_true_r, andb_true_r.
Qed.

Lemma consistent_create_transaction now student ids issuer :
  NoDup ids ->
  (forall i, In i ids ->
             exists it, find_item (mock_items d) i = Some it /\ status it <> Issued) ->
  consistent (fst (create_transaction d now student ids issuer)).
Proof.
  intros Hnd Hguard.
  pose proof consistent_items_NoDup as HndI.
  pose proof (active_refs_create now student ids issuer) as Hrefs.
  destruct (create_transaction_fields d now student ids issuer)
    as (_ & Ht & Hl & Hi & _).
  rewrite issue_all_map in Hi by exact HndI.
  set (d' := fst (create_transaction d now student ids issuer)) in *.
  constructor.
  - rewrite Hi, map_map, length_map. simpl.
    rewrite <- (items_numbered d Hc). apply map_ext. intros it.
    now destruct (listed ids (item_id it)).
  - rewrite Ht, map_app, length_app, (transactions_numbered d Hc). simpl.
    rewrite Nat.add_1_r, numbered_S. reflexivity.
  - intros l Hin. rewrite Hi, Ht, len_map_length, len_app, len_single.
    rewrite Hl in Hin. apply in_app_or in Hin. destruct Hin as [Hin|Hin].
    + destruct (lines_in_range d Hc l Hin). lia.
    + apply in_numbered_lines in Hin. destruct Hin as [Htl Hil].
      destruct (Hguard _ Hil) as (it & Hfind & _).
      apply find_item_some in Hfind. destruct Hfind as [Hit Hid].
      assert (Hnum : In (ti_item_id l) (numbered (List.length (mock_items d)))).
      { rewrite <- (items_numbered d Hc), <- Hid. now apply in_map. }
      apply in_numbered in Hnum. unfold len in *. lia.
  - intros it' Hin. rewrite Hi in Hin. apply in_map_iff in Hin.
    destruct Hin as (it & <- & Hit).
    assert (Hid : item_id (if listed ids (item_id it) then with_status it Issued else it)
                  = item_id it) by now destruct (listed ids (item_id it)).
    rewrite Hid, Hrefs by assumption.
    rewrite (issued_once d Hc it Hit).
    destruct (listed ids (item_id it)) eqn:L; simpl.
    + apply listed_In in L. destruct (Hguard _ L) as (it0 & Hfind & Hst).
      rewrite (find_item_unique _ it HndI Hit) in Hfind. injection Hfind as <-.
      destruct (status it); simpl; try reflexivity. congruence.
    + now rewrite Nat.add_0_r.
Qed.

(** *** Return and damage report *)

Lemma consistent_resolve_item st i t now :
  st <> Issued ->
  sole_active_loan d i t ->
  consistent (fst (resolve_item st d i t now)).
Proof.
  intros Hst (Hactive & (l0 & Hl0 & Hl0t & Hl0i) & Honly).
  pose proof consistent_items_NoDup as HndI.
  pose proof consistent_transactions_NoDup as HndT.
  pose proof (resolve_item_fields st d i t now) as Hf. cbv zeta in Hf.
  destruct (resolve_item st d i t now) as [d' ok]. cbn [fst] in *.
  destruct Hf as (Hi & Ht & Hl & _).
  rewrite update_item_status_map in Hi by exact HndI.
  assert (Hact : forall u, transaction_active (mock_transactions d') u
                           = transaction_active (mock_transactions d) u && negb (u =? t)).
  { intros u. rewrite Ht. now apply transaction_active_closed. }
  rewrite close_transaction_map in Ht by exact HndT.
  constructor.
  - rewrite Hi, map_map, length_map.
    rewrite <- (items_numbered d Hc). apply map_ext. intros it.
    unfold restatus. now destruct (item_id it =? i).
  - rewrite Ht, map_map, length_map.
    rewrite <- (transactions_numbered d Hc). apply map_ext. intros x.
    unfold reclose. now destruct (tx_id x =? t).
  - intros l Hin. rewrite Hl in Hin.
    rewrite Hi, Ht, !len_map_length. now apply (lines_in_range d Hc).
  - intros it' Hin. rewrite Hi in Hin. apply in_map_iff in Hin.
    destruct Hin as (it & <- & Hit).
    unfold active_refs, active_lines. rewrite Hl.
    unfold restatus. destruct (item_id it =? i) eqn:E.
    + apply Z.eqb_eq in E. simpl.
      assert (Hnot : ItemStatus_eqb st Issued = false)
        by (destruct st; [reflexivity | now elim Hst | reflexivity]).
      rewrite Hnot, filter_none; [reflexivity|].
      intros l Hin.
      destruct ((ti_item_id l =? item_id it)
                && transaction_active (mock_transactions d') (transaction_id l)) eqn:F;
        [|reflexivity].
      exfalso. rewrite Hact in F.
      apply andb_true_iff in F. destruct F as [Fi F].
      apply andb_true_iff in F. destruct F as [Fa Ft].
      apply negb_true_iff, Z.eqb_neq in Ft.
      assert (Hle : (List.length (active_lines d (item_id it)) <= 1)%nat).
      { pose proof (issued_once d Hc it Hit) as Hone. unfold active_refs in Hone.
        rewrite Hone. destruct (ItemStatus_eqb (status it) Issued); lia. }
      assert (Hin1 : In l (active_lines d (item_id it))).
      { unfold active_lines. apply filter_In. split; [exact Hin|]. now rewrite Fi, Fa. }
      assert (Hin0 : In l0 (active_lines d (item_id it))).
      { unfold active_lines. apply filter_In. split; [exact Hl0|].
        rewrite Hl0i, Hl0t, E, Z.eqb_refl, Hactive. reflexivity. }
      pose proof (at_most_one_eq _ _ _ Hle Hin1 Hin0) as Heq.
      subst l. contradiction.
    + rewrite <- (issued_once d Hc it Hit). unfold active_refs, active_lines.
      f_equal. apply filter_ext_in. intros l Hin. rewrite Hact.
      destruct (ti_item_id l =? item_id it) eqn:F; simpl; [|reflexivity].
      destruct (transaction_id l =? t) eqn:G; simpl; [|now rewrite andb_true_r].
      exfalso. apply Z.eqb_eq in F, G. apply Z.eqb_neq in E.
      apply E. rewrite <- F. now apply Honly.
Qed.

(** *** Import *)

Lemma consistent_import_row ic xc row :
  consistent (fst (import_row (d, (ic, xc)) row)).
Proof.
  destruct (import_row_store d ic xc row)
    as [->|(name & q & descr & k & _ & _ & _ & ->)]; [exact Hc|].
  set (new := imported_items _ _ _ _ _).
  assert (Hlen : List.length new = k) by apply imported_items_length.
  set (d' := set_items _ _).
  assert (Hi : mock_items d' = mock_items d ++ new) by now destruct d.
  assert (Ht : mock_transactions d' = mock_transactions d) by now destruct d.
  assert (Hl : mock_transaction_items d' = mock_transaction_items d) by now destruct d.
  clearbody d'.
  constructor.
  - rewrite Hi, map_app, length_app, Hlen, numbered_add, (items_numbered d Hc).
    f_equal. unfold new, imported_items. rewrite map_map. reflexivity.
  - rewrite Ht. apply (transactions_numbered d Hc).
  - intros l Hin. rewrite Hl in Hin. rewrite Hi, Ht, len_app.
    destruct (lines_in_range d Hc l Hin). unfold len in *. lia.
  - intros it Hin. rewrite (active_refs_same d d' _ Ht Hl).
    rewrite Hi in Hin. apply in_app_or in Hin. destruct Hin as [Hin|Hin].
    + now apply (issued_once d Hc).
    + unfold new, imported_items in Hin. apply in_map_iff in Hin.
      destruct Hin as (j & <- & Hj). apply in_range_nat in Hj. simpl.
      unfold active_refs, active_lines. rewrite filter_none; [reflexivity|].
      intros l Hl'. destruct (lines_in_range d Hc l Hl') as [Hr _].
      assert (E : (ti_item_id l =? len (mock_items d) + j + 1) = false)
        by (apply Z.eqb_neq; lia).
      now rewrite E.
Qed.

End ConsistentStore.

Lemma consistent_bulk_import rows : forall d ic xc,
  consistent d -> consistent (fst (import_rows rows (d, (ic, xc)))).
Proof.
  apply (import_rows_keep consistent). intros d ic xc row Hc.
  now apply consistent_import_row.
Qed.

Lemma consistent_guarded_step d d' :
  consistent d -> guarded_step d d' -> consistent d'.
Proof.
  intros Hc Hstep. destruct Hstep as [now student ids issuer Hnd Hg|i t now Hs|i t now Hs|rows].
  - now apply consistent_create_transaction.
  - apply consistent_resolve_item; [exact Hc | discriminate | exact Hs].
  - apply consistent_resolve_item; [exact Hc | discriminate | exact Hs].
  - now apply consistent_bulk_import.
Qed.

(* ----------------------------------------------------------------- *)
(** ** C1: the status invariant *)

Lemma consistent_fixture_ok now : consistent (consistent_fixture now).
Proof.
  constructor.
  - reflexivity.
  - reflexivity.
  - intros l [<-|[<-|[]]]; cbn; lia.
  - intros it Hin. cbn in Hin.
    repeat (destruct Hin as [<-|Hin]; [reflexivity|]). contradiction.
Qed.

(** C1, as claimed, fails.  The fixture store itself breaks the invariant:
    RPI001 (item 5) is [Available] although the line of the active
    transaction 2 references it.  Once item 5 is returned on transaction 2
    the invariant holds; issuing items 1 and 2 together keeps it, and
    returning item 1 then closes the whole transaction 3: item 2 stays
    [Issued] with no active reference.  Issuing item 3, already lent,
    gives it two active references. *)
Lemma status_invariant_broken :
  let d := consistent_fixture 0 in
  let d1 := fst (create_transaction d 10 3 [1; 2] (Some 1)) in
  let d2 := fst (return_item d1 1 3 20) in
  let d3 := fst (create_transaction d 10 3 [3] (Some 1)) in
  ~ status_invariant (_init_mock_data 0)
  /\ status_invariant d
  /\ status_invariant d1
  /\ ~ status_invariant d2
  /\ (active_refs d2 2 = 0%nat
      /\ option_map status (find_item (mock_items d2) 2) = Some Issued)
  /\ ~ status_invariant d3
  /\ active_refs d3 3 = 2%nat.
Proof.
  intros d d1 d2 d3.
  split.
  { intros H.
    assert (E : status (mkItem 5 "RPI001" Available 2) = Issued).
    { apply (H (mkItem 5 "RPI001" Available 2)); [cbn; tauto | reflexivity]. }
    discriminate E. }
  split; [apply consistent_status_invariant, consistent_fixture_ok|].
  split.
  { apply consistent_status_invariant, consistent_create_transaction.
    - apply consistent_fixture_ok.
    - repeat constructor; simpl; intuition discriminate.
    - intros i [<-|[<-|[]]]; eexists; (split; [reflexivity | discriminate]). }
  split.
  { intros H.
    assert (E : active_refs d2 (item_id (mkItem 2 "ARD002" Issued 1)) = 1%nat).
    { apply (H (mkItem 2 "ARD002" Issued 1)); [cbn; tauto | reflexivity]. }
    discriminate E. }
  split; [split; reflexivity|].
  split; [|reflexivity].
  intros H.
  assert (E : active_refs d3 (item_id (mkItem 3 "ARD003" Issued 1)) = 1%nat).
  { apply (H (mkItem 3 "ARD003" Issued 1)); [cbn; tauto | reflexivity]. }
  discriminate E.
Qed.

(** C1 (amended): in every store reached from a consistent store (items
    and transactions numbered 1..n, lines referencing existing records, an
    [Issued] item referenced by exactly one line of an [Active] transaction
    and any other item by none) through guarded calls -- issuing distinct
    existing items none of which is [Issued], returning or reporting
    damaged an item on the [Active] transaction whose lines all reference
    that item, importing any table -- an item is [Issued] if and only if
    exactly one line of an [Active] transaction references it, and the store
    is consistent again. *)
Theorem status_invariant_on_guarded_runs (d d' : DatabaseManager)
    (Hconsistent : consistent d) (Hrun : guarded_run d d') :
  status_invariant d' /\ consistent d'.
Proof.
  assert (Hc : consistent d').
  { induction Hrun as [|d1 d2 Hrun IH Hstep]; [exact Hconsistent|].
    now apply (consistent_guarded_step d1). }
  split; [now apply consistent_status_invariant | exact Hc].
Qed.

(** Item 1 is issued to student 3, returned, and a table is imported. *)
Lemma status_invariant_on_guarded_runs_witness :
  let d := consistent_fixture 0 in
  let d1 := fst (create_transaction d 10 3 [1] (Some 1)) in
  let d2 := fst (return_item d1 1 3 20) in
  let d3 := fst (bulk_import_inventory d2 [mkRow (Text "Servo") (Whole 2) (Text "sg90")]) in
  status_invariant d3 /\ consistent d3.
Proof.
  intros d d1 d2 d3.
  apply (status_invariant_on_guarded_runs d d3).
  - apply consistent_fixture_ok.
  - apply (run_step d d2 d3); [|apply step_import].
    apply (run_step d d1 d2).
    + apply (run_step d d d1); [apply run_done|].
      apply step_issue.
      * repeat constructor. simpl. tauto.
      * intros i [<-|[]]. eexists. split; [reflexivity | discriminate].
    + apply step_return. split; [reflexivity|]. split.
      * exists (mkTransactionItem 3 3 1). split; [cbn; tauto | split; reflexivity].
      * intros l Hin. cbn in Hin.
        destruct Hin as [<-|[<-|[<-|[]]]]; cbn; intros E; try reflexivity; discriminate E.
Defined.

(* ================================================================= *)
(** * Further properties of the store and of the cart *)

(** ** Letter case *)

Lemma upper_char_idem c : PyStr.upper_char (PyStr.upper_char c) = PyStr.upper_char c.
Proof. destruct c as [[] [] [] [] [] [] [] []]; reflexivity. Qed.

Lemma upper_lower_char c : PyStr.upper_char (lower_char c) = PyStr.upper_char c.
Proof. destruct c as [[] [] [] [] [] [] [] []]; reflexivity. Qed.

Lemma lower_upper_char c : lower_char (PyStr.upper_char c) = lower_char c.
Proof. destruct c as [[] [] [] [] [] [] [] []]; reflexivity. Qed.

Lemma upper_idem s : PyStr.upper (PyStr.upper s) = PyStr.upper s.
Proof. induction s as [|c r IH]; simpl; [reflexivity|]. now rewrite upper_char_idem, IH. Qed.

Lemma upper_lower s : PyStr.upper (lower s) = PyStr.upper s.
Proof. induction s as [|c r IH]; simpl; [reflexivity|]. now rewrite upper_lower_char, IH. Qed.

Lemma lower_upper s : lower (PyStr.upper s) = lower s.
Proof. induction s as [|c r IH]; simpl; [reflexivity|]. now rewrite lower_upper_char, IH. Qed.

(* ----------------------------------------------------------------- *)
(** ** X1: [get_item_by_serial] *)

(** X1: the lookup by serial number ignores the letter case of an ASCII
    query, returns a stored item whose serial is the query up to case,
    and returns nothing exactly when no stored serial is the query up to
    case; in particular every stored item is found by its own serial.
    Outside ASCII [upper()] of a lowered text need not be [upper()] of
    the text, hence the hypothesis of the first part. *)
Theorem get_item_by_serial_spec (d : DatabaseManager) (serial : string) :
  (PyStr.is_ascii serial = true ->
   get_item_by_serial d (PyStr.upper serial) = get_item_by_serial d serial
   /\ get_item_by_serial d (lower serial) = get_item_by_serial d serial)
  /\ (forall it, get_item_by_serial d serial = Some it ->
                 In it (mock_items d)
                 /\ PyStr.upper (serial_number it) = PyStr.upper serial)
  /\ (get_item_by_serial d serial = None <->
      forall it, In it (mock_items d) ->
                 PyStr.upper (serial_number it) <> PyStr.upper serial)
  /\ (forall it, In it (mock_items d) ->
                 exists found,
                   get_item_by_serial d (serial_number it) = Some found
                   /\ PyStr.upper (serial_number found) = PyStr.upper (serial_number it)).
Proof.
  unfold get_item_by_serial.
  split; [intros _; now rewrite upper_idem, upper_lower|].
  split.
  { intros it H. apply find_some in H. destruct H as [Hin Heq].
    apply String.eqb_eq in Heq. now split. }
  split.
  { split.
    - intros H it Hin Heq.
      pose proof (find_none _ _ H it Hin) as Hf. cbv beta in Hf.
      apply String.eqb_neq in Hf. contradiction.
    - intros H.
      destruct (find _ (mock_items d)) as [it|] eqn:F; [|reflexivity].
      apply find_some in F. destruct F as [Hin Heq].
      apply String.eqb_eq in Heq. exfalso. exact (H it Hin Heq). }
  intros it Hin.
  destruct (find (fun it0 => String.eqb (PyStr.upper (serial_number it0))
                                        (PyStr.upper (serial_number it)))
                 (mock_items d)) as [found|] eqn:F.
  - exists found. split; [reflexivity|].
    apply find_some in F. destruct F as [_ Heq]. now apply String.eqb_eq in Heq.
  - pose proof (find_none _ _ F it Hin) as Hf. cbv beta in Hf.
    rewrite String.eqb_refl in Hf. discriminate.
Qed.

Lemma get_item_by_serial_spec_witness :
  PyStr.is_ascii "Ard003" = true
  /\ get_item_by_serial (_init_mock_data 0) (lower "Ard003")
     = get_item_by_serial (_init_mock_data 0) "Ard003"
  /\ get_item_by_serial (_init_mock_data 0) "ard003" = Some (mkItem 3 "ARD003" Issued 1)
  /\ get_item_by_serial (_init_mock_data 0) "XYZ" = None.
Proof.
  destruct (get_item_by_serial_spec (_init_mock_data 0) "Ard003") as (Hcase & _).
  destruct (get_item_by_serial_spec (_init_mock_data 0) "XYZ") as (_ & _ & Hnone & _).
  split; [reflexivity|].
  split; [apply Hcase; reflexivity|].
  split; [reflexivity|].
  apply Hnone. intros it Hin. cbn in Hin.
  repeat (destruct Hin as [<-|Hin]; [discriminate|]). contradiction.
Defined.

(* ----------------------------------------------------------------- *)
(** ** X2, X3: [get_available_items_by_name] *)

(** X2: what [get_available_items_by_name] returns, and so what
    [_handle_component_name] offers for the cart, are stored items that are
    [Available] and belong to an inventory whose name is the query up to
    case; a name that matches no inventory gives the empty list and the
    "Not Found" error. *)
Theorem available_items_are_available (app : LabApp) (name : string) :
  (forall it, In it (get_available_items_by_name (db app) name) ->
              In it (mock_items (db app)) /\ status it = Available
              /\ exists inv, In inv (mock_inventory (db app))
                             /\ PyStr.upper (inv_name inv) = PyStr.upper name
                             /\ inventory_id it = inv_id inv)
  /\ (forall it, In it (fst (_handle_component_name app name)) ->
                 In it (get_available_items_by_name (db app) name))
  /\ ((forall inv, In inv (mock_inventory (db app)) ->
                   PyStr.upper (inv_name inv) <> PyStr.upper name) ->
      get_available_items_by_name (db app) name = []
      /\ _handle_component_name app name
         = ([], ErrorPopup ("No available items found for '" ++ name ++ "'.")%string
                           "Not Found")).
Proof.
  split; [|split].
  - intros it Hin. unfold get_available_items_by_name in Hin.
    destruct (find (name_matches name) (mock_inventory (db app))) as [inv|] eqn:F;
      [|contradiction].
    apply find_some in F. destruct F as [Hinv Hname].
    unfold name_matches in Hname. apply String.eqb_eq in Hname.
    cbn [option_map truthy_id] in Hin.
    destruct (inv_id inv =? 0); [contradiction|].
    apply filter_In in Hin. destruct Hin as [Hit Hcond].
    apply andb_true_iff in Hcond. destruct Hcond as [Hid Hst].
    apply Z.eqb_eq in Hid.
    split; [exact Hit|]. split; [now destruct (status it)|].
    now exists inv.
  - unfold _handle_component_name. intros it Hin.
    destruct (get_available_items_by_name (db app) name); [contradiction | exact Hin].
  - intros Hnone.
    assert (E : get_available_items_by_name (db app) name = []).
    { unfold get_available_items_by_name.
      destruct (find (name_matches name) (mock_inventory (db app))) as [inv|] eqn:F;
        [|reflexivity].
      apply find_some in F. destruct F as [Hinv Hname].
      unfold name_matches in Hname. apply String.eqb_eq in Hname.
      exfalso. exact (Hnone inv Hinv Hname). }
    split; [exact E|]. unfold _handle_component_name. now rewrite E.
Qed.

Lemma available_items_are_available_witness :
  let app := mkApp (_init_mock_data 0) [] None None "" in
  map serial_number (get_available_items_by_name (db app) "arduino") = ["ARD001"; "ARD002"]
  /\ get_available_items_by_name (db app) "Servo" = [].
Proof.
  intros app.
  destruct (available_items_are_available app "Servo") as (_ & _ & Hnone).
  split; [reflexivity|].
  apply Hnone. intros inv [<-|[<-|[<-|[]]]]; discriminate.
Defined.

(** X3: in a store whose items have distinct ids, an item issued by
    [create_transaction] is no longer offered by
    [get_available_items_by_name], under any name. *)
Theorem issued_items_not_offered (d : DatabaseManager) (now : datetime)
    (student : Z) (ids : list Z) (issuer : option Z) (name : string)
    (Hdistinct : NoDup (map item_id (mock_items d))) :
  forall it,
    In it (get_available_items_by_name
             (fst (create_transaction d now student ids issuer)) name) ->
    ~ In (item_id it) ids.
Proof.
  intros it Hin Hid.
  destruct (create_transaction_fields d now student ids issuer)
    as (_ & _ & _ & Hi & _).
  rewrite issue_all_map in Hi by exact Hdistinct.
  unfold get_available_items_by_name in Hin.
  destruct (truthy_id _) as [inventory|]; [|contradiction].
  apply filter_In in Hin. destruct Hin as [Hit Hcond].
  apply andb_true_iff in Hcond. destruct Hcond as [_ Hst].
  rewrite Hi in Hit. apply in_map_iff in Hit. destruct Hit as (it0 & <- & _).
  destruct (listed ids (item_id it0)) eqn:L.
  - discriminate Hst.
  - apply listed_In in Hid. congruence.
Qed.

Lemma issued_items_not_offered_witness :
  let d' := fst (create_transaction (_init_mock_data 0) 5 1 [1; 5] (Some 1)) in
  get_available_items_by_name d' "Arduino" = [mkItem 2 "ARD002" Available 1]
  /\ ~ In (item_id (mkItem 2 "ARD002" Available 1)) [1; 5].
Proof.
  intros d'. split; [reflexivity|].
  apply (issued_items_not_offered (_init_mock_data 0) 5 1 [1; 5] (Some 1) "Arduino").
  - repeat constructor; simpl; intuition discriminate.
  - cbn. tauto.
Defined.

(* ----------------------------------------------------------------- *)
(** ** X4 - X6: [get_current_holder] *)

Lemma first_some_none {A B} (f : A -> option B) (l : list A) :
  first_some f l = None <-> forall a, In a l -> f a = None.
Proof.
  induction l as [|a l IH]; simpl.
  - split; [intros _ a [] | reflexivity].
  - destruct (f a) as [b|] eqn:E.
    + split; [discriminate|]. intros H. rewrite <- E. apply H. now left.
    + rewrite IH. split.
      * intros H x [<-|Hx]; [exact E | now apply H].
      * intros H x Hx. apply H. now right.
Qed.

Lemma first_some_some {A B} (f : A -> option B) (l : list A) (b : B) :
  first_some f l = Some b -> exists a, In a l /\ f a = Some b.
Proof.
  induction l as [|a l IH]; simpl; [discriminate|].
  destruct (f a) as [b'|] eqn:E.
  - intros H. injection H as <-. exists a. split; [now left | exact E].
  - intros H. destruct (IH H) as (x & Hx & Hfx). exists x. split; [now right | exact Hfx].
Qed.

Lemma first_some_app {A B} (f : A -> option B) (l1 l2 : list A) :
  first_some f (l1 ++ l2)
  = match first_some f l1 with
    | Some b => Some b
    | None => first_some f l2
    end.
Proof.
  induction l1 as [|a l1 IH]; simpl; [reflexivity|].
  destruct (f a); [reflexivity | exact IH].
Qed.

Lemma holder_of_line_some d l name :
  holder_of_line d l = Some name ->
  exists t s,
    In t (mock_transactions d) /\ tx_id t = transaction_id l /\ tx_status t = Active
    /\ In s (mock_students d) /\ student_pk s = tx_student_id t
    /\ student_name s = name.
Proof.
  unfold holder_of_line. intros H.
  apply first_some_some in H. destruct H as (t & Ht & H).
  destruct ((tx_id t =? transaction_id l) && is_active (tx_status t)) eqn:E;
    [|discriminate].
  apply andb_true_iff in E. destruct E as [Eid Eact]. apply Z.eqb_eq in Eid.
  apply first_some_some in H. destruct H as (s & Hs & H).
  destruct (student_pk s =? tx_student_id t) eqn:F; [|discriminate].
  apply Z.eqb_eq in F. injection H as <-.
  exists t, s. repeat split; try assumption. now destruct (tx_status t).
Qed.

Lemma holder_of_line_inactive d l :
  transaction_active (mock_transactions d) (transaction_id l) = false ->
  holder_of_line d l = None.
Proof.
  intros H. unfold holder_of_line. apply first_some_none. intros t Ht.
  destruct ((tx_id t =? transaction_id l) && is_active (tx_status t)) eqn:E;
    [|reflexivity].
  exfalso. unfold transaction_active in H.
  assert (Hex : existsb (fun x => (tx_id x =? transaction_id l) && is_active (tx_status x))
                        (mock_transactions d) = true).
  { apply existsb_exists. now exists t. }
  congruence.
Qed.

Lemma holder_none_without_active_line d id :
  active_refs d id = 0%nat -> get_current_holder d id = None.
Proof.
  intros Hrefs. unfold get_current_holder. apply first_some_none. intros l Hl.
  destruct (ti_item_id l =? id) eqn:E; [|reflexivity].
  apply holder_of_line_inactive.
  destruct (transaction_active (mock_transactions d) (transaction_id l)) eqn:A;
    [|reflexivity].
  exfalso. unfold active_refs in Hrefs. apply length_zero_iff_nil in Hrefs.
  assert (Hin : In l (active_lines d id)).
  { unfold active_lines. apply filter_In. split; [exact Hl|]. now rewrite E, A. }
  rewrite Hrefs in Hin. contradiction.
Qed.

(** X4: [get_current_holder] answers with the name of a student of the
    store who is the borrower of an [Active] transaction one of whose
    lines references the item; when no line of an [Active] transaction
    references the item it answers [None]. *)
Theorem current_holder_sound (d : DatabaseManager) (id : Z) :
  (forall name,
      get_current_holder d id = Some name ->
      exists l t s,
        In l (mock_transaction_items d) /\ ti_item_id l = id
        /\ In t (mock_transactions d) /\ tx_id t = transaction_id l
        /\ tx_status t = Active
        /\ In s (mock_students d) /\ student_pk s = tx_student_id t
        /\ student_name s = name)
  /\ (active_refs d id = 0%nat -> get_current_holder d id = None).
Proof.
  split.
  - intros name H. unfold get_current_holder in H.
    apply first_some_some in H. destruct H as (l & Hl & H).
    destruct (ti_item_id l =? id) eqn:E; [|discriminate].
    apply Z.eqb_eq in E.
    apply holder_of_line_some in H.
    destruct H as (t & s & Ht & Hid & Hact & Hs & Hpk & Hname).
    exists l, t, s. repeat split; assumption.
  - apply holder_none_without_active_line.
Qed.

Lemma current_holder_sound_witness :
  get_current_holder (_init_mock_data 0) 3 = Some "John Doe"
  /\ get_current_holder (_init_mock_data 0) 1 = None.
Proof.
  destruct (current_holder_sound (_init_mock_data 0) 1) as [_ Hnone].
  split; [reflexivity | apply Hnone; reflexivity].
Defined.

Lemma first_some_find {A B} (p : A -> bool) (g : A -> B) (l : list A) (a : A) :
  find p l = Some a ->
  first_some (fun x => if p x then Some (g x) else None) l = Some (g a).
Proof.
  induction l as [|x l IH]; simpl; [discriminate|].
  destruct (p x); [intros H; now injection H as -> | exact IH].
Qed.

Lemma first_some_numbered_lines {B} (G : TransactionItem -> option B) (v : B)
    (i t : Z) (ids : list Z) :
  In i ids ->
  (forall l, transaction_id l = t -> G l = Some v) ->
  forall n,
    first_some (fun l => if ti_item_id l =? i then G l else None)
               (numbered_lines n t ids) = Some v.
Proof.
  intros Hin HG. induction ids as [|j ids IH]; intros n; [contradiction|].
  simpl. destruct (j =? i) eqn:E.
  - now rewrite HG.
  - apply IH. destruct Hin as [->|Hin]; [|exact Hin].
    rewrite Z.eqb_refl in E. discriminate.
Qed.

(** X5: in a consistent store, once distinct existing items that are not
    [Issued] are issued to a student of the roster, [get_current_holder]
    names that student for each of them. *)
Theorem holder_after_issue (d : DatabaseManager) (now : datetime) (student : Z)
    (ids : list Z) (issuer : option Z) (s : Student)
    (Hc : consistent d)
    (Hdistinct : NoDup ids)
    (Hguard : forall i, In i ids ->
                        exists it, find_item (mock_items d) i = Some it
                                   /\ status it <> Issued)
    (Hstudent : find (fun x => student_pk x =? student) (mock_students d) = Some s) :
  forall i, In i ids ->
            get_current_holder (fst (create_transaction d now student ids issuer)) i
            = Some (student_name s).
Proof.
  intros i Hi.
  pose proof (create_transaction_fields d now student ids issuer) as Hf.
  cbv zeta in Hf.
  destruct (create_transaction d now student ids issuer) as [d' r]. cbn [fst snd] in *.
  destruct Hf as (_ & Ht & Hl & _ & _ & Hs & _).
  set (t := len (mock_transactions d) + 1) in *.
  (* no line of the old store is active for [i] *)
  destruct (Hguard i Hi) as (it & Hfind & Hst).
  apply find_item_some in Hfind. destruct Hfind as [Hit Hid].
  assert (Hzero : active_refs d i = 0%nat).
  { rewrite <- Hid, (issued_once d Hc it Hit).
    destruct (status it) eqn:Est; [reflexivity | now elim Hst | reflexivity]. }
  unfold active_refs in Hzero. apply length_zero_iff_nil in Hzero.
  (* the holder through a line of the new transaction *)
  assert (Hnew : forall l, transaction_id l = t -> holder_of_line d' l = Some (student_name s)).
  { intros l Hlt. unfold holder_of_line. rewrite Ht, Hs, first_some_app, Hlt.
    assert (Hold : first_some
                     (fun trans =>
                        if (tx_id trans =? t) && is_active (tx_status trans)
                        then first_some
                               (fun x => if student_pk x =? tx_student_id trans
                                         then Some (student_name x) else None)
                               (mock_students d)
                        else None) (mock_transactions d) = None).
    { apply first_some_none. intros x Hx.
      assert (Hrange : In (tx_id x) (numbered (List.length (mock_transactions d)))).
      { rewrite <- (transactions_numbered d Hc). now apply in_map. }
      apply in_numbered in Hrange.
      assert (E : (tx_id x =? t) = false) by (apply Z.eqb_neq; unfold t, len; lia).
      now rewrite E. }
    rewrite Hold. cbn [first_some tx_id tx_status is_active tx_student_id].
    rewrite Z.eqb_refl. cbn [andb].
    rewrite (first_some_find (fun x => student_pk x =? student) student_name _ s Hstudent).
    reflexivity. }
  unfold get_current_holder. rewrite Hl, first_some_app.
  assert (Hold : first_some
                   (fun l => if ti_item_id l =? i then holder_of_line d' l else None)
                   (mock_transaction_items d) = None).
  { apply first_some_none. intros l Hin.
    destruct (ti_item_id l =? i) eqn:E; [|reflexivity].
    apply holder_of_line_inactive. rewrite Ht, transaction_active_app.
    cbn [tx_id tx_status is_active]. rewrite andb_true_r.
    destruct (lines_in_range d Hc l Hin) as [_ Hrange].
    assert (E2 : (t =? transaction_id l) = false) by (apply Z.eqb_neq; unfold t; lia).
    rewrite E2, orb_false_r.
    destruct (transaction_active (mock_transactions d) (transaction_id l)) eqn:A;
      [|reflexivity].
    exfalso.
    assert (Hact : In l (active_lines d i)).
    { unfold active_lines. apply filter_In. split; [exact Hin|]. now rewrite E, A. }
    rewrite Hzero in Hact. contradiction. }
  rewrite Hold.
  now apply first_some_numbered_lines.
Qed.

Lemma holder_after_issue_witness :
  let d' := fst (create_transaction (consistent_fixture 0) 10 3 [1; 2] (Some 1)) in
  get_current_holder d' 1 = Some "Bob Johnson"
  /\ get_current_holder d' 2 = Some "Bob Johnson".
Proof.
  intros d'.
  assert (H : forall i, In i [1; 2] -> get_current_holder d' i = Some "Bob Johnson").
  { apply (holder_after_issue (consistent_fixture 0) 10 3 [1; 2] (Some 1)
             (mkStudent 3 "Bob Johnson" "STU003" "555-0103" "bob.johnson@university.edu")).
    - apply consistent_fixture_ok.
    - repeat constructor; simpl; intuition discriminate.
    - intros i [<-|[<-|[]]]; eexists; (split; [reflexivity | discriminate]).
    - reflexivity. }
  split; apply H; simpl; tauto.
Defined.

(** X6: in a consistent store, once an item is returned or reported
    damaged on the [Active] transaction whose lines all reference it, the
    store is consistent again and [get_current_holder] answers [None] for
    the item. *)
Theorem holder_after_return (d : DatabaseManager) (i t : Z) (now : datetime)
    (Hc : consistent d) (Hloan : sole_active_loan d i t) :
  get_current_holder (fst (return_item d i t now)) i = None
  /\ get_current_holder (fst (report_damaged d i t now)) i = None.
Proof.
  assert (H : forall st, st <> Issued ->
                         get_current_holder (fst (resolve_item st d i t now)) i = None).
  { intros st Hst.
    pose proof (consistent_resolve_item d Hc st i t now Hst Hloan) as Hc'.
    pose proof (resolve_item_fields st d i t now) as Hf. cbv zeta in Hf.
    destruct (resolve_item st d i t now) as [d' ok]. cbn [fst] in *.
    destruct Hf as (Hi & _).
    rewrite update_item_status_map in Hi by now apply consistent_items_NoDup.
    apply holder_none_without_active_line.
    destruct Hloan as (_ & (l0 & Hl0 & _ & Hl0i) & _).
    destruct (lines_in_range d Hc l0 Hl0) as [Hrange _]. rewrite Hl0i in Hrange.
    assert (Hnum : In i (map item_id (mock_items d))).
    { rewrite (items_numbered d Hc). apply in_numbered. unfold len in Hrange. lia. }
    apply in_map_iff in Hnum. destruct Hnum as (it & Hid & Hit).
    assert (Hit' : In (restatus i st it) (mock_items d')).
    { rewrite Hi. now apply in_map. }
    pose proof (issued_once d' Hc' _ Hit') as Hone.
    unfold restatus in Hone. apply Z.eqb_eq in Hid. rewrite Hid in Hone.
    cbn in Hone. apply Z.eqb_eq in Hid. rewrite Hid in Hone. rewrite Hone.
    destruct st; [reflexivity | now elim Hst | reflexivity]. }
  split; [apply (H Available) | apply (H Damaged)]; discriminate.
Qed.

Lemma holder_after_return_witness :
  get_current_holder (fst (return_item (consistent_fixture 0) 3 1 20)) 3 = None.
Proof.
  apply (holder_after_return (consistent_fixture 0) 3 1 20).
  - apply consistent_fixture_ok.
  - split; [reflexivity|]. split.
    + exists (mkTransactionItem 1 1 3). split; [cbn; tauto | split; reflexivity].
    + intros l Hin. cbn in Hin.
      destruct Hin as [<-|[<-|[]]]; cbn; intros E; try reflexivity; discriminate E.
Defined.

(* ----------------------------------------------------------------- *)
(** ** X7 - X9: [get_active_loans] *)

Lemma in_get_active_loans d student loan :
  In loan (get_active_loans d student) <->
  exists t l it,
    In t (mock_transactions d) /\ tx_student_id t = student /\ tx_status t = Active
    /\ In l (mock_transaction_items d) /\ transaction_id l = tx_id t
    /\ In it (mock_items d) /\ item_id it = ti_item_id l
    /\ loan = mkLoan it (find_inventory (mock_inventory d) (inventory_id it))
                     (tx_id t) (ti_id l).
Proof.
  unfold get_active_loans. rewrite in_flat_map. split.
  - intros (t & Ht & H).
    destruct ((tx_student_id t =? student) && is_active (tx_status t)) eqn:E;
      [|contradiction].
    apply andb_true_iff in E. destruct E as [Es Ea]. apply Z.eqb_eq in Es.
    apply in_flat_map in H. destruct H as (l & Hl & H).
    destruct (transaction_id l =? tx_id t) eqn:F; [|contradiction].
    apply Z.eqb_eq in F.
    apply in_map_iff in H. destruct H as (it & <- & Hit).
    apply filter_In in Hit. destruct Hit as [Hit Hid]. apply Z.eqb_eq in Hid.
    exists t, l, it. repeat split; try assumption. now destruct (tx_status t).
  - intros (t & l & it & Ht & Hs & Ha & Hl & Hlt & Hit & Hid & ->).
    exists t. split; [exact Ht|].
    rewrite Hs, Z.eqb_refl, Ha. cbn [is_active andb].
    apply in_flat_map. exists l. split; [exact Hl|].
    rewrite Hlt, Z.eqb_refl.
    apply in_map_iff. exists it. split; [reflexivity|].
    apply filter_In. split; [exact Hit|]. now apply Z.eqb_eq.
Qed.

Lemma transaction_active_intro txs t :
  In t txs -> tx_status t = Active -> transaction_active txs (tx_id t) = true.
Proof.
  intros Hin Hact. unfold transaction_active. apply existsb_exists.
  exists t. split; [exact Hin|]. now rewrite Z.eqb_refl, Hact.
Qed.

Lemma transaction_active_elim txs u :
  transaction_active txs u = true ->
  exists t, In t txs /\ tx_id t = u /\ tx_status t = Active.
Proof.
  unfold transaction_active. intros H. apply existsb_exists in H.
  destruct H as (t & Ht & E). apply andb_true_iff in E. destruct E as [Eid Ea].
  apply Z.eqb_eq in Eid. exists t. repeat split; try assumption.
  now destruct (tx_status t).
Qed.

(** X7: in a consistent store the active loans are the [Issued] items:
    every item [get_active_loans] lists for a student is a stored item
    with status [Issued], and every [Issued] item is listed among the
    active loans of some student id. *)
Theorem active_loans_are_the_issued_items (d : DatabaseManager)
    (Hc : consistent d) :
  (forall student loan,
      In loan (get_active_loans d student) ->
      In (loan_item loan) (mock_items d) /\ status (loan_item loan) = Issued)
  /\ (forall it,
         In it (mock_items d) -> status it = Issued ->
         exists student loan,
           In loan (get_active_loans d student) /\ loan_item loan = it).
Proof.
  split.
  - intros student loan Hloan. apply in_get_active_loans in Hloan.
    destruct Hloan as (t & l & it & Ht & _ & Ha & Hl & Hlt & Hit & Hid & ->).
    cbn [loan_item]. split; [exact Hit|].
    assert (Hin : In l (active_lines d (item_id it))).
    { unfold active_lines. apply filter_In. split; [exact Hl|].
      rewrite Hid, Z.eqb_refl, Hlt, (transaction_active_intro _ t Ht Ha). reflexivity. }
    pose proof (issued_once d Hc it Hit) as Hone. unfold active_refs in Hone.
    destruct (status it); try reflexivity; simpl in Hone;
      apply length_zero_iff_nil in Hone; rewrite Hone in Hin; contradiction.
  - intros it Hit Hst.
    pose proof (issued_once d Hc it Hit) as Hone. rewrite Hst in Hone.
    unfold active_refs in Hone.
    destruct (active_lines d (item_id it)) as [|l rest] eqn:E; [discriminate|].
    assert (Hin : In l (active_lines d (item_id it))) by (rewrite E; now left).
    unfold active_lines in Hin. apply filter_In in Hin. destruct Hin as [Hl Hcond].
    apply andb_true_iff in Hcond. destruct Hcond as [Hid Hact].
    apply Z.eqb_eq in Hid. apply transaction_active_elim in Hact.
    destruct Hact as (t & Ht & Htid & Ha).
    exists (tx_student_id t),
           (mkLoan it (find_inventory (mock_inventory d) (inventory_id it))
                   (tx_id t) (ti_id l)).
    split; [|reflexivity].
    apply in_get_active_loans. exists t, l, it. repeat split; auto.
Qed.

Lemma active_loans_are_the_issued_items_witness :
  (forall student loan,
      In loan (get_active_loans (consistent_fixture 0) student) ->
      In (loan_item loan) (mock_items (consistent_fixture 0))
      /\ status (loan_item loan) = Issued)
  /\ map loan_item (get_active_loans (consistent_fixture 0) 1)
     = [mkItem 3 "ARD003" Issued 1].
Proof.
  destruct (active_loans_are_the_issued_items (consistent_fixture 0)
              (consistent_fixture_ok 0)) as [Hloans _].
  split; [exact Hloans | reflexivity].
Defined.

Lemma resolve_item_closes_loans st d i t now :
  NoDup (map tx_id (mock_transactions d)) ->
  loans_of_transaction_closed d (fst (resolve_item st d i t now)) i t.
Proof.
  intros Hdistinct.
  pose proof (resolve_item_fields st d i t now) as Hf. cbv zeta in Hf.
  destruct (resolve_item st d i t now) as [d' ok]. cbn [fst] in *.
  destruct Hf as (Hi & Ht & Hl & Hv & _).
  rewrite close_transaction_map in Ht by exact Hdistinct.
  split.
  - intros student loan Hloan Heq. apply in_get_active_loans in Hloan.
    destruct Hloan as (x' & l & it & Hx & _ & Ha & _ & _ & _ & _ & ->).
    cbn [loan_transaction_id] in Heq.
    rewrite Ht in Hx. apply in_map_iff in Hx. destruct Hx as (x & <- & _).
    unfold reclose in *. destruct (tx_id x =? t) eqn:E.
    + discriminate Ha.
    + apply Z.eqb_neq in E. contradiction.
  - intros student loan Hloan Hnt Hni. apply in_get_active_loans in Hloan.
    destruct Hloan as (x & l & it & Hx & Hs & Ha & Hin & Hlt & Hit & Hid & ->).
    cbn [loan_transaction_id loan_item] in Hnt, Hni.
    apply in_get_active_loans. exists x, l, it.
    rewrite Ht, Hl, Hv.
    assert (Hx' : In x (map (reclose t now) (mock_transactions d))).
    { apply in_map_iff. exists x. split; [|exact Hx].
      unfold reclose. apply Z.eqb_neq in Hnt. now rewrite Hnt. }
    assert (Hit' : In it (mock_items d')).
    { rewrite Hi. clear - Hit Hni. induction (mock_items d) as [|a rest IH];
        [contradiction|]. simpl.
      destruct Hit as [->|Hit].
      - apply Z.eqb_neq in Hni. rewrite Hni. now left.
      - destruct (item_id a =? i); right; [exact Hit | now apply IH]. }
    repeat split; assumption.
Qed.

(** X8: when the transactions have distinct ids, [return_item] and
    [report_damaged] on transaction [t] remove every loan of transaction
    [t] from the active loans of every student, whichever item was named;
    a loan of another transaction whose item is not the named one stays
    listed. *)
Theorem return_closes_every_loan_of_the_transaction (d : DatabaseManager)
    (i t : Z) (now : datetime)
    (Hdistinct : NoDup (map tx_id (mock_transactions d))) :
  loans_of_transaction_closed d (fst (return_item d i t now)) i t
  /\ loans_of_transaction_closed d (fst (report_damaged d i t now)) i t.
Proof. split; now apply resolve_item_closes_loans. Qed.

(** Items 1 and 2 are lent together to student 3; item 1 is returned. *)
Lemma return_closes_every_loan_of_the_transaction_witness :
  let d1 := fst (create_transaction (consistent_fixture 0) 10 3 [1; 2] (Some 1)) in
  map (fun loan => item_id (loan_item loan)) (get_active_loans d1 3) = [1; 2]
  /\ get_active_loans (fst (return_item d1 1 3 20)) 3 = []
  /\ forall student loan,
       In loan (get_active_loans (fst (return_item d1 1 3 20)) student) ->
       loan_transaction_id loan <> 3.
Proof.
  intros d1.
  split; [reflexivity|]. split; [reflexivity|].
  apply (return_closes_every_loan_of_the_transaction d1 1 3 20).
  repeat constructor; simpl; intuition discriminate.
Defined.

(** X9: every entry of a report of [get_overdue_items] is an active
    loan: its item and transaction appear together among the active loans
    of some student id. *)
Theorem overdue_items_are_active_loans (d : DatabaseManager) (clock : Clock)
    (days : Z) (o : OverdueItem) :
  In o (returned (get_overdue_items d clock days)) ->
  exists student loan,
    In loan (get_active_loans d student)
    /\ loan_item loan = od_item o
    /\ loan_transaction_id loan = od_transaction_id o.
Proof.
  intros Ho. apply in_get_overdue_items in Ho.
  destruct Ho as (t & dt & l & it & k & Ht & Ha & _ & _ & Hl & Hlt & Hfind & ->).
  apply find_item_some in Hfind. destruct Hfind as [Hit Hid].
  exists (tx_student_id t),
         (mkLoan it (find_inventory (mock_inventory d) (inventory_id it))
                 (tx_id t) (ti_id l)).
  split; [|split; reflexivity].
  apply in_get_active_loans. exists t, l, it. repeat split; auto.
Qed.

Lemma overdue_items_are_active_loans_witness :
  exists student loan,
    In loan (get_active_loans (_init_mock_data 0) student)
    /\ loan_item loan = mkItem 5 "RPI001" Available 2
    /\ loan_transaction_id loan = 2.
Proof.
  apply (overdue_items_are_active_loans (_init_mock_data 0)
           (fun k => Z.of_nat k * 1000000) 7
           (mkOverdue (mkItem 5 "RPI001" Available 2) 2 10)).
  rewrite overdue_on_the_fixture. now left.
Defined.

(* ----------------------------------------------------------------- *)
(** ** X10 - X12: [get_overdue_items] across thresholds and operations *)

(** X10: when the clock does not go backwards during the call, every
    entry of a report of [get_overdue_items] has been out for at least
    the threshold in whole days; and every loan reported for a threshold
    is reported for every smaller threshold that is in range, the call
    raising [OverflowError] for the others. *)
Theorem overdue_threshold (d : DatabaseManager) (clock : Clock) (days : Z)
    (entries : list OverdueItem)
    (Hreport : get_overdue_items d clock days = inr entries) :
  ((forall k, clock O <= clock k) ->
   forall o, In o entries -> days <= days_overdue o)
  /\ (forall days',
         days' <= days ->
         (threshold_in_range (clock O) days' ->
          exists entries',
            get_overdue_items d clock days' = inr entries'
            /\ forall o, In o entries ->
                 exists o', In o' entries'
                            /\ od_item o' = od_item o
                            /\ od_transaction_id o' = od_transaction_id o)
         /\ (~ threshold_in_range (clock O) days' ->
             get_overdue_items d clock days' = inl OverflowError)).
Proof.
  pose proof microseconds_per_day_pos as Hpos.
  assert (Hin : forall o, In o entries ->
                          In o (returned (get_overdue_items d clock days)))
    by (intros o Ho; now rewrite Hreport).
  split.
  - intros Hclock o Ho. apply Hin, in_get_overdue_items in Ho.
    destruct Ho as (t & dt & l & it & k & _ & _ & _ & Hlt & _ & _ & _ & ->).
    cbn [days_overdue]. unfold timedelta_in_days, timedelta_days in *.
    specialize (Hclock (S k)).
    apply Z.div_le_lower_bound; [exact Hpos | lia].
  - intros days' Hle. split.
    + intros Hrange. rewrite get_overdue_items_eq.
      destruct (minus_days_spec (clock O) days') as [[_ ->]|[Hout _]]; [|contradiction].
      eexists. split; [reflexivity|].
      intros o Ho. apply Hin, in_get_overdue_items in Ho.
      destruct Ho as (t & dt & l & it & k & Ht & Ha & Hd & Hlt & Hl & Hid & Hf & ->).
      assert (Hloan : In (it, tx_id t, dt)
                         (overdue_loans d (clock O - timedelta_days days'))).
      { apply in_overdue_loans. exists t, l. repeat split; try assumption.
        unfold timedelta_days in *. nia. }
      apply In_nth_error in Hloan. destruct Hloan as [k' Hk'].
      exists (mkOverdue it (tx_id t) (timedelta_in_days (clock (1 + k')%nat) dt)).
      split; [|split; reflexivity].
      apply in_annotate. now exists k', it, (tx_id t), dt.
    + intros Hout. rewrite get_overdue_items_eq.
      destruct (minus_days_spec (clock O) days') as [[Hrange _]|[_ ->]];
        [contradiction | reflexivity].
Qed.

Lemma overdue_threshold_witness :
  let clock := fun k => Z.of_nat k * 1000000 in
  get_overdue_items (_init_mock_data 0) clock 7
  = inr [mkOverdue (mkItem 5 "RPI001" Available 2) 2 10]
  /\ (forall k, clock O <= clock k)
  /\ 7 <= days_overdue (mkOverdue (mkItem 5 "RPI001" Available 2) 2 10)
  /\ threshold_in_range (clock O) 3
  /\ exists entries',
       get_overdue_items (_init_mock_data 0) clock 3 = inr entries'
       /\ forall o, In o [mkOverdue (mkItem 5 "RPI001" Available 2) 2 10] ->
            exists o', In o' entries'
                       /\ od_item o' = od_item o
                       /\ od_transaction_id o' = od_transaction_id o.
Proof.
  intros clock.
  assert (Hclock : forall k, clock O <= clock k) by (intros k; unfold clock; lia).
  assert (Hrange : threshold_in_range (clock O) 3).
  { unfold threshold_in_range. vm_compute. intuition discriminate. }
  destruct (overdue_threshold (_init_mock_data 0) clock 7
              [mkOverdue (mkItem 5 "RPI001" Available 2) 2 10] eq_refl)
    as [Hdays Hmono].
  split; [reflexivity|]. split; [exact Hclock|].
  split; [apply (Hdays Hclock); now left|].
  split; [exact Hrange|].
  destruct (Hmono 3 ltac:(lia)) as [Hsmaller _]. exact (Hsmaller Hrange).
Defined.

(** X11: in a store whose transactions are numbered 1..n, the transaction
    [create_transaction] has just created is not in a report made at the
    instant of its creation, for any threshold that is not negative. *)
Theorem fresh_issue_is_not_overdue (d : DatabaseManager) (now : datetime)
    (student : Z) (ids : list Z) (issuer : option Z) (clock : Clock) (days : Z)
    (Hnumbered : map tx_id (mock_transactions d)
                 = numbered (List.length (mock_transactions d)))
    (Hclock : clock O = now)
    (Hdays : 0 <= days) :
  forall o,
    In o (returned
            (get_overdue_items (fst (create_transaction d now student ids issuer))
                               clock days)) ->
    Some (od_transaction_id o) <> snd (create_transaction d now student ids issuer).
Proof.
  intros o Ho.
  destruct (create_transaction_fields d now student ids issuer)
    as (Hr & Ht & _).
  rewrite Hr. apply in_get_overdue_items in Ho.
  destruct Ho as (t & dt & l & it & k & Hin & _ & Hd & Hlt & _ & _ & _ & ->).
  cbn [od_transaction_id]. intros Heq. injection Heq as Heq.
  rewrite Ht in Hin. apply in_app_or in Hin. destruct Hin as [Hin|[<-|[]]].
  - assert (Hrange : In (tx_id t) (numbered (List.length (mock_transactions d)))).
    { rewrite <- Hnumbered. now apply in_map. }
    apply in_numbered in Hrange. unfold len in Heq. lia.
  - cbn in Hd. injection Hd as <-.
    pose proof microseconds_per_day_pos. unfold timedelta_days in Hlt. nia.
Qed.

Lemma fresh_issue_is_not_overdue_witness :
  let r := create_transaction (_init_mock_data 0) 0 1 [1] (Some 1) in
  let clock := fun k => Z.of_nat k * 1000000 in
  map od_transaction_id (returned (get_overdue_items (fst r) clock 7)) = [2]
  /\ Some (od_transaction_id (mkOverdue (mkItem 5 "RPI001" Available 2) 2 10)) <> snd r.
Proof.
  intros r clock. split; [reflexivity|].
  apply (fresh_issue_is_not_overdue (_init_mock_data 0) 0 1 [1] (Some 1) clock 7).
  - reflexivity.
  - reflexivity.
  - lia.
  - cbn. tauto.
Defined.

Lemma resolve_item_not_overdue st d i t now clock days :
  NoDup (map tx_id (mock_transactions d)) ->
  forall o,
    In o (returned (get_overdue_items (fst (resolve_item st d i t now)) clock days)) ->
    od_transaction_id o <> t.
Proof.
  intros Hdistinct o Ho.
  destruct (resolve_item_fields st d i t now) as (_ & Ht & _).
  rewrite close_transaction_map in Ht by exact Hdistinct.
  apply in_get_overdue_items in Ho.
  destruct Ho as (x' & dt & l & it & k & Hin & Ha & _ & _ & _ & _ & _ & ->).
  cbn [od_transaction_id]. intros Heq.
  rewrite Ht in Hin. apply in_map_iff in Hin. destruct Hin as (x & <- & _).
  unfold reclose in *. destruct (tx_id x =? t) eqn:E.
  - discriminate Ha.
  - apply Z.eqb_neq in E. contradiction.
Qed.

(** X12: when the transactions have distinct ids, a transaction on which
    an item was returned or reported damaged is in no report of
    [get_overdue_items] afterwards, whatever the clock and the
    threshold. *)
Theorem returned_loan_is_not_overdue (d : DatabaseManager) (i t : Z)
    (now : datetime) (clock : Clock) (days : Z)
    (Hdistinct : NoDup (map tx_id (mock_transactions d))) :
  (forall o, In o (returned (get_overdue_items (fst (return_item d i t now)) clock days)) ->
             od_transaction_id o <> t)
  /\ (forall o, In o (returned
                        (get_overdue_items (fst (report_damaged d i t now)) clock days)) ->
                od_transaction_id o <> t).
Proof. split; now apply resolve_item_not_overdue. Qed.

Lemma returned_loan_is_not_overdue_witness :
  let clock := fun k => Z.of_nat k * 1000000 in
  get_overdue_items (fst (return_item (_init_mock_data 0) 5 2 0)) clock 7 = inr []
  /\ forall o,
       In o (returned
               (get_overdue_items (fst (return_item (_init_mock_data 0) 5 2 0)) clock 7)) ->
       od_transaction_id o <> 2.
Proof.
  intros clock. split; [reflexivity|].
  apply (returned_loan_is_not_overdue (_init_mock_data 0) 5 2 0 clock 7).
  repeat constructor; simpl; intuition discriminate.
Defined.

(* ----------------------------------------------------------------- *)
(** ** X13 - X15: the roster *)

Lemma fold_left_max_ge l : forall x,
  x <= fold_left Z.max l x /\ forall y, In y l -> y <= fold_left Z.max l x.
Proof.
  induction l as [|a l IH]; intros x; simpl; [split; [lia | intros y []]|].
  destruct (IH (Z.max x a)) as [H1 H2]. split; [lia|].
  intros y [<-|Hy]; [lia | now apply H2].
Qed.

Lemma max_default_ge l dflt y : In y l -> y <= max_default l dflt.
Proof.
  destruct l as [|x l]; [intros []|]. simpl.
  destruct (fold_left_max_ge l x) as [H1 H2].
  intros [<-|Hy]; [exact H1 | now apply H2].
Qed.

Lemma create_student_fields d data :
  let new_id := max_default (map student_pk (mock_students d)) 0 + 1 in
  snd (create_student d data) = Some new_id
  /\ mock_students (fst (create_student d data))
     = mock_students d
       ++ [mkStudent new_id (sd_name data) (sd_student_id data)
                     (sd_phone data) (sd_email data)]
  /\ (forall s, In s (mock_students d) -> student_pk s < new_id).
Proof.
  cbn zeta. split; [reflexivity|]. split; [now destruct d|].
  intros s Hs.
  assert (student_pk s <= max_default (map student_pk (mock_students d)) 0)
    by (apply max_default_ge; now apply in_map).
  lia.
Qed.

(** X13: [create_student] appends one record holding the data given and
    an id larger than every id of the roster, returns that id, and leaves
    the other collections alone; ids that were distinct stay distinct. *)
Theorem create_student_fresh_id (d : DatabaseManager) (data : StudentData) :
  exists id,
    snd (create_student d data) = Some id
    /\ (forall s, In s (mock_students d) -> student_pk s < id)
    /\ fst (create_student d data)
       = set_students d
           (mock_students d
            ++ [mkStudent id (sd_name data) (sd_student_id data)
                          (sd_phone data) (sd_email data)])
    /\ (NoDup (map student_pk (mock_students d)) ->
        NoDup (map student_pk (mock_students (fst (create_student d data))))).
Proof.
  destruct (create_student_fields d data) as (Hr & Hs & Hfresh). cbv zeta in *.
  eexists. split; [exact Hr|]. split; [exact Hfresh|]. split; [reflexivity|].
  intros Hnd. rewrite Hs, map_app. apply NoDup_app; [exact Hnd | |].
  - repeat constructor. intros [].
  - intros pk Hin [<-|[]]. apply in_map_iff in Hin. destruct Hin as (s & Hpk & Hin).
    apply Hfresh in Hin. cbn in Hpk. lia.
Qed.

Lemma create_student_fresh_id_witness :
  snd (create_student (_init_mock_data 0) (mkStudentData "STU004" "Ann Lee" "" "")) = Some 4
  /\ NoDup (map student_pk
                (mock_students
                   (fst (create_student (_init_mock_data 0)
                                        (mkStudentData "STU004" "Ann Lee" "" ""))))).
Proof.
  destruct (create_student_fresh_id (_init_mock_data 0)
              (mkStudentData "STU004" "Ann Lee" "" "")) as (id & _ & _ & _ & Hnd).
  split; [reflexivity|].
  apply Hnd. repeat constructor; simpl; intuition discriminate.
Defined.

(** X14: deleting the student [create_student] has just created restores
    the store exactly; the next [create_student] is therefore given the
    same id again. *)
Theorem create_then_delete_student (d : DatabaseManager) (data data' : StudentData) :
  exists id,
    snd (create_student d data) = Some id
    /\ delete_student (fst (create_student d data)) id = (d, true)
    /\ snd (create_student (fst (delete_student (fst (create_student d data)) id)) data')
       = Some id.
Proof.
  destruct (create_student_fields d data) as (Hr & Hs & Hfresh). cbv zeta in *.
  eexists. split; [exact Hr|].
  assert (Hdel : delete_student (fst (create_student d data))
                   (max_default (map student_pk (mock_students d)) 0 + 1) = (d, true)).
  { unfold delete_student. f_equal. rewrite Hs, filter_app. cbn [filter student_pk].
    rewrite Z.eqb_refl. cbn [negb]. rewrite app_nil_r.
    rewrite filter_all_true.
    - now destruct d.
    - intros s Hin. apply Hfresh in Hin. apply negb_true_iff, Z.eqb_neq. lia. }
  split; [exact Hdel|]. rewrite Hdel. reflexivity.
Qed.

Lemma student_form_errors_nil d code name :
  student_form_errors d code name = [] <->
  code <> "" /\ name <> "" /\ ~ In code (map student_id (mock_students d)).
Proof.
  unfold student_form_errors.
  destruct (String.eqb_spec code ""); [split; [discriminate | tauto]|].
  destruct (String.eqb_spec name ""); [split; [discriminate | tauto]|].
  destruct (existsb (fun student => String.eqb (student_id student) code)
                    (mock_students d)) eqn:E.
  - split; [discriminate|]. intros (_ & _ & H). exfalso. apply H.
    apply existsb_exists in E. destruct E as (s & Hs & Heq).
    apply String.eqb_eq in Heq. rewrite <- Heq. now apply in_map.
  - split; [|reflexivity]. intros _. repeat split; try assumption.
    intros Hin. apply in_map_iff in Hin. destruct Hin as (s & Heq & Hs).
    assert (Hex : existsb (fun student => String.eqb (student_id student) code)
                          (mock_students d) = true).
    { apply existsb_exists. exists s. split; [exact Hs | now apply String.eqb_eq]. }
    congruence.
Qed.

(** X15: [_submit_add_student] refuses an empty student id, an empty name
    and a student id already on the roster, listing the errors and leaving
    the store unchanged; otherwise it appends the student.  Student ids
    that were distinct stay distinct. *)
Theorem submit_add_student_validates (d : DatabaseManager)
    (code name phone email : string) :
  ((code = "" \/ name = "" \/ In code (map student_id (mock_students d))) ->
   exists errors,
     errors <> []
     /\ _submit_add_student d code name phone email = (d, ValidationErrors errors))
  /\ (code <> "" -> name <> "" -> ~ In code (map student_id (mock_students d)) ->
      map student_id (mock_students (fst (_submit_add_student d code name phone email)))
      = map student_id (mock_students d) ++ [code])
  /\ (NoDup (map student_id (mock_students d)) ->
      NoDup (map student_id
                 (mock_students (fst (_submit_add_student d code name phone email))))).
Proof.
  assert (Hok : code <> "" -> name <> "" ->
                ~ In code (map student_id (mock_students d)) ->
                map student_id
                    (mock_students (fst (_submit_add_student d code name phone email)))
                = map student_id (mock_students d) ++ [code]).
  { intros H1 H2 H3. unfold _submit_add_student.
    rewrite (proj2 (student_form_errors_nil d code name)) by tauto.
    pose proof (create_student_fields d (mkStudentData code name phone email)) as Hf.
    cbv zeta in Hf.
    destruct (create_student d (mkStudentData code name phone email)) as [d' r].
    cbn [fst snd] in Hf. destruct Hf as (_ & Hs & _).
    assert (E : mock_students (fst (let (d0, result) := (d', r) in
                                    match truthy_id result with
                                    | Some id => (d0, Saved id)
                                    | None => (d0, SaveFailed)
                                    end)) = mock_students d')
      by (cbn; now destruct (truthy_id r)).
    rewrite E, Hs, map_app. reflexivity. }
  split; [|split; [exact Hok|]].
  - intros Hbad. unfold _submit_add_student.
    destruct (student_form_errors d code name) as [|e errors] eqn:E.
    + apply student_form_errors_nil in E. tauto.
    + exists (e :: errors). split; [discriminate | reflexivity].
  - intros Hnd. unfold _submit_add_student.
    destruct (student_form_errors d code name) as [|e errors] eqn:E; [|exact Hnd].
    apply student_form_errors_nil in E. destruct E as (H1 & H2 & H3).
    pose proof (Hok H1 H2 H3) as Hmap. unfold _submit_add_student in Hmap.
    rewrite (proj2 (student_form_errors_nil d code name)) in Hmap by tauto.
    rewrite Hmap. apply NoDup_app; [exact Hnd | |].
    + repeat constructor. intros [].
    + intros c Hin [<-|[]]. contradiction.
Qed.

Lemma submit_add_student_validates_witness :
  let d := _init_mock_data 0 in
  (exists errors,
      errors <> []
      /\ _submit_add_student d "STU002" "Ann Lee" "" "" = (d, ValidationErrors errors))
  /\ map student_id (mock_students (fst (_submit_add_student d "STU004" "Ann Lee" "" "")))
     = ["STU001"; "STU002"; "STU003"; "STU004"]
  /\ snd (_submit_add_student d "STU004" "Ann Lee" "" "") = Saved 4.
Proof.
  intros d.
  destruct (submit_add_student_validates d "STU002" "Ann Lee" "" "") as (Hbad & _).
  destruct (submit_add_student_validates d "STU004" "Ann Lee" "" "") as (_ & Hgood & _).
  split; [apply Hbad; right; right; cbn; tauto|].
  split; [|reflexivity].
  apply Hgood; try discriminate. cbn. intuition discriminate.
Defined.

(* ----------------------------------------------------------------- *)
(** ** X16 - X19: inventory intake *)

Lemma fold_left_max_le l bound : forall x,
  x <= bound -> (forall y, In y l -> y <= bound) -> fold_left Z.max l x <= bound.
Proof.
  induction l as [|a l IH]; intros x Hx Hl; simpl; [exact Hx|].
  apply IH.
  - pose proof (Hl a (or_introl eq_refl)). lia.
  - intros y Hy. apply Hl. now right.
Qed.

Lemma max_default_numbered n : max_default (numbered n) 0 = Z.of_nat n.
Proof.
  destruct n as [|n]; [reflexivity|].
  assert (Hin : In (Z.of_nat (S n)) (numbered (S n))) by (apply in_numbered; lia).
  pose proof (max_default_ge _ 0 _ Hin) as Hge.
  assert (Hle : max_default (numbered (S n)) 0 <= Z.of_nat (S n)).
  { unfold max_default. destruct (numbered (S n)) as [|x l] eqn:E; [lia|].
    apply fold_left_max_le.
    - assert (In x (numbered (S n))) by (rewrite E; now left).
      apply in_numbered in H. lia.
    - intros y Hy. assert (In y (numbered (S n))) by (rewrite E; now right).
      apply in_numbered in H. lia. }
  lia.
Qed.

Lemma add_quantity_ids invs name q :
  map inv_id (add_quantity invs name q) = map inv_id invs.
Proof.
  induction invs as [|inv rest IH]; simpl; [reflexivity|].
  destruct (name_matches name inv); simpl; [reflexivity | now rewrite IH].
Qed.

Lemma add_quantity_names invs name q :
  map inv_name (add_quantity invs name q) = map inv_name invs.
Proof.
  induction invs as [|inv rest IH]; simpl; [reflexivity|].
  destruct (name_matches name inv); simpl; [reflexivity | now rewrite IH].
Qed.

Lemma add_quantity_total invs name q found :
  find (name_matches name) invs = Some found ->
  total_quantity (add_quantity invs name q) = total_quantity invs + q.
Proof.
  induction invs as [|inv rest IH]; simpl; [discriminate|].
  destruct (name_matches name inv); simpl.
  - intros _. lia.
  - intros H. rewrite (IH H). lia.
Qed.

Lemma total_quantity_app l1 l2 :
  total_quantity (l1 ++ l2) = total_quantity l1 + total_quantity l2.
Proof. induction l1 as [|a l IH]; simpl; [reflexivity | rewrite IH; lia]. Qed.

Lemma add_quantity_length invs name q :
  List.length (add_quantity invs name q) = List.length invs.
Proof.
  rewrite <- (length_map inv_id (add_quantity _ _ _)), add_quantity_ids.
  apply length_map.
Qed.

Lemma valid_row_spec row :
  valid_row row = true <->
  exists name q descr, converted row = Some (name, q, descr) /\ name <> "" /\ 0 < q.
Proof.
  unfold valid_row. destruct (converted row) as [[[name q] descr]|].
  - rewrite andb_true_iff, negb_true_iff, String.eqb_neq, Z.ltb_lt. split.
    + intros [Hn Hq]. now exists name, q, descr.
    + intros (name' & q' & descr' & H & Hn & Hq). injection H as <- <- <-. now split.
  - split; [discriminate | intros (? & ? & ? & H & _); discriminate].
Qed.

(** The fields of the store a row that is not skipped leaves. *)
Lemma import_row_written d name q descr items :
  let d' := set_items (set_inventory d (inventory_after d name q descr)) items in
  mock_inventory d' = inventory_after d name q descr /\ mock_items d' = items.
Proof. now destruct d. Qed.

Lemma inventory_after_ids d name q descr :
  map inv_id (mock_inventory d) = numbered (List.length (mock_inventory d)) ->
  map inv_id (inventory_after d name q descr)
  = numbered (List.length (inventory_after d name q descr)).
Proof.
  intros Hnum. unfold inventory_after.
  destruct (find _ (mock_inventory d)).
  - now rewrite add_quantity_ids, add_quantity_length.
  - rewrite map_app, length_app, Hnum. cbn [map List.length inv_id].
    rewrite Nat.add_1_r, numbered_S. reflexivity.
Qed.

Lemma import_row_inventory_ids d ic xc row :
  map inv_id (mock_inventory d) = numbered (List.length (mock_inventory d)) ->
  map inv_id (mock_inventory (fst (import_row (d, (ic, xc)) row)))
  = numbered (List.length (mock_inventory (fst (import_row (d, (ic, xc)) row)))).
Proof.
  intros Hnum.
  destruct (import_row_store d ic xc row)
    as [->|(name & q & descr & k & _ & _ & _ & ->)]; [exact Hnum|].
  match goal with |- context [set_items _ ?items] =>
    destruct (import_row_written d name q descr items) as [-> _] end.
  now apply inventory_after_ids.
Qed.

(** X16: in a store whose inventory records are numbered 1..n,
    [create_inventory] hands out n+1, the id [bulk_import_inventory] gives
    a new component, and both leave the records numbered 1..n': the two
    ways of adding a component never produce the same id twice.  For the
    import this holds of the store it leaves, whether it returns or
    raises. *)
Theorem inventory_ids_stay_numbered (d : DatabaseManager)
    (Hnumbered : map inv_id (mock_inventory d)
                 = numbered (List.length (mock_inventory d))) :
  (forall data,
      snd (create_inventory d data) = Some (len (mock_inventory d) + 1)
      /\ map inv_id (mock_inventory (fst (create_inventory d data)))
         = numbered (List.length (mock_inventory (fst (create_inventory d data)))))
  /\ (forall rows,
         map inv_id (mock_inventory (fst (bulk_import_inventory d rows)))
         = numbered (List.length (mock_inventory (fst (bulk_import_inventory d rows))))).
Proof.
  split.
  - intros data. unfold create_inventory. cbn [fst snd].
    rewrite Hnumbered, max_default_numbered.
    split; [reflexivity|].
    destruct d as [invs items sts staff txs tis];
      cbn [set_inventory mock_inventory] in *.
    rewrite map_app, length_app, Hnumbered. cbn [map List.length inv_id].
    rewrite Nat.add_1_r, numbered_S. reflexivity.
  - intros rows. unfold bulk_import_inventory.
    apply (import_rows_keep
             (fun d' => map inv_id (mock_inventory d')
                        = numbered (List.length (mock_inventory d'))));
      [|exact Hnumbered].
    intros d0 ic xc row. apply import_row_inventory_ids.
Qed.

Lemma inventory_ids_stay_numbered_witness :
  snd (create_inventory (_init_mock_data 0) (mkInventoryData "Servo" 4 None None)) = Some 4
  /\ map inv_id
         (mock_inventory
            (fst (bulk_import_inventory (_init_mock_data 0)
                    [mkRow (Text "Servo") (Whole 2) (Text "");
                     mkRow (Text "Relay") (Whole 1) (Text "");
                     mkRow (Float NaN) (Whole 1) (Text "")])))
     = [1; 2; 3; 4; 5].
Proof.
  destruct (inventory_ids_stay_numbered (_init_mock_data 0) eq_refl) as [Hcreate Himport].
  split.
  - apply (Hcreate (mkInventoryData "Servo" 4 None None)).
  - exact (Himport [mkRow (Text "Servo") (Whole 2) (Text "");
                    mkRow (Text "Relay") (Whole 1) (Text "");
                    mkRow (Float NaN) (Whole 1) (Text "")]).
Defined.

Lemma inventory_after_growth d name q descr :
  len (inventory_after d name q descr)
  = len (mock_inventory d)
    + match find (name_matches name) (mock_inventory d) with
      | Some _ => 0
      | None => 1
      end
  /\ total_quantity (inventory_after d name q descr)
     = total_quantity (mock_inventory d) + q.
Proof.
  unfold inventory_after.
  destruct (find _ (mock_inventory d)) as [found|] eqn:F.
  - rewrite (add_quantity_total _ _ _ found F).
    unfold len. rewrite add_quantity_length. lia.
  - rewrite len_app, total_quantity_app. cbn. lia.
Qed.

(** The records never become fewer, whether the row returns or raises. *)
Lemma import_row_never_shrinks d ic xc row :
  len (mock_items d) <= len (mock_items (fst (import_row (d, (ic, xc)) row)))
  /\ len (mock_inventory d) <= len (mock_inventory (fst (import_row (d, (ic, xc)) row))).
Proof.
  destruct (import_row_store d ic xc row)
    as [->|(name & q & descr & k & _ & _ & _ & ->)]; [lia|].
  match goal with |- context [set_items _ ?items] =>
    destruct (import_row_written d name q descr items) as [-> ->] end.
  destruct (inventory_after_growth d name q descr) as [-> _].
  rewrite len_app. unfold len at 3.
  destruct (find _ (mock_inventory d)); lia.
Qed.

(** The growth of the store over a row that returns its counts. *)
Lemma import_row_growth d ic xc row ic' xc' :
  snd (import_row (d, (ic, xc)) row) = inr (ic', xc') ->
  let d' := fst (import_row (d, (ic, xc)) row) in
  len (mock_items d') = len (mock_items d) + (xc' - xc)
  /\ len (mock_inventory d') = len (mock_inventory d) + (ic' - ic)
  /\ total_quantity (mock_inventory d') = total_quantity (mock_inventory d) + (xc' - xc)
  /\ 0 <= ic' - ic <= 1
  /\ 0 <= xc' - xc.
Proof.
  intros Hret. cbv zeta.
  destruct (import_row_returns d ic xc row ic' xc' Hret)
    as [(_ & -> & -> & ->)|(name & q & descr & _ & _ & Hq & -> & -> & ->)]; [lia|].
  match goal with |- context [set_items _ ?items] =>
    destruct (import_row_written d name q descr items) as [-> ->] end.
  destruct (inventory_after_growth d name q descr) as [-> ->].
  rewrite len_app. unfold len at 2. rewrite imported_items_length.
  destruct (find _ (mock_inventory d)); lia.
Qed.

Lemma import_rows_growth rows : forall d ic xc ic' xc',
  snd (import_rows rows (d, (ic, xc))) = inr (ic', xc') ->
  let d' := fst (import_rows rows (d, (ic, xc))) in
  len (mock_items d') = len (mock_items d) + (xc' - xc)
  /\ len (mock_inventory d') = len (mock_inventory d) + (ic' - ic)
  /\ total_quantity (mock_inventory d') = total_quantity (mock_inventory d) + (xc' - xc)
  /\ 0 <= ic' - ic <= len rows
  /\ 0 <= xc' - xc.
Proof.
  induction rows as [|row rows IH]; intros d ic xc ic' xc'; cbn [import_rows fst snd].
  - intros H. injection H as <- <-. unfold len. simpl. lia.
  - pose proof (import_row_growth d ic xc row) as Hrow.
    destruct (import_row (d, (ic, xc)) row) as [d1 [e|[ic1 xc1]]]; [discriminate|].
    intros Hret. specialize (Hrow ic1 xc1 eq_refl). cbv zeta in Hrow. cbn [fst] in Hrow.
    specialize (IH d1 ic1 xc1 ic' xc' Hret). cbv zeta in IH.
    change (len (row :: rows)) with (Z.of_nat (S (List.length rows))).
    unfold len in *. lia.
Qed.

(** X17: when [bulk_import_inventory] returns, its two counts are the
    numbers of records it appended: the items grow by the second count,
    the inventory records by the first, which is at most the number of
    rows; and neither collection ever shrinks, whether the import returns
    or raises. *)
Theorem bulk_import_counts_match (d : DatabaseManager) (rows : list CsvRow) :
  let d' := fst (bulk_import_inventory d rows) in
  (len (mock_items d) <= len (mock_items d')
   /\ len (mock_inventory d) <= len (mock_inventory d'))
  /\ forall inventory_created items_created,
       snd (bulk_import_inventory d rows) = inr (inventory_created, items_created) ->
       len (mock_items d') = len (mock_items d) + items_created
       /\ len (mock_inventory d') = len (mock_inventory d) + inventory_created
       /\ 0 <= inventory_created <= len rows
       /\ 0 <= items_created.
Proof.
  cbv zeta. unfold bulk_import_inventory. split.
  - apply (import_rows_keep
             (fun d' => len (mock_items d) <= len (mock_items d')
                        /\ len (mock_inventory d) <= len (mock_inventory d')));
      [|lia].
    intros d0 ic xc row H0.
    pose proof (import_row_never_shrinks d0 ic xc row). lia.
  - intros ic xc Hret.
    pose proof (import_rows_growth rows d 0 0 ic xc Hret) as H. cbv zeta in H.
    destruct H as (H1 & H2 & _ & H4 & H5). repeat split; lia.
Qed.

Lemma bulk_import_counts_match_witness :
  let rows := [mkRow (Text "arduino") (Whole 2) (Text "");
               mkRow (Text "Servo") (Text "3") NoColumn;
               mkRow (Text "") (Whole 9) (Text "")] in
  let d' := fst (bulk_import_inventory (_init_mock_data 0) rows) in
  snd (bulk_import_inventory (_init_mock_data 0) rows) = inr (1, 5)
  /\ len (mock_items d') = len (mock_items (_init_mock_data 0)) + 5
  /\ len (mock_inventory d') = len (mock_inventory (_init_mock_data 0)) + 1.
Proof.
  intros rows d'.
  destruct (bulk_import_counts_match (_init_mock_data 0) rows) as [_ Hcounts].
  destruct (Hcounts 1 5 eq_refl) as (Hitems & Hinv & _).
  split; [reflexivity|]. split; [exact Hitems | exact Hinv].
Defined.

(** X18: over an import that returns, the sum of the [total_qty] of the
    inventory records grows by exactly the number of items created. *)
Theorem bulk_import_total_quantity (d : DatabaseManager) (rows : list CsvRow)
    (inventory_created items_created : Z) :
  snd (bulk_import_inventory d rows) = inr (inventory_created, items_created) ->
  total_quantity (mock_inventory (fst (bulk_import_inventory d rows)))
  = total_quantity (mock_inventory d) + items_created.
Proof.
  unfold bulk_import_inventory. intros Hret.
  pose proof (import_rows_growth rows d 0 0 _ _ Hret) as H. cbv zeta in H.
  destruct H as (_ & _ & H3 & _). lia.
Qed.

Lemma bulk_import_total_quantity_witness :
  let rows := [mkRow (Text "arduino") (Whole 2) (Text "");
               mkRow (Text "Servo") (Text "3") NoColumn;
               mkRow (Text "") (Whole 9) (Text "")] in
  map total_qty (mock_inventory (fst (bulk_import_inventory (_init_mock_data 0) rows)))
  = [12; 5; 20; 3]
  /\ total_quantity (mock_inventory (fst (bulk_import_inventory (_init_mock_data 0) rows)))
     = total_quantity (mock_inventory (_init_mock_data 0)) + 5.
Proof.
  intros rows. split; [reflexivity|].
  apply (bulk_import_total_quantity (_init_mock_data 0) rows 1 5). reflexivity.
Defined.

(** *** Known components *)

Lemma known_by_names invs invs' name :
  map inv_name invs' = map inv_name invs ->
  existsb (name_matches name) invs' = existsb (name_matches name) invs.
Proof.
  revert invs'. induction invs as [|a l IH]; intros [|a' l'] H; try discriminate;
    [reflexivity|].
  simpl in *. injection H as Ha Hl. unfold name_matches at 1 3. rewrite Ha.
  f_equal. now apply IH.
Qed.

Lemma find_known invs name :
  existsb (name_matches name) invs = true ->
  exists found, find (name_matches name) invs = Some found.
Proof.
  induction invs as [|a l IH]; simpl; [discriminate|].
  destruct (name_matches name a); [intros _; now exists a | exact IH].
Qed.

Lemma inventory_after_keeps_known d name0 q descr name :
  existsb (name_matches name) (mock_inventory d) = true ->
  existsb (name_matches name) (inventory_after d name0 q descr) = true.
Proof.
  intros H. unfold inventory_after.
  destruct (find _ (mock_inventory d)).
  - rewrite (known_by_names (mock_inventory d)); [exact H | apply add_quantity_names].
  - rewrite existsb_app, H. reflexivity.
Qed.

Lemma inventory_after_makes_known d name q descr :
  existsb (name_matches name) (inventory_after d name q descr) = true.
Proof.
  unfold inventory_after.
  destruct (find _ (mock_inventory d)) as [found|] eqn:F.
  - rewrite (known_by_names (mock_inventory d)); [|apply add_quantity_names].
    apply find_some in F. apply existsb_exists. now exists found.
  - rewrite existsb_app. cbn [existsb]. unfold name_matches at 2. cbn [inv_name].
    now rewrite String.eqb_refl, !orb_true_r.
Qed.

Lemma import_row_keeps_known d ic xc row name :
  known_component d name = true ->
  known_component (fst (import_row (d, (ic, xc)) row)) name = true.
Proof.
  unfold known_component. intros H.
  destruct (import_row_store d ic xc row)
    as [->|(name0 & q & descr & k & _ & _ & _ & ->)]; [exact H|].
  match goal with |- context [set_items _ ?items] =>
    destruct (import_row_written d name0 q descr items) as [-> _] end.
  now apply inventory_after_keeps_known.
Qed.

Lemma import_rows_keep_known rows d ic xc name :
  known_component d name = true ->
  known_component (fst (import_rows rows (d, (ic, xc)))) name = true.
Proof.
  apply (import_rows_keep (fun d' => known_component d' name = true)).
  intros d0 ic0 xc0 row. apply import_row_keeps_known.
Qed.

(** After an import that returned, the name of every row that was not
    skipped is the name of an inventory record. *)
Lemma import_rows_make_known rows : forall d ic xc counts row name q descr,
  snd (import_rows rows (d, (ic, xc))) = inr counts ->
  In row rows -> converted row = Some (name, q, descr) -> name <> "" -> 0 < q ->
  known_component (fst (import_rows rows (d, (ic, xc)))) name = true.
Proof.
  induction rows as [|r rows IH]; intros d ic xc counts row name q descr Hret Hin Hconv Hn Hq;
    [contradiction|].
  cbn [import_rows] in *.
  destruct Hin as [->|Hin].
  - destruct (import_row_valid d ic xc row name q descr Hconv Hn Hq) as (k & _ & Heq & _).
    rewrite Heq in *.
    destruct (k =? Z.to_nat q)%nat; [|discriminate Hret].
    apply import_rows_keep_known. unfold known_component.
    match goal with |- context [set_items _ ?items] =>
      destruct (import_row_written d name q descr items) as [-> _] end.
    apply inventory_after_makes_known.
  - destruct (import_row (d, (ic, xc)) r) as [d1 [e|[ic1 xc1]]]; [discriminate Hret|].
    now apply (IH d1 ic1 xc1 counts row name q descr).
Qed.

(** An import of rows whose names are all known writes no inventory
    record, and says so when it returns. *)
Lemma import_known_rows rows : forall d ic xc,
  (forall row name q descr,
      In row rows -> converted row = Some (name, q, descr) -> name <> "" -> 0 < q ->
      known_component d name = true) ->
  len (mock_inventory (fst (import_rows rows (d, (ic, xc))))) = len (mock_inventory d)
  /\ forall ic' xc', snd (import_rows rows (d, (ic, xc))) = inr (ic', xc') -> ic' = ic.
Proof.
  induction rows as [|r rows IH]; intros d ic xc Hknown; cbn [import_rows fst snd].
  { split; [reflexivity|]. intros ic' xc' H. now injection H as <- _. }
  assert (Hrest : forall row name q descr,
                    In row rows -> converted row = Some (name, q, descr) ->
                    name <> "" -> 0 < q ->
                    known_component (fst (import_row (d, (ic, xc)) r)) name = true).
  { intros row name q descr Hin Hconv Hn Hq. apply import_row_keeps_known.
    apply (Hknown row name q descr); auto. now right. }
  assert (Hlen : len (mock_inventory (fst (import_row (d, (ic, xc)) r)))
                 = len (mock_inventory d)).
  { destruct (import_row_store d ic xc r)
      as [->|(name & q & descr & k & Hconv & Hn & Hq & ->)]; [reflexivity|].
    match goal with |- context [set_items _ ?items] =>
      destruct (import_row_written d name q descr items) as [-> _] end.
    destruct (inventory_after_growth d name q descr) as [-> _].
    pose proof (Hknown r name q descr (or_introl eq_refl) Hconv Hn Hq) as Hk.
    apply find_known in Hk. destruct Hk as [found ->]. lia. }
  assert (Hic : forall ic1 xc1,
                  snd (import_row (d, (ic, xc)) r) = inr (ic1, xc1) -> ic1 = ic).
  { intros ic1 xc1 Hret.
    destruct (import_row_returns d ic xc r ic1 xc1 Hret)
      as [(_ & _ & -> & _)|(name & q & descr & Hconv & Hv & Hq & _ & -> & _)];
      [reflexivity|].
    apply valid_row_spec in Hv.
    destruct Hv as (name' & q' & descr' & Hconv' & Hn & _).
    rewrite Hconv in Hconv'. injection Hconv' as <- <- <-.
    pose proof (Hknown r name q descr (or_introl eq_refl) Hconv Hn Hq) as Hk.
    apply find_known in Hk. now destruct Hk as [found ->]. }
  destruct (import_row (d, (ic, xc)) r) as [d1 [e|[ic1 xc1]]]; cbn [fst snd] in *.
  - split; [exact Hlen | discriminate].
  - destruct (IH d1 ic1 xc1 Hrest) as [IHlen IHic].
    rewrite (Hic ic1 xc1 eq_refl) in *.
    split; [now rewrite IHlen | exact IHic].
Qed.

(** X19: importing a second time a table whose import returned creates
    no inventory record, whether the second import returns or raises on
    the way: every component of the table is found by name, and only
    receives more quantity and more items. *)
Theorem reimport_creates_no_inventory (d : DatabaseManager) (rows : list CsvRow)
    (counts : Z * Z) :
  snd (bulk_import_inventory d rows) = inr counts ->
  let d1 := fst (bulk_import_inventory d rows) in
  len (mock_inventory (fst (bulk_import_inventory d1 rows))) = len (mock_inventory d1)
  /\ forall inventory_created items_created,
       snd (bulk_import_inventory d1 rows) = inr (inventory_created, items_created) ->
       inventory_created = 0.
Proof.
  intros Hret d1. unfold bulk_import_inventory in *.
  apply import_known_rows.
  intros row name q descr Hin Hconv Hn Hq.
  now apply (import_rows_make_known rows d 0 0 counts row name q descr).
Qed.

Lemma reimport_creates_no_inventory_witness :
  let rows := [mkRow (Text "Servo") (Whole 3) (Text "sg90");
               mkRow (Text "ARDUINO ") (Whole 1) NoColumn] in
  let d1 := fst (bulk_import_inventory (_init_mock_data 0) rows) in
  snd (bulk_import_inventory (_init_mock_data 0) rows) = inr (1, 4)
  /\ snd (bulk_import_inventory d1 rows) = inr (0, 4)
  /\ len (mock_inventory (fst (bulk_import_inventory d1 rows))) = len (mock_inventory d1).
Proof.
  intros rows d1.
  destruct (reimport_creates_no_inventory (_init_mock_data 0) rows (1, 4) eq_refl)
    as [Hlen _].
  split; [reflexivity|]. split; [reflexivity | exact Hlen].
Defined.

(* ----------------------------------------------------------------- *)
(** ** X20 - X23: the cart and its finalisation *)

Lemma filter_keeps_distinct_keys {V K} (key : V -> K) (keep : V -> bool)
    (xs : list V) (Hxs : NoDup (map key xs)) :
  NoDup (map key (filter keep xs)).
Proof.
  induction xs as [|v xs IH]; simpl in *; [constructor|].
  inversion Hxs as [|? ? Hfresh Hrest]; subst.
  destruct (keep v); simpl; [|now apply IH].
  constructor; [|now apply IH].
  intros Hin. apply Hfresh. apply in_map_iff in Hin. destruct Hin as (w & Hw & Hin).
  apply filter_In in Hin. destruct Hin as [Hin _].
  rewrite <- Hw. now apply in_map.
Qed.

Lemma add_item_to_cart_cases app it :
  (existsb (fun c => item_id c =? item_id it) (cart_items app) = true
   /\ _add_item_to_cart app it = (app, ErrorPopup "Item already in cart!" "Duplicate"))
  \/ (~ In (item_id it) (map item_id (cart_items app))
      /\ _add_item_to_cart app it = (set_cart app (cart_items app ++ [it]), NoPopup)).
Proof.
  unfold _add_item_to_cart.
  destruct (existsb (fun c => item_id c =? item_id it) (cart_items app)) eqn:E.
  - left. now split.
  - right. split; [|reflexivity]. intros Hin.
    apply in_map_iff in Hin. destruct Hin as (c & Hid & Hc).
    assert (Hex : existsb (fun c => item_id c =? item_id it) (cart_items app) = true).
    { apply existsb_exists. exists c. split; [exact Hc | now apply Z.eqb_eq]. }
    congruence.
Qed.

Lemma add_item_to_cart_NoDup app it :
  NoDup (map item_id (cart_items app)) ->
  NoDup (map item_id (cart_items (fst (_add_item_to_cart app it))))
  /\ db (fst (_add_item_to_cart app it)) = db app.
Proof.
  intros H. destruct (add_item_to_cart_cases app it) as [[_ ->]|[Hnew ->]].
  - now split.
  - split; [|reflexivity]. cbn. rewrite map_app. apply NoDup_app; [exact H | |].
    + repeat constructor. intros [].
    + intros x Hx [<-|[]]. contradiction.
Qed.

(** X20: the cart never holds two items with the same id: whatever
    [_add_item_to_cart], [_handle_serial_number], [_confirm_damaged_issue]
    and [_remove_from_cart] are given, a cart with distinct ids is left
    with distinct ids, and none of them touches the store. *)
Theorem cart_ids_stay_distinct (app : LabApp) (it : Item)
    (Hcart : NoDup (map item_id (cart_items app))) :
  (NoDup (map item_id (cart_items (fst (_add_item_to_cart app it))))
   /\ db (fst (_add_item_to_cart app it)) = db app)
  /\ (NoDup (map item_id (cart_items (fst (_handle_serial_number app it))))
      /\ db (fst (_handle_serial_number app it)) = db app)
  /\ (NoDup (map item_id (cart_items (fst (_confirm_damaged_issue app it))))
      /\ db (fst (_confirm_damaged_issue app it)) = db app)
  /\ (NoDup (map item_id (cart_items (_remove_from_cart app it)))
      /\ db (_remove_from_cart app it) = db app).
Proof.
  pose proof (add_item_to_cart_NoDup app it Hcart) as Hadd.
  split; [exact Hadd|]. split; [|split; [exact Hadd|]].
  - unfold _handle_serial_number. destruct (status it); try exact Hadd; now split.
  - split; [|reflexivity]. cbn. now apply filter_keeps_distinct_keys.
Qed.

Lemma cart_ids_stay_distinct_witness :
  let app := mkApp (_init_mock_data 0) [mkItem 1 "ARD001" Available 1] None None "" in
  NoDup (map item_id (cart_items (fst (_handle_serial_number app (mkItem 1 "ARD001" Available 1)))))
  /\ map item_id (cart_items (fst (_handle_serial_number app (mkItem 2 "ARD002" Available 1))))
     = [1; 2].
Proof.
  intros app.
  assert (Hcart : NoDup (map item_id (cart_items app)))
    by (repeat constructor; simpl; tauto).
  destruct (cart_ids_stay_distinct app (mkItem 1 "ARD001" Available 1) Hcart)
    as (_ & (Hnd & _) & _).
  split; [exact Hnd | reflexivity].
Defined.

(** X21: [_remove_from_cart] removes exactly the items with the id of the
    one given and keeps the others in order; removing an item that was
    just added to a cart that did not hold its id restores the cart, and
    an item removed can always be added again. *)
Theorem remove_from_cart_undoes_add (app : LabApp) (it : Item) :
  (forall x, In x (cart_items (_remove_from_cart app it)) <->
             In x (cart_items app) /\ item_id x <> item_id it)
  /\ snd (_add_item_to_cart (_remove_from_cart app it) it) = NoPopup
  /\ (~ In (item_id it) (map item_id (cart_items app)) ->
      _remove_from_cart (fst (_add_item_to_cart app it)) it = app).
Proof.
  split; [|split].
  - intros x. cbn. rewrite filter_In, negb_true_iff, Z.eqb_neq. reflexivity.
  - destruct (add_item_to_cart_cases (_remove_from_cart app it) it) as [[Hex _]|[_ ->]];
      [|reflexivity].
    exfalso. apply existsb_exists in Hex. destruct Hex as (c & Hc & Hid).
    cbn in Hc. apply filter_In in Hc. destruct Hc as [_ Hne].
    rewrite Hid in Hne. discriminate.
  - intros Hnew.
    destruct (add_item_to_cart_cases app it) as [[Hex _]|[_ ->]].
    + exfalso. apply Hnew. apply existsb_exists in Hex. destruct Hex as (c & Hc & Hid).
      apply Z.eqb_eq in Hid. rewrite <- Hid. now apply in_map.
    + unfold _remove_from_cart, set_cart. cbn.
      rewrite filter_app. cbn. rewrite Z.eqb_refl. cbn. rewrite app_nil_r.
      rewrite filter_all_true.
      * now destruct app.
      * intros x Hx. apply negb_true_iff, Z.eqb_neq. intros Heq.
        apply Hnew. rewrite <- Heq. now apply in_map.
Qed.

Lemma remove_from_cart_undoes_add_witness :
  let app := mkApp (_init_mock_data 0) [mkItem 1 "ARD001" Available 1] None None "" in
  _remove_from_cart (fst (_add_item_to_cart app (mkItem 2 "ARD002" Available 1)))
                    (mkItem 2 "ARD002" Available 1) = app.
Proof.
  intros app.
  destruct (remove_from_cart_undoes_add app (mkItem 2 "ARD002" Available 1))
    as (_ & _ & Hundo).
  apply Hundo. simpl. intuition discriminate.
Defined.

Lemma truthy_new_transaction d :
  truthy_id (Some (len (mock_transactions d) + 1)) = Some (len (mock_transactions d) + 1).
Proof.
  unfold truthy_id.
  assert (E : (len (mock_transactions d) + 1 =? 0) = false)
    by (apply Z.eqb_neq; unfold len; lia).
  now rewrite E.
Qed.

Lemma finalize_issue_cases app now :
  (exists issuer s,
      cart_items app <> []
      /\ In s (mock_students (db app))
      /\ dropdown_label (student_name s) (student_id s) = student_dropdown app
      /\ _finalize_issue app now
         = (fst (create_transaction (db app) now (student_pk s)
                                    (map item_id (cart_items app)) (Some issuer)),
            SuccessPopup (len (mock_transactions (db app)) + 1)))
  \/ (exists message title, _finalize_issue app now = (db app, ErrorPopup message title)).
Proof.
  unfold _finalize_issue.
  destruct (cart_items app) as [|c cart] eqn:Ecart; [right; eauto|].
  destruct (selected_issuer app) as [issuer|]; [|right; eauto].
  destruct (String.eqb (student_dropdown app) ""); [right; eauto|].
  destruct (find _ (mock_students (db app))) as [s|] eqn:F; [|right; eauto].
  left. exists issuer, s.
  apply find_some in F. destruct F as [Hs Hlabel]. apply String.eqb_eq in Hlabel.
  split; [discriminate|]. split; [exact Hs|]. split; [exact Hlabel|].
  destruct (create_transaction_fields (db app) now (student_pk s)
              (map item_id (c :: cart)) (Some issuer)) as (Hr & _).
  destruct (create_transaction (db app) now (student_pk s) (map item_id (c :: cart))
                               (Some issuer)) as [d' r].
  cbn [fst snd] in *. rewrite Hr, truthy_new_transaction. reflexivity.
Qed.

(** The item found under an id after the loop that issues a list of ids. *)
Lemma find_item_issue_all ids : forall items i,
  find_item (fold_left (fun l j => update_item_status l j Issued) ids items) i
  = if listed ids i
    then option_map (fun it => with_status it Issued) (find_item items i)
    else find_item items i.
Proof.
  induction ids as [|j ids IH]; intros items i; cbn [fold_left]; [reflexivity|].
  rewrite IH. unfold listed. cbn [existsb].
  destruct (Z.eqb_spec i j) as [->|Hne]; cbn [orb].
  - rewrite find_item_update_same.
    destruct (existsb (Z.eqb j) ids); [|reflexivity].
    now destruct (find_item items j).
  - now rewrite find_item_update_other.
Qed.

(** X22: [_finalize_issue] is all or nothing.  Either it shows the success
    popup with the number of the new transaction, and then the cart was
    not empty, the selected student is on the roster, the store is the
    one [create_transaction] returns for the ids of the cart, and in it
    the stored item of every id of the cart -- the dictionary the cart
    entry is -- has become [Issued]; or it shows an error and leaves the
    store as it was.  It never reports a failure after having written. *)
Theorem finalize_issue_all_or_nothing (app : LabApp) (now : datetime) :
  (exists issuer s,
      cart_items app <> []
      /\ In s (mock_students (db app))
      /\ dropdown_label (student_name s) (student_id s) = student_dropdown app
      /\ _finalize_issue app now
         = (fst (create_transaction (db app) now (student_pk s)
                                    (map item_id (cart_items app)) (Some issuer)),
            SuccessPopup (len (mock_transactions (db app)) + 1))
      /\ forall it, In it (cart_items app) ->
           find_item (mock_items (fst (_finalize_issue app now))) (item_id it)
           = option_map (fun stored => with_status stored Issued)
                        (find_item (mock_items (db app)) (item_id it)))
  \/ (exists message title, _finalize_issue app now = (db app, ErrorPopup message title)).
Proof.
  destruct (finalize_issue_cases app now)
    as [(issuer & s & Hcart & Hs & Hlabel & Heq)|Herr]; [left | now right].
  exists issuer, s. repeat (split; [assumption|]).
  intros it Hit. rewrite Heq. cbn [fst].
  destruct (create_transaction_fields (db app) now (student_pk s)
              (map item_id (cart_items app)) (Some issuer)) as (_ & _ & _ & -> & _).
  rewrite find_item_issue_all.
  assert (Hl : listed (map item_id (cart_items app)) (item_id it) = true).
  { unfold listed. apply existsb_exists. exists (item_id it).
    split; [now apply in_map | apply Z.eqb_refl]. }
  now rewrite Hl.
Qed.

Lemma finalize_issue_all_or_nothing_witness :
  let app := mkApp (consistent_fixture 0)
                   [mkItem 1 "ARD001" Available 1; mkItem 4 "ARD004" Damaged 1]
                   (Some 1) None "Jane Smith (STU002)" in
  snd (_finalize_issue app 10) = SuccessPopup 3
  /\ In (mkItem 4 "ARD004" Damaged 1) (cart_items app)
  /\ find_item (mock_items (fst (_finalize_issue app 10))) 4
     = Some (mkItem 4 "ARD004" Issued 1).
Proof.
  intros app. split; [reflexivity|]. split; [right; now left|].
  destruct (finalize_issue_all_or_nothing app 10)
    as [(issuer & s & _ & _ & _ & _ & Hissued)|(message & title & Herr)].
  - apply (Hissued (mkItem 4 "ARD004" Damaged 1)). right. now left.
  - discriminate Herr.
Defined.

(** X23: on a consistent store, finalising a cart whose items have
    distinct ids, each the id of a stored item that is not [Issued],
    leaves the store consistent, so every item is still [Issued] exactly
    when one line of an [Active] transaction references it. *)
Theorem finalize_issue_keeps_consistency (app : LabApp) (now : datetime)
    (Hc : consistent (db app))
    (Hcart : NoDup (map item_id (cart_items app)))
    (Hguard : forall it, In it (cart_items app) ->
                         exists stored,
                           find_item (mock_items (db app)) (item_id it) = Some stored
                           /\ status stored <> Issued) :
  consistent (fst (_finalize_issue app now))
  /\ status_invariant (fst (_finalize_issue app now)).
Proof.
  assert (H : consistent (fst (_finalize_issue app now))).
  { destruct (finalize_issue_cases app now)
      as [(issuer & s & _ & _ & _ & ->)|(message & title & ->)]; [|exact Hc].
    cbn [fst].
    apply consistent_create_transaction; [exact Hc | exact Hcart |].
    intros i Hi. apply in_map_iff in Hi. destruct Hi as (it & <- & Hit).
    now apply Hguard. }
  split; [exact H | now apply consistent_status_invariant].
Qed.

Lemma finalize_issue_keeps_consistency_witness :
  let app := mkApp (consistent_fixture 0)
                   [mkItem 1 "ARD001" Available 1; mkItem 4 "ARD004" Damaged 1]
                   (Some 1) None "Jane Smith (STU002)" in
  snd (_finalize_issue app 10) = SuccessPopup 3
  /\ consistent (fst (_finalize_issue app 10))
  /\ status_invariant (fst (_finalize_issue app 10)).
Proof.
  intros app. split; [reflexivity|].
  apply (finalize_issue_keeps_consistency app 10).
  - apply consistent_fixture_ok.
  - repeat constructor; simpl; intuition discriminate.
  - intros it [<-|[<-|[]]]; eexists; (split; [reflexivity | discriminate]).
Defined.

(* ----------------------------------------------------------------- *)
(** ** Substrings and stripping *)

Lemma prefix_refl s : String.prefix s s = true.
Proof.
  induction s as [|c s IH]; simpl; [reflexivity|].
  destruct (ascii_dec c c); [exact IH | congruence].
Qed.

Lemma contains_prefix s sub : String.prefix sub s = true -> contains s sub = true.
Proof. intros H. destruct s; cbn [contains]; rewrite H; reflexivity. Qed.

Lemma contains_append_l pre s sub :
  contains s sub = true -> contains (pre ++ s)%string sub = true.
Proof.
  intros H. induction pre as [|c pre IH]; [exact H|].
  change (String c pre ++ s)%string with (String c (pre ++ s)%string).
  cbn [contains]. rewrite IH. apply orb_true_r.
Qed.

Lemma lstrip_suffix s : exists pre, s = (pre ++ PyStr.lstrip s)%string.
Proof.
  induction s as [|c s [pre IH]]; [now exists EmptyString|].
  simpl. destruct (PyStr.is_space c).
  - exists (String c pre). simpl. now rewrite <- IH.
  - now exists EmptyString.
Qed.

Lemma rstrip_prefix s : exists post, s = (PyStr.rstrip s ++ post)%string.
Proof.
  induction s as [|c s [post IH]]; [now exists EmptyString|].
  simpl. destruct (PyStr.rstrip s) as [|c' r'] eqn:E.
  - destruct (PyStr.is_space c).
    + now exists (String c s).
    + exists s. reflexivity.
  - exists post. simpl in *. now rewrite <- IH.
Qed.

Lemma contains_strip s : contains s (PyStr.strip s) = true.
Proof.
  unfold PyStr.strip.
  destruct (lstrip_suffix s) as [pre Hpre].
  destruct (rstrip_prefix (PyStr.lstrip s)) as [post Hpost].
  rewrite Hpre at 1. apply contains_append_l.
  rewrite Hpost at 1. apply contains_prefix, prefix_append.
Qed.

(* ----------------------------------------------------------------- *)
(** ** X24: [search_students] *)

(** X24: [search_students] answers a blank query with the empty list,
    ignores the letter case of an ASCII query, only returns students of
    the roster, and finds every student by their full name and by their
    full student id, provided these are ASCII and not blank.  Outside
    ASCII [lower()] of an uppercased text need not be [lower()] of the
    text, and [strip()] removes more characters, hence the hypotheses. *)
Theorem search_students_finds (d : DatabaseManager) (query : string) :
  (PyStr.strip (lower query) = "" -> search_students d query = [])
  /\ (PyStr.is_ascii query = true ->
      search_students d (PyStr.upper query) = search_students d query)
  /\ (forall s, In s (search_students d query) -> In s (mock_students d))
  /\ (forall s, In s (mock_students d) ->
                PyStr.is_ascii (student_name s) = true ->
                PyStr.strip (lower (student_name s)) <> "" ->
                In s (search_students d (student_name s)))
  /\ (forall s, In s (mock_students d) ->
                PyStr.is_ascii (student_id s) = true ->
                PyStr.strip (lower (student_id s)) <> "" ->
                In s (search_students d (student_id s))).
Proof.
  unfold search_students.
  split; [intros ->; reflexivity|].
  split; [intros _; now rewrite lower_upper|].
  split.
  { intros s. destruct (String.eqb _ ""); [intros [] | intros H].
    apply filter_In in H. tauto. }
  split.
  - intros s Hs _ Hne. apply String.eqb_neq in Hne. rewrite Hne.
    apply filter_In. split; [exact Hs|].
    rewrite (contains_strip (lower (student_name s))). apply orb_true_r.
  - intros s Hs _ Hne. apply String.eqb_neq in Hne. rewrite Hne.
    apply filter_In. split; [exact Hs|].
    now rewrite (contains_strip (lower (student_id s))).
Qed.

Lemma search_students_finds_witness :
  search_students (_init_mock_data 0) "   " = []
  /\ PyStr.is_ascii "john" = true
  /\ search_students (_init_mock_data 0) (PyStr.upper "john")
     = search_students (_init_mock_data 0) "john"
  /\ map student_id (search_students (_init_mock_data 0) "JOHN") = ["STU001"; "STU003"]
  /\ In (mkStudent 2 "Jane Smith" "STU002" "555-0102" "jane.smith@university.edu")
        (search_students (_init_mock_data 0) "Jane Smith").
Proof.
  destruct (search_students_finds (_init_mock_data 0) "   ") as (Hblank & _).
  destruct (search_students_finds (_init_mock_data 0) "john") as (_ & Hcase & _).
  destruct (search_students_finds (_init_mock_data 0) "Jane Smith") as (_ & _ & _ & Hname & _).
  split; [apply Hblank; reflexivity|].
  split; [reflexivity|].
  split; [apply Hcase; reflexivity|].
  split; [reflexivity|].
  apply (Hname (mkStudent 2 "Jane Smith" "STU002" "555-0102" "jane.smith@university.edu")).
  - cbn. tauto.
  - reflexivity.
  - discriminate.
Defined.

(* ----------------------------------------------------------------- *)
(** ** X25, X26: the catalogue filter *)

Lemma is_space_lower_char c : PyStr.is_space (lower_char c) = PyStr.is_space c.
Proof. destruct c as [[] [] [] [] [] [] [] []]; reflexivity. Qed.

Section StripCommutes.

Variable f : ascii -> ascii.
Variable F : string -> string.
Hypothesis F_nil : F EmptyString = EmptyString.
Hypothesis F_cons : forall c r, F (String c r) = String (f c) (F r).
Hypothesis f_space : forall c, PyStr.is_space (f c) = PyStr.is_space c.

Lemma lstrip_commutes s : PyStr.lstrip (F s) = F (PyStr.lstrip s).
Proof.
  induction s as [|c r IH]; [now rewrite F_nil|].
  rewrite F_cons. simpl. rewrite f_space.
  destruct (PyStr.is_space c); [exact IH | now rewrite F_cons].
Qed.

Lemma rstrip_commutes s : PyStr.rstrip (F s) = F (PyStr.rstrip s).
Proof.
  induction s as [|c r IH]; [now rewrite F_nil|].
  rewrite F_cons. simpl. rewrite IH, f_space.
  destruct (PyStr.rstrip r) as [|c' r'].
  - rewrite F_nil. destruct (PyStr.is_space c); [now rewrite F_nil|].
    now rewrite F_cons, F_nil.
  - rewrite !F_cons. reflexivity.
Qed.

Lemma strip_commutes s : PyStr.strip (F s) = F (PyStr.strip s).
Proof. unfold PyStr.strip. now rewrite lstrip_commutes, rstrip_commutes. Qed.

End StripCommutes.

Lemma strip_lower s : PyStr.strip (lower s) = lower (PyStr.strip s).
Proof. now apply (strip_commutes lower_char lower); [| |apply is_space_lower_char]. Qed.

Lemma strip_upper s : PyStr.strip (PyStr.upper s) = PyStr.upper (PyStr.strip s).
Proof. now apply (strip_commutes PyStr.upper_char PyStr.upper); [| |apply is_space_upper_char]. Qed.

Lemma status_text_eqb a b :
  String.eqb (PyStr.strip (status_text a)) (PyStr.strip (status_text b))
  = ItemStatus_eqb a b.
Proof. destruct a, b; reflexivity. Qed.

Lemma filter_map_joined d (p : Item -> bool) :
  map joined_item
      (filter (fun row => p (joined_item row)) (get_all_items d))
  = filter p (mock_items d).
Proof.
  unfold get_all_items.
  induction (mock_items d) as [|it rest IH]; simpl; [reflexivity|].
  destruct (p it); simpl; now rewrite IH.
Qed.

(** X25: with both filters on "All" and a blank search entry the
    catalogue shows every item of the store, in store order; with the
    status filter on one of the three statuses (and nothing else) it shows
    exactly the items with that status, in store order. *)
Theorem catalog_status_filter (d : DatabaseManager) (entry : string)
    (Hblank : PyStr.strip entry = "") :
  _filter_catalog_table d "All" "All" entry = get_all_items d
  /\ map joined_item (_filter_catalog_table d "All" "All" entry) = mock_items d
  /\ forall st,
       map joined_item (_filter_catalog_table d (status_text st) "All" entry)
       = filter (fun it => ItemStatus_eqb (status it) st) (mock_items d).
Proof.
  unfold _filter_catalog_table. rewrite Hblank. cbn [lower].
  assert (Hall : filter (catalog_row_passes d "All" "All" "") (get_all_items d)
                 = get_all_items d).
  { apply filter_all_true. intros row _. reflexivity. }
  split; [exact Hall|]. split.
  - rewrite Hall. unfold get_all_items. rewrite map_map. apply map_id.
  - intros st. rewrite <- filter_map_joined. f_equal.
    apply filter_ext. intros row. unfold catalog_row_passes.
    rewrite status_text_eqb.
    destruct st; cbn; rewrite ?andb_true_r; reflexivity.
Qed.

Lemma catalog_status_filter_witness :
  map (fun row => serial_number (joined_item row))
      (_filter_catalog_table (_init_mock_data 0) "Damaged" "All" "  ") = ["ARD004"]
  /\ map joined_item (_filter_catalog_table (_init_mock_data 0) "All" "All" "  ")
     = mock_items (_init_mock_data 0).
Proof.
  destruct (catalog_status_filter (_init_mock_data 0) "  " eq_refl) as (_ & Hall & _).
  split; [reflexivity | exact Hall].
Defined.

(** X26: the search of the catalogue ignores the letter case of an ASCII
    text entered, and with both filters on "All" every item of the store
    is found by its own serial number.  Outside ASCII [lower()] of an
    uppercased text need not be [lower()] of the text, hence the
    hypothesis of the first part. *)
Theorem catalog_search_finds (d : DatabaseManager)
    (filter_status filter_course entry : string) :
  (PyStr.is_ascii entry = true ->
   _filter_catalog_table d filter_status filter_course (PyStr.upper entry)
   = _filter_catalog_table d filter_status filter_course entry)
  /\ forall it, In it (mock_items d) ->
                In it (map joined_item
                           (_filter_catalog_table d "All" "All" (serial_number it))).
Proof.
  split.
  - intros _. unfold _filter_catalog_table. now rewrite strip_upper, lower_upper.
  - intros it Hit. apply in_map_iff.
    exists (mkJoined it (find_inventory (mock_inventory d) (inventory_id it))).
    split; [reflexivity|].
    unfold _filter_catalog_table. apply filter_In. split.
    + unfold get_all_items. apply in_map_iff. now exists it.
    + unfold catalog_row_passes. cbn [String.eqb andb joined_item].
      destruct (String.eqb (lower (PyStr.strip (serial_number it))) ""); [reflexivity|].
      rewrite <- strip_lower, contains_strip. reflexivity.
Qed.

Lemma catalog_search_finds_witness :
  map (fun row => serial_number (joined_item row))
      (_filter_catalog_table (_init_mock_data 0) "Available" "ECE101" "ARD")
  = ["ARD001"; "ARD002"]
  /\ PyStr.is_ascii " ard" = true
  /\ _filter_catalog_table (_init_mock_data 0) "Available" "ECE101" (PyStr.upper " ard")
     = _filter_catalog_table (_init_mock_data 0) "Available" "ECE101" " ard"
  /\ In (mkItem 5 "RPI001" Available 2)
        (map joined_item (_filter_catalog_table (_init_mock_data 0) "All" "All" "RPI001")).
Proof.
  destruct (catalog_search_finds (_init_mock_data 0) "All" "All" "") as [_ Hfind].
  destruct (catalog_search_finds (_init_mock_data 0) "Available" "ECE101" " ard")
    as [Hcase _].
  split; [reflexivity|].
  split; [reflexivity|].
  split; [apply Hcase; reflexivity|].
  apply (Hfind (mkItem 5 "RPI001" Available 2)). cbn. tauto.
Defined.

(* ----------------------------------------------------------------- *)
(** ** X27 - X29: the activity feed *)

Lemma in_firstn {A} (n : nat) (l : list A) x : In x (firstn n l) -> In x l.
Proof.
  revert l. induction n as [|n IH]; intros [|a l]; simpl; try tauto.
  intros [->|H]; [now left | right; now apply IH].
Qed.

Lemma in_slice_to {A} (limit : Z) (l : list A) x : In x (slice_to limit l) -> In x l.
Proof. unfold slice_to. destruct (limit <? 0); apply in_firstn. Qed.

Lemma slice_to_length {A} (limit : Z) (l : list A) :
  0 <= limit -> (List.length (slice_to limit l) <= Z.to_nat limit)%nat.
Proof.
  intros H. unfold slice_to.
  assert (E : (limit <? 0) = false) by (apply Z.ltb_ge; lia).
  rewrite E, length_firstn. lia.
Qed.

Lemma in_insert_desc x l y : In y (insert_desc x l) <-> y = x \/ In y l.
Proof.
  induction l as [|a l IH]; simpl; [intuition congruence|].
  destruct (key_ltb (created_at x) (created_at a)); simpl; [rewrite IH|];
    intuition congruence.
Qed.

Lemma in_sorted_desc l y : In y (sorted_desc l) <-> In y l.
Proof.
  unfold sorted_desc. induction l as [|a l IH]; simpl; [tauto|].
  rewrite in_insert_desc, IH. intuition congruence.
Qed.

Lemma in_activity_of_transaction d now t a :
  In a (activity_of_transaction d now t) ->
  act_transaction_id a = tx_id t
  /\ act_action a = (if is_active (tx_status t) then "Issue" else "Return")
  /\ act_timestamp a = match created_at t with Some c => c | None => now end
  /\ exists it, In it (mock_items d) /\ act_serial_number a = serial_number it.
Proof.
  unfold activity_of_transaction. intros H.
  apply in_map_iff in H. destruct H as (it & <- & Hit). cbn.
  repeat split. exists it. split; [|reflexivity].
  apply in_flat_map in Hit. destruct Hit as (l & _ & Hit).
  destruct (transaction_id l =? tx_id t); [|contradiction].
  destruct (find_item (mock_items d) (ti_item_id l)) as [it'|] eqn:F; [|contradiction].
  destruct Hit as [<-|[]]. now apply find_item_some in F.
Qed.

Lemma in_get_recent_transactions d now limit a :
  In a (get_recent_transactions d now limit) ->
  exists t, In t (mock_transactions d) /\ In a (activity_of_transaction d now t).
Proof.
  unfold get_recent_transactions. intros H.
  apply in_slice_to in H. apply in_flat_map in H. destruct H as (t & Ht & Ha).
  apply in_slice_to in Ht. rewrite in_sorted_desc in Ht.
  exists t. split; [exact Ht | exact Ha].
Qed.

(** X27: for a limit that is not negative [get_recent_transactions]
    returns at most [limit] records; each record belongs to a stored
    transaction, shows the serial of a stored item, and its action is
    "Issue" when that transaction is [Active] and "Return" otherwise --
    no other action is ever shown. *)
Theorem recent_transactions_bounded (d : DatabaseManager) (now : datetime)
    (limit : Z) (Hlimit : 0 <= limit) :
  len (get_recent_transactions d now limit) <= limit
  /\ forall a,
       In a (get_recent_transactions d now limit) ->
       (exists t, In t (mock_transactions d)
                  /\ tx_id t = act_transaction_id a
                  /\ act_action a = (if is_active (tx_status t) then "Issue" else "Return"))
       /\ (exists it, In it (mock_items d) /\ act_serial_number a = serial_number it)
       /\ (act_action a = "Issue" \/ act_action a = "Return").
Proof.
  split.
  - unfold get_recent_transactions, len.
    pose proof (slice_to_length limit
                  (flat_map (activity_of_transaction d now)
                            (slice_to limit (sorted_desc (mock_transactions d)))) Hlimit).
    lia.
  - intros a Ha. apply in_get_recent_transactions in Ha. destruct Ha as (t & Ht & Ha).
    apply in_activity_of_transaction in Ha. destruct Ha as (Hid & Hact & _ & Hit).
    split; [exists t; now rewrite Hid|]. split; [exact Hit|].
    rewrite Hact. destruct (is_active (tx_status t)); tauto.
Qed.

Lemma recent_transactions_bounded_witness :
  len (get_recent_transactions (_init_mock_data 0) 0 1) <= 1
  /\ map act_serial_number (get_recent_transactions (_init_mock_data 0) 0 5)
     = ["ARD003"; "RPI001"].
Proof.
  destruct (recent_transactions_bounded (_init_mock_data 0) 0 1) as [Hlen _]; [lia|].
  split; [exact Hlen | reflexivity].
Defined.

Lemma resolve_item_feed_shows_return st d i t now now' limit :
  NoDup (map tx_id (mock_transactions d)) ->
  forall a,
    In a (get_recent_transactions (fst (resolve_item st d i t now)) now' limit) ->
    act_transaction_id a = t -> act_action a = "Return".
Proof.
  intros Hdistinct a Ha Hid.
  destruct (resolve_item_fields st d i t now) as (_ & Ht & _).
  rewrite close_transaction_map in Ht by exact Hdistinct.
  apply in_get_recent_transactions in Ha. destruct Ha as (x' & Hx & Ha).
  apply in_activity_of_transaction in Ha. destruct Ha as (Hid' & Hact & _).
  rewrite Hact. rewrite Ht in Hx. apply in_map_iff in Hx. destruct Hx as (x & <- & _).
  unfold reclose in *. destruct (tx_id x =? t) eqn:E; [reflexivity|].
  apply Z.eqb_neq in E. congruence.
Qed.

(** X28: when the transactions have distinct ids, the activity feed
    shows every record of a transaction on which an item was returned or
    reported damaged with the action "Return": a damage report cannot be
    told from a return. *)
Theorem feed_shows_damage_as_return (d : DatabaseManager) (i t : Z)
    (now now' : datetime) (limit : Z)
    (Hdistinct : NoDup (map tx_id (mock_transactions d))) :
  (forall a,
      In a (get_recent_transactions (fst (return_item d i t now)) now' limit) ->
      act_transaction_id a = t -> act_action a = "Return")
  /\ (forall a,
         In a (get_recent_transactions (fst (report_damaged d i t now)) now' limit) ->
         act_transaction_id a = t -> act_action a = "Return").
Proof. split; now apply resolve_item_feed_shows_return. Qed.

Lemma feed_shows_damage_as_return_witness :
  map (fun a => (act_serial_number a, act_action a))
      (get_recent_transactions (fst (report_damaged (_init_mock_data 0) 3 1 20)) 30 5)
  = [("ARD003", "Return"); ("RPI001", "Issue")]
  /\ forall a,
       In a (get_recent_transactions (fst (report_damaged (_init_mock_data 0) 3 1 20)) 30 5) ->
       act_transaction_id a = 1 -> act_action a = "Return".
Proof.
  split; [reflexivity|].
  apply (feed_shows_damage_as_return (_init_mock_data 0) 3 1 20 30 5).
  repeat constructor; simpl; intuition discriminate.
Defined.

(** *** Order of the feed *)

Lemma key_ltb_asym a b : key_ltb a b = true -> key_ltb b a = false.
Proof.
  destruct a, b; simpl; try reflexivity; try discriminate.
  intros H. apply Z.ltb_lt in H. apply Z.ltb_ge. lia.
Qed.

Lemma key_ltb_trans_false a b c :
  key_ltb a b = false -> key_ltb b c = false -> key_ltb a c = false.
Proof.
  destruct a, b, c; simpl; try reflexivity; try discriminate.
  intros H1 H2. apply Z.ltb_ge in H1, H2. apply Z.ltb_ge. lia.
Qed.

Lemma insert_desc_sorted x l : key_sorted l -> key_sorted (insert_desc x l).
Proof.
  induction l as [|a l IH]; simpl; [intros _; split; [intros y [] | exact I]|].
  intros [Ha Hl].
  destruct (key_ltb (created_at x) (created_at a)) eqn:E; simpl.
  - split; [|now apply IH].
    intros y Hy. apply in_insert_desc in Hy. destruct Hy as [->|Hy].
    + now apply key_ltb_asym.
    + now apply Ha.
  - split; [|now split].
    intros y [<-|Hy]; [exact E|].
    apply (key_ltb_trans_false _ (created_at a)); [exact E | now apply Ha].
Qed.

Lemma sorted_desc_sorted l : key_sorted (sorted_desc l).
Proof.
  unfold sorted_desc. induction l as [|a l IH]; simpl; [exact I|].
  now apply insert_desc_sorted.
Qed.

Lemma key_sorted_firstn n : forall l, key_sorted l -> key_sorted (firstn n l).
Proof.
  induction n as [|n IH]; intros [|a l]; simpl; try tauto.
  intros [Ha Hl]. split; [|now apply IH].
  intros y Hy. apply Ha. now apply in_firstn in Hy.
Qed.

Lemma non_increasing_firstn n : forall l, non_increasing l -> non_increasing (firstn n l).
Proof.
  induction n as [|n IH]; intros [|a l]; simpl; try tauto.
  intros [Ha Hl]. split; [|now apply IH].
  intros y Hy. apply Ha. now apply in_firstn in Hy.
Qed.

Lemma non_increasing_app l1 l2 :
  non_increasing l1 -> non_increasing l2 ->
  (forall x y, In x l1 -> In y l2 -> y <= x) ->
  non_increasing (l1 ++ l2).
Proof.
  induction l1 as [|a l1 IH]; simpl; [tauto|].
  intros [Ha Hl1] Hl2 Hcross. split.
  - intros y Hy. apply in_app_or in Hy. destruct Hy as [Hy|Hy].
    + now apply Ha.
    + apply Hcross; [now left | exact Hy].
  - apply IH; [exact Hl1 | exact Hl2|]. intros x y Hx Hy. apply Hcross; [now right | exact Hy].
Qed.

Lemma non_increasing_constant c l :
  (forall x, In x l -> x = c) -> non_increasing l.
Proof.
  induction l as [|a l IH]; simpl; [tauto|].
  intros H. split.
  - intros y Hy. rewrite (H a), (H y); [lia | now right | now left].
  - apply IH. intros x Hx. apply H. now right.
Qed.

Lemma feed_of_sorted_is_ordered d now ts :
  key_sorted ts ->
  (forall t, In t ts -> created_at t <> None) ->
  non_increasing (map act_timestamp (flat_map (activity_of_transaction d now) ts)).
Proof.
  induction ts as [|t ts IH]; simpl; [tauto|].
  intros [Ht Hts] Hsome. rewrite map_app.
  assert (Hstamp : forall u x,
             In x (map act_timestamp (activity_of_transaction d now u)) ->
             x = match created_at u with Some c => c | None => now end).
  { intros u x Hx. apply in_map_iff in Hx. destruct Hx as (a & <- & Ha).
    now apply in_activity_of_transaction in Ha. }
  apply non_increasing_app.
  - apply (non_increasing_constant _ _ (Hstamp t)).
  - apply IH; [exact Hts|]. intros u Hu. apply Hsome. now right.
  - intros x y Hx Hy. apply Hstamp in Hx.
    apply in_map_iff in Hy. destruct Hy as (a & <- & Ha).
    apply in_flat_map in Ha. destruct Ha as (u & Hu & Ha).
    apply in_activity_of_transaction in Ha. destruct Ha as (_ & _ & Hst & _).
    rewrite Hst, Hx. specialize (Ht u Hu).
    pose proof (Hsome t (or_introl eq_refl)) as H1.
    pose proof (Hsome u (or_intror Hu)) as H2.
    destruct (created_at t), (created_at u); try congruence.
    simpl in Ht. apply Z.ltb_ge in Ht. exact Ht.
Qed.

(** X29: when every transaction carries its [created_at], the records of
    the activity feed come most recent first: no record shows a later
    timestamp than a record above it. *)
Theorem recent_transactions_most_recent_first (d : DatabaseManager)
    (now : datetime) (limit : Z)
    (Hstamped : forall t, In t (mock_transactions d) -> created_at t <> None) :
  non_increasing (map act_timestamp (get_recent_transactions d now limit)).
Proof.
  unfold get_recent_transactions.
  assert (H : forall n, non_increasing
                          (map act_timestamp
                               (flat_map (activity_of_transaction d now)
                                         (firstn n (sorted_desc (mock_transactions d)))))).
  { intros n. apply feed_of_sorted_is_ordered.
    - apply key_sorted_firstn, sorted_desc_sorted.
    - intros t Ht. apply Hstamped. apply in_firstn in Ht.
      now rewrite in_sorted_desc in Ht. }
  unfold slice_to. destruct (limit <? 0); rewrite <- firstn_map;
    apply non_increasing_firstn, H.
Qed.

Lemma recent_transactions_most_recent_first_witness :
  let d := fst (create_transaction (_init_mock_data 0) 50 3 [1; 2] (Some 1)) in
  non_increasing (map act_timestamp (get_recent_transactions d 60 5))
  /\ map (fun a => (act_serial_number a, act_timestamp a)) (get_recent_transactions d 60 5)
     = [("ARD001", 50); ("ARD002", 50); ("ARD003", 0); ("RPI001", -864000000000)].
Proof.
  intros d. split; [|reflexivity].
  apply (recent_transactions_most_recent_first d 60 5).
  intros t Ht. cbn in Ht.
  destruct Ht as [<-|[<-|[<-|[]]]]; discriminate.
Defined.
